(** * Kielo2025: the grammar-correction pipeline and its discriminator

    A shallow embedding of [KieloApp/wordgrammarchecker.py],
    [KieloApp/discriminator.py] and, of [KieloApp/app.py], the handlers
    [login] and [process_sections] and the reader [load_users].

    Conventions of the embedding.
    - Python values that travel through the pipeline (what [model_dump()]
      and [json.loads] produce, and what the handlers build) are values of
      [pyval]; a [dict] is an association list with string keys, in
      insertion order.
    - A [str] is a Rocq [string] holding its UTF-8 encoding.  [len],
      indexing and slicing count characters: the bytes that start one.
    - A call that may raise returns a [result]; [Raise e] carries the
      exception class and [str(e)].  Only subclasses of [Exception] are
      modelled (no task cancellation).
    - A coroutine of the checker is embedded twice: as the outcome its
      caller awaits ([awaited]), and as the awaits the event loop resumes
      it at ([coroutine]); the runs of the second give the first.
    - The two oracles ([client.chat.completions.create]) are arguments:
      a function from the request (and the slot of the call in a fan-out)
      to the response or the exception it raises.
    - [json.loads] and [json.dumps] belong to Python's library: the
      definitions take them from the class [Json], and the properties
      hold for every instance.  [python_json] is the instance the
      definitions are run with on concrete documents.
    - Writes to the log files are left out: they return nothing the
      pipeline reads. *)

From Stdlib Require Import ZArith Lia Bool Ascii String List.
From Stdlib Require Import Floats.SpecFloat.
From stdpp Require Import base option list strings pretty gmap.

Local Open Scope string_scope.
Local Open Scope Z_scope.

(** ** Exceptions and results *)

Inductive exn_class : Type :=
| JSONDecodeError
| AttributeError
| TypeError
| KeyError
| IndexError
| ValueError
| RecursionError
| HTTPException (status_code : Z)
| APIError.

Record exn : Type := Exn { exn_cls : exn_class; exn_str : string }.

Inductive result (A : Type) : Type :=
| Return (a : A)
| Raise (e : exn).
Arguments Return {A} a.
Arguments Raise {A} e.

#[global] Instance result_ret : MRet result := fun A a => Return a.
#[global] Instance result_bind : MBind result := fun A B k r =>
  match r with
  | Return a => k a
  | Raise e => Raise e
  end.

(** [try: body except Exception as e: handler(e)] *)
Definition try_except {A : Type} (body : result A) (handler : exn -> A) : A :=
  match body with
  | Return a => a
  | Raise e => handler e
  end.

Definition returns {A : Type} (r : result A) : Prop := exists a, r = Return a.

(** ** Python values *)

#[warnings="-register-all"]
Inductive pyval : Type :=
| VNone
| VBool (b : bool)
| VInt (z : Z)
| VFloat (f : spec_float)
| VStr (s : string)
| VList (l : list pyval)
| VDict (d : list (string * pyval)).

Definition dict : Type := list (string * pyval).

Fixpoint dict_lookup (k : string) (d : dict) : option pyval :=
  match d with
  | [] => None
  | (k', v) :: d' => if String.eqb k k' then Some v else dict_lookup k d'
  end.

(** [d[k] = v]: the key keeps its place when it is there already. *)
Fixpoint dict_set (k : string) (v : pyval) (d : dict) : dict :=
  match d with
  | [] => [(k, v)]
  | (k', v') :: d' =>
      if String.eqb k k' then (k, v) :: d' else (k', v') :: dict_set k v d'
  end.

(** [bool(v)], as [if v] and [not v] use it. *)
Definition truthy (v : pyval) : bool :=
  match v with
  | VNone => false
  | VBool b => b
  | VInt z => negb (Z.eqb z 0)
  | VFloat (S754_zero _) => false
  | VFloat _ => true
  | VStr s => negb (String.eqb s "")
  | VList l => match l with [] => false | _ => true end
  | VDict d => match d with [] => false | _ => true end
  end.

Definition type_name (v : pyval) : string :=
  match v with
  | VNone => "NoneType"
  | VBool _ => "bool"
  | VInt _ => "int"
  | VFloat _ => "float"
  | VStr _ => "str"
  | VList _ => "list"
  | VDict _ => "dict"
  end.

(** [v.get(k, default)]: only a dict has the method. *)
Definition py_get (v : pyval) (k : string) (default : pyval) : result pyval :=
  match v with
  | VDict d => Return (from_option id default (dict_lookup k d))
  | _ => Raise (Exn AttributeError
                  ("'" ++ type_name v ++ "' object has no attribute 'get'"))
  end.

(** [v.name] on an object seen through its dump. *)
Definition py_getattr (v : pyval) (name : string) : result pyval :=
  match v with
  | VDict d =>
      match dict_lookup name d with
      | Some x => Return x
      | None => Raise (Exn AttributeError ("object has no attribute '" ++ name ++ "'"))
      end
  | _ => Raise (Exn AttributeError
                  ("'" ++ type_name v ++ "' object has no attribute '" ++ name ++ "'"))
  end.

(** A character of a [str] starts at every byte of its encoding that is
    not a continuation byte (one of the form [10xxxxxx]). *)
Definition starts_character (c : ascii) : bool :=
  match c with
  | Ascii _ _ _ _ _ _ b6 b7 => negb (b7 && negb b6)
  end.

(** The number of characters of a [str]. *)
Fixpoint str_len (s : string) : nat :=
  match s with
  | EmptyString => 0%nat
  | String c s' => ((if starts_character c then 1 else 0) + str_len s')%nat
  end.

(** The first [n] characters of a [str]. *)
Fixpoint str_take (n : nat) (s : string) : string :=
  match s with
  | EmptyString => ""
  | String c s' =>
      if starts_character c then
        match n with
        | O => ""
        | S n' => String c (str_take n' s')
        end
      else String c (str_take n s')
  end.

(** [len(v)] *)
Definition py_len (v : pyval) : result Z :=
  match v with
  | VStr s => Return (Z.of_nat (str_len s))
  | VList l => Return (Z.of_nat (length l))
  | VDict d => Return (Z.of_nat (length d))
  | _ => Raise (Exn TypeError ("object of type '" ++ type_name v ++ "' has no len()"))
  end.

(** [v[0]] *)
Definition py_index0 (v : pyval) : result pyval :=
  match v with
  | VList (x :: _) => Return x
  | VList [] => Raise (Exn IndexError "list index out of range")
  | VStr (String _ _ as s) => Return (VStr (str_take 1 s))
  | VStr EmptyString => Raise (Exn IndexError "string index out of range")
  | VDict _ => Raise (Exn KeyError "0")
  | _ => Raise (Exn TypeError ("'" ++ type_name v ++ "' object is not subscriptable"))
  end.

(** The number of items [seq[:stop]] keeps of a sequence of [len] items. *)
Definition slice_stop (len stop : Z) : nat :=
  Z.to_nat (if stop <? 0 then Z.max 0 (len + stop) else Z.min stop len).

(** [v[:stop]]; a dict cannot be sliced (the [TypeError] of Python up to
    3.11; later versions raise a [KeyError] there). *)
Definition py_slice_to (v : pyval) (stop : Z) : result pyval :=
  match v with
  | VList l => Return (VList (take (slice_stop (Z.of_nat (length l)) stop) l))
  | VStr s => Return (VStr (str_take (slice_stop (Z.of_nat (str_len s)) stop) s))
  | VDict _ => Raise (Exn TypeError "unhashable type: 'slice'")
  | _ => Raise (Exn TypeError ("'" ++ type_name v ++ "' object is not subscriptable"))
  end.

(** The comparison of a float with an int is exact in Python. *)
Definition float_ltb_int (f : spec_float) (n : Z) : bool :=
  match f with
  | S754_nan => false
  | S754_infinity neg => neg
  | S754_zero _ => 0 <? n
  | S754_finite neg m e =>
      let sm := if neg then Z.neg m else Z.pos m in
      if 0 <=? e then sm * 2 ^ e <? n else sm <? n * 2 ^ (- e)
  end.

(** [v < n] for an int [n]. *)
Definition py_lt_int (v : pyval) (n : Z) : result bool :=
  match v with
  | VBool b => Return ((if b then 1 else 0) <? n)
  | VInt z => Return (z <? n)
  | VFloat f => Return (float_ltb_int f n)
  | _ => Raise (Exn TypeError
                  ("'<' not supported between instances of '" ++ type_name v ++ "' and 'int'"))
  end.

Definition nl : string := String "010"%char "".
Definition dquote : ascii := "034"%char.
Definition squote : ascii := "'"%char.

(** [s.startswith(c)] for a one-character [c]. *)
Definition startswith_char (s : string) (c : ascii) : bool :=
  match s with
  | String c' _ => Ascii.eqb c' c
  | EmptyString => false
  end.

Fixpoint lstrip_chars (chars : list ascii) (s : string) : string :=
  match s with
  | String c s' => if existsb (Ascii.eqb c) chars then lstrip_chars chars s' else s
  | EmptyString => ""
  end.

Definition string_rev (s : string) : string :=
  string_of_list_ascii (rev (list_ascii_of_string s)).

(** [s.strip(chars)] *)
Definition strip_chars (chars : list ascii) (s : string) : string :=
  string_rev (lstrip_chars chars (string_rev (lstrip_chars chars s))).

(** Whether [s.strip()] is the empty string: [s] is made of the characters
    [str.isspace] accepts, read in their UTF-8 encoding. *)
Fixpoint strip_is_empty (s : string) : bool :=
  match s with
  | EmptyString => true
  | String c1 s1 =>
      let b1 := Z.of_N (N_of_ascii c1) in
      if ((9 <=? b1) && (b1 <=? 13)) || ((28 <=? b1) && (b1 <=? 32))
      then strip_is_empty s1
      else
        match s1 with
        | String c2 s2 =>
            let b2 := Z.of_N (N_of_ascii c2) in
            if (b1 =? 194) && ((b2 =? 133) || (b2 =? 160)) then strip_is_empty s2
            else
              match s2 with
              | String c3 s3 =>
                  let b3 := Z.of_N (N_of_ascii c3) in
                  if ((b1 =? 225) && (b2 =? 154) && (b3 =? 128))
                     || ((b1 =? 226) && (b2 =? 128)
                         && (((128 <=? b3) && (b3 <=? 138))
                             || (b3 =? 168) || (b3 =? 169) || (b3 =? 175)))
                     || ((b1 =? 226) && (b2 =? 129) && (b3 =? 159))
                     || ((b1 =? 227) && (b2 =? 128) && (b3 =? 128))
                  then strip_is_empty s3
                  else false
              | EmptyString => false
              end
        | EmptyString => false
        end
  end.

(** [s.lstrip()]: the characters [str.isspace] accepts are dropped from the
    head of [s], read in their UTF-8 encoding. *)
Fixpoint lstrip (s : string) : string :=
  match s with
  | EmptyString => ""
  | String c1 s1 =>
      let b1 := Z.of_N (N_of_ascii c1) in
      if ((9 <=? b1) && (b1 <=? 13)) || ((28 <=? b1) && (b1 <=? 32))
      then lstrip s1
      else
        match s1 with
        | String c2 s2 =>
            let b2 := Z.of_N (N_of_ascii c2) in
            if (b1 =? 194) && ((b2 =? 133) || (b2 =? 160)) then lstrip s2
            else
              match s2 with
              | String c3 s3 =>
                  let b3 := Z.of_N (N_of_ascii c3) in
                  if ((b1 =? 225) && (b2 =? 154) && (b3 =? 128))
                     || ((b1 =? 226) && (b2 =? 128)
                         && (((128 <=? b3) && (b3 <=? 138))
                             || (b3 =? 168) || (b3 =? 169) || (b3 =? 175)))
                     || ((b1 =? 226) && (b2 =? 129) && (b3 =? 159))
                     || ((b1 =? 227) && (b2 =? 128) && (b3 =? 128))
                  then lstrip s3
                  else s
              | EmptyString => s
              end
        | EmptyString => s
        end
  end.

(** [lstrip] on a string read from its end: [s] is the reverse of the
    string, and the bytes of a character come last byte first. *)
Fixpoint lstrip_reversed (s : string) : string :=
  match s with
  | EmptyString => ""
  | String c1 s1 =>
      let b1 := Z.of_N (N_of_ascii c1) in
      if ((9 <=? b1) && (b1 <=? 13)) || ((28 <=? b1) && (b1 <=? 32))
      then lstrip_reversed s1
      else
        match s1 with
        | String c2 s2 =>
            let b2 := Z.of_N (N_of_ascii c2) in
            if (b2 =? 194) && ((b1 =? 133) || (b1 =? 160)) then lstrip_reversed s2
            else
              match s2 with
              | String c3 s3 =>
                  let b3 := Z.of_N (N_of_ascii c3) in
                  if ((b3 =? 225) && (b2 =? 154) && (b1 =? 128))
                     || ((b3 =? 226) && (b2 =? 128)
                         && (((128 <=? b1) && (b1 <=? 138))
                             || (b1 =? 168) || (b1 =? 169) || (b1 =? 175)))
                     || ((b3 =? 226) && (b2 =? 129) && (b1 =? 159))
                     || ((b3 =? 227) && (b2 =? 128) && (b1 =? 128))
                  then lstrip_reversed s3
                  else s
              | EmptyString => s
              end
        | EmptyString => s
        end
  end.

(** [s.strip()] *)
Definition py_strip (s : string) : string :=
  string_rev (lstrip_reversed (string_rev (lstrip s))).

(** [s.split(sep)] for a one-character [sep]: at least one piece. *)
Fixpoint split_char (sep : ascii) (s : string) : list string :=
  match s with
  | EmptyString => [""]
  | String c s' =>
      if Ascii.eqb c sep then "" :: split_char sep s'
      else
        match split_char sep s' with
        | piece :: pieces => String c piece :: pieces
        | [] => [String c ""]
        end
  end.

(** [s.split(sep, 1)[1]] for a one-character [sep]: what follows the first
    [sep], and an [IndexError] when [s] has none. *)
Fixpoint after_first (sep : ascii) (s : string) : result string :=
  match s with
  | EmptyString => Raise (Exn IndexError "list index out of range")
  | String c s' => if Ascii.eqb c sep then Return s' else after_first sep s'
  end.

Fixpoint endswith_char (s : string) (c : ascii) : bool :=
  match s with
  | EmptyString => false
  | String c' EmptyString => Ascii.eqb c' c
  | String _ s' => endswith_char s' c
  end.

Definition drop_first (s : string) : string :=
  match s with
  | EmptyString => ""
  | String _ s' => s'
  end.

(** [s[1:-1]] *)
Definition slice_inner (s : string) : string :=
  string_rev (drop_first (string_rev (drop_first s))).

(** ** Python's [json] module *)

(** [decode s] is [json.loads(s)] on a [str]; [dumps v] is
    [json.dumps(v, ensure_ascii=False, indent=2)]. *)
Class Json : Type := {
  json_decode : string -> result pyval;
  json_dumps : pyval -> string
}.

(** [json.loads(v)] *)
Definition json_loads `{Json} (v : pyval) : result pyval :=
  match v with
  | VStr s => json_decode s
  | _ => Raise (Exn TypeError
                  ("the JSON object must be str, bytes or bytearray, not " ++ type_name v))
  end.

(** ** Requests and responses of the oracle *)

Module Completions.

Record message : Type := Message { role : string; content : string }.

(** The keyword arguments of [client.chat.completions.create]. *)
Record request : Type := Request {
  model : string;
  messages : list message;
  response_format : pyval;
  reasoning_effort : option string;
  max_completion_tokens : option Z
}.

(** A [ChatCompletion] object, seen through [model_dump()]. *)
Record response : Type := Response { model_dump : pyval }.

End Completions.

Abbreviation completion_request := Completions.request.
Abbreviation response := Completions.response.
Abbreviation model_dump := Completions.model_dump.

(** The outcome of awaiting a coroutine: it settles, returning or raising,
    or it is never resumed. *)
Inductive awaited (A : Type) : Type :=
| Settles (r : result A)
| Blocked.
Arguments Settles {A} r.
Arguments Blocked {A}.

(** [await asyncio.gather] of the awaitables [aws]: the results stand in the order of [aws],
    whatever the order in which they settle.  An exception of one of them
    is raised to the caller; otherwise the gather waits for all of them. *)
Fixpoint first_raise {A : Type} (aws : list (awaited A)) : option exn :=
  match aws with
  | [] => None
  | Settles (Raise e) :: _ => Some e
  | _ :: aws' => first_raise aws'
  end.

Fixpoint gather_all {A : Type} (aws : list (awaited A)) : option (list A) :=
  match aws with
  | [] => Some []
  | Settles (Return a) :: aws' => cons a <$> gather_all aws'
  | _ :: _ => None
  end.

Definition gather {A : Type} (aws : list (awaited A)) : awaited (list A) :=
  match first_raise aws with
  | Some e => Settles (Raise e)
  | None =>
      match gather_all aws with
      | Some results => Settles (Return results)
      | None => Blocked
      end
  end.

(** [await asyncio.gather] with [return_exceptions=True]: an exception
    stands in the list as a result. *)
Fixpoint gather_return_exceptions {A : Type} (aws : list (awaited A))
    : awaited (list (result A)) :=
  match aws with
  | [] => Settles (Return [])
  | Blocked :: _ => Blocked
  | Settles r :: aws' =>
      match gather_return_exceptions aws' with
      | Settles (Return rs) => Settles (Return (r :: rs))
      | other => other
      end
  end.

(** ** Coroutines

    A coroutine as the event loop resumes it: what it awaits next, and
    what it goes on with once the await is over.  The awaits of the
    checker are the entry to an [async with] block on the semaphore, the
    exit from it, and the request to the oracle, whose answer (the
    response, or the exception raised at the [await]) the coroutine goes
    on with. *)
Inductive coroutine (A : Type) : Type :=
| Finished (a : A)
| Acquire (k : coroutine A)
| Create (payload : completion_request) (k : result response -> coroutine A)
| Release (k : coroutine A).
Arguments Finished {A} a.
Arguments Acquire {A} k.
Arguments Create {A} payload k.
Arguments Release {A} k.

(** ** wordgrammarchecker.py *)

Module WordGrammarChecker.

(** The object's attributes.  [semaphore] is the value the
    [asyncio.Semaphore] was created with; [client] is the key the
    [AsyncOpenAI] client holds. *)
Record t : Type := Make {
  api_key : string;
  system_prompt : string;
  max_concurrent_requests : Z;
  semaphore : Z;
  n_responses : Z;
  text_data : string;
  chosen_model : string;
  client : string
}.

(** A call [WordGrammarChecker(api_key, system_prompt, ...)]: the two
    positional arguments, the keyword arguments the signature names
    ([None] when left to the default), and the names of the other keywords
    of the call. *)
Record call : Type := Call {
  arg_api_key : string;
  arg_system_prompt : string;
  kw_max_concurrent_requests : option Z;
  kw_n_responses : option Z;
  kw_chosen_model : option string;
  kw_others : list string
}.

(** [asyncio.Semaphore(value)] *)
Definition Semaphore (value : Z) : result Z :=
  if value <? 0
  then Raise (Exn ValueError "Semaphore initial value must be >= 0")
  else Return value.

Definition __init__ (api_key system_prompt : string)
    (max_concurrent_requests n_responses : Z) (chosen_model : string) : result t :=
  semaphore ← Semaphore max_concurrent_requests;
  let api_key' :=
    if negb (String.eqb api_key "")
       && (startswith_char api_key dquote || startswith_char api_key squote)
    then strip_chars [dquote; squote] api_key
    else api_key in
  Return {| api_key := api_key';
            system_prompt := system_prompt;
            max_concurrent_requests := max_concurrent_requests;
            semaphore := semaphore;
            n_responses := n_responses;
            text_data := "";
            chosen_model := chosen_model;
            client := api_key' |}.

(** The call binds its arguments to the signature
    [(api_key, system_prompt, max_concurrent_requests=5, n_responses=1,
    chosen_model="fast")] before the body runs. *)
Definition new (c : call) : result t :=
  match kw_others c with
  | k :: _ =>
      Raise (Exn TypeError
               ("WordGrammarChecker.__init__() got an unexpected keyword argument '"
                ++ k ++ "'"))
  | [] =>
      __init__ (arg_api_key c) (arg_system_prompt c)
        (default 5 (kw_max_concurrent_requests c))
        (default 1 (kw_n_responses c))
        (default "fast" (kw_chosen_model c))
  end.

Definition nullable_string : pyval :=
  VDict [("type", VList [VStr "string"; VStr "null"])].

(** The [response_format] of every payload. *)
Definition my_schema : pyval :=
  VDict [
    ("type", VStr "json_schema");
    ("json_schema", VDict [
      ("name", VStr "my_schema");
      ("strict", VBool true);
      ("schema", VDict [
        ("type", VStr "object");
        ("properties", VDict [
          ("name", VDict [("type", VStr "string");
                          ("description", VStr "The name of the schema")]);
          ("type", VDict [("type", VStr "string");
                          ("enum", VList [VStr "object"])]);
          ("properties", VDict [
            ("type", VStr "object");
            ("properties", VDict [
              ("corrections", VDict [
                ("type", VStr "array");
                ("items", VDict [
                  ("type", VStr "object");
                  ("properties", VDict [
                    ("original_sentence", nullable_string);
                    ("explanation", nullable_string);
                    ("corrected_sentence", nullable_string)]);
                  ("required", VList [VStr "original_sentence";
                                      VStr "explanation";
                                      VStr "corrected_sentence"]);
                  ("additionalProperties", VBool false)])]);
              ("suggestion", VDict [("type", VStr "string")])]);
            ("required", VList [VStr "corrections"; VStr "suggestion"]);
            ("additionalProperties", VBool false)])]);
        ("$defs", VDict []);
        ("required", VList [VStr "name"; VStr "type"; VStr "properties"]);
        ("additionalProperties", VBool false)])])].

Definition user_prompt : string :=
  "Tämä on teksti, josta ehkä voit löytää virheitä, "
  ++ "mutta älä kuitenkaan väkisin yritä löytää virheitä "
  ++ "sieltä, missä niitä ei ole:" ++ nl ++ nl.

Definition create_payload (self : t) : completion_request :=
  let '(model_name, reasoning, system_role_key) :=
    if String.eqb (chosen_model self) "slow"
    then ("o3-mini", true, "developer")
    else ("gpt-4o", false, "system") in
  {| Completions.model := model_name;
     Completions.messages :=
       [ {| Completions.role := system_role_key;
            Completions.content := system_prompt self |};
         {| Completions.role := "user";
            Completions.content := user_prompt ++ text_data self |} ];
     Completions.response_format := my_schema;
     Completions.reasoning_effort := if reasoning then Some "high" else None;
     Completions.max_completion_tokens := None |}.

(** The body of [make_api_call] under the semaphore: the response, or
    [None] when the call raised. *)
Definition api_call (create : completion_request -> result response)
    (payload : completion_request) : option response :=
  match create payload with
  | Return response => Some response
  | Raise _ => None
  end.

(** [async with self.semaphore: ...]: with no permit to take, the
    coroutine waits for a release. *)
Definition make_api_call (self : t) (create : completion_request -> result response)
    (payload : completion_request) : awaited (option response) :=
  if 0 <? semaphore self
  then Settles (Return (api_call create payload))
  else Blocked.

(** [make_api_call] as the coroutine the event loop runs: it enters
    [self.semaphore], awaits the answer to its request, and leaves the
    semaphore on the way out of the block, whether the [try] returned the
    response or the handler returned [None]. *)
Definition make_api_call_coroutine (payload : completion_request)
    : coroutine (option response) :=
  Acquire
    (Create payload (fun answer =>
       Release (Finished (match answer with
                          | Return response => Some response
                          | Raise _ => None
                          end)))).

(** [[self.make_api_call(payload) for _ in range(self.n_responses)]]:
    the coroutines of [process_text], none of which has run yet. *)
Definition call_coroutines (self : t) (payload : completion_request)
    : list (coroutine (option response)) :=
  map (fun _ : nat => make_api_call_coroutine payload)
      (seq 0 (Z.to_nat (n_responses self))).

Section Extract.
Context `{Json}.

Definition is_JSONDecodeError (e : exn) : bool :=
  match exn_cls e with
  | JSONDecodeError => true
  | _ => false
  end.

Definition extract_corrections (response_model : option response)
    : result (pyval * pyval) :=
  match response_model with
  | None => Return (VList [], VStr "")
  | Some response_model =>
      let resp_dict := model_dump response_model in
      choices ← py_get resp_dict "choices" (VList []);
      if negb (truthy choices) then Return (VList [], VStr "")
      else
        choice ← py_index0 choices;
        message ← py_get choice "message" (VDict []);
        content ← py_get message "content" (VStr "");
        let body :=
          data ← json_loads content;
          props ← py_get data "properties" (VDict []);
          corrections ← py_get props "corrections" (VList []);
          suggestion ← py_get props "suggestion" (VStr "");
          Return (corrections, suggestion) in
        match body with
        | Raise e => if is_JSONDecodeError e then Return (VList [], VStr "") else Raise e
        | Return r => Return r
        end
  end.

(** The calls [process_text] hands to [asyncio.gather], in the order of
    [range(self.n_responses)]; the oracle may answer each slot differently. *)
Definition calls (self : t) (create : nat -> completion_request -> result response)
    (payload : completion_request) : list (awaited (option response)) :=
  map (fun i => make_api_call self (create i) payload)
      (seq 0 (Z.to_nat (n_responses self))).

(** [self.text_data = text] *)
Definition set_text_data (self : t) (text : string) : t :=
  {| api_key := api_key self;
     system_prompt := system_prompt self;
     max_concurrent_requests := max_concurrent_requests self;
     semaphore := semaphore self;
     n_responses := n_responses self;
     text_data := text;
     chosen_model := chosen_model self;
     client := client self |}.

(** [process_text] returns the object as it leaves it beside what the
    coroutine gives. *)
Definition process_text (self : t) (create : nat -> completion_request -> result response)
    (text : string) : t * awaited (list (pyval * pyval) * list response) :=
  let self := set_text_data self text in
  let payload := create_payload self in
  (self,
   match gather (calls self create payload) with
   | Blocked => Blocked
   | Settles (Raise e) => Settles (Raise e)
   | Settles (Return responses) =>
       let responses := omap id responses in
       match responses with
       | [] => Settles (Return ([], responses))
       | _ =>
           Settles (results_per_response ← mapM (fun r => extract_corrections (Some r)) responses;
                    Return (results_per_response, responses))
       end
   end).

End Extract.

End WordGrammarChecker.

(** ** discriminator.py *)

Module GrammarDiscriminator.

Record t : Type := Make {
  client : string;
  model : string
}.

Definition __init__ (api_key : string) : t :=
  {| client := api_key; model := "o3" |}.

Definition q : string := String dquote "".

(** [self.validation_prompt], before and after its one replacement field
    [{corrections_json}]. *)
Definition validation_prompt_head : string :=
  nl ++ "Olet asiantuntija suomen kielen kieliopin tarkastaja. Tehtäväsi on arvioida annettujen kielioppikorjausten laatua ja oikeellisuutta." ++ nl
  ++ nl
  ++ "ARVIOINTIKRITEERIT:" ++ nl
  ++ "1. Onko alkuperäisessä lauseessa todella virhe?" ++ nl
  ++ "2. Onko ehdotettu korjaus kieliopillisesti oikein?" ++ nl
  ++ "3. Säilyykö lauseen alkuperäinen merkitys?" ++ nl
  ++ "4. Onko selitys selkeä ja perusteltu?" ++ nl
  ++ "5. Onko korjaus tarpeellinen ja hyödyllinen?" ++ nl
  ++ nl
  ++ "ARVIOITAVAT KORJAUKSET:" ++ nl.

Definition validation_prompt_tail : string :=
  nl ++ nl
  ++ "VASTAUSOHJE:" ++ nl
  ++ "Palauta JSON-objekti, joka sisältää:" ++ nl
  ++ "1. " ++ q ++ "valid_corrections" ++ q ++ ": Lista hyväksytyistä korjauksista (alkuperäisessä muodossa)" ++ nl
  ++ "2. " ++ q ++ "rejected_corrections" ++ q ++ ": Lista hylätyistä korjauksista syineen" ++ nl
  ++ "3. " ++ q ++ "quality_score" ++ q ++ ": Kokonaislaatupisteet 0-100" ++ nl
  ++ "4. " ++ q ++ "summary" ++ q ++ ": Lyhyt yhteenveto arvioinnista" ++ nl
  ++ nl
  ++ "HYVÄKSYMISKYNNYS:" ++ nl
  ++ "- Hyväksy vain korjaukset, jotka ovat selvästi tarpeellisia ja oikeita" ++ nl
  ++ "- Hylkää epäselvät, tarpeettomat tai virheelliset korjaukset" ++ nl
  ++ "- Hylkää korjaukset, jotka muuttavat merkitystä perusteettomasti" ++ nl
  ++ nl
  ++ "Vastaa VAIN JSON-muodossa ilman lisäselityksiä." ++ nl.

(** [self.validation_prompt.format(corrections_json=...)] *)
Definition validation_prompt_format (corrections_json : string) : string :=
  validation_prompt_head ++ corrections_json ++ validation_prompt_tail.

Definition system_message : string :=
  "Olet asiantuntija suomen kielen kieliopin arvioitsija. Vastaa aina JSON-muodossa.".

Section Discriminator.
Context `{Json}.

(** The fallback of [validate_corrections], returned when anything in its
    [try] raised. *)
Definition validation_failed (corrections : pyval) (e : exn) : pyval :=
  VDict [
    ("valid_corrections", corrections);
    ("rejected_corrections", VList []);
    ("quality_score", VInt 50);
    ("summary", VStr ("Validation failed: " ++ exn_str e ++ ". Returned all corrections."));
    ("error", VStr (exn_str e))].

(** The body of the [try] of [validate_corrections].  The logging line
    evaluates [len] of the two lists, and so raises on a result that has
    none. *)
Definition validate_corrections_try (self : t)
    (create : completion_request -> result response)
    (corrections : pyval) (original_text : string) : result pyval :=
  let corrections_json := json_dumps corrections in
  let prompt := validation_prompt_format corrections_json in
  let prompt :=
    if negb (String.eqb original_text "")
    then prompt ++ nl ++ nl ++ "ALKUPERÄINEN TEKSTI KONTEKSTIKSI:" ++ nl ++ original_text
    else prompt in
  response ← create
    {| Completions.model := model self;
       Completions.messages :=
         [ {| Completions.role := "system"; Completions.content := system_message |};
           {| Completions.role := "user"; Completions.content := prompt |} ];
       Completions.response_format := VDict [("type", VStr "json_object")];
       Completions.reasoning_effort := None;
       Completions.max_completion_tokens := Some 2000 |};
  choices ← py_getattr (model_dump response) "choices";
  choice ← py_index0 choices;
  message ← py_getattr choice "message";
  content ← py_getattr message "content";
  validation_result ← json_loads content;
  valid ← py_get validation_result "valid_corrections" (VList []);
  _ ← py_len valid;
  rejected ← py_get validation_result "rejected_corrections" (VList []);
  _ ← py_len rejected;
  _ ← py_get validation_result "quality_score" (VInt 0);
  Return validation_result.

Definition validate_corrections (self : t)
    (create : completion_request -> result response)
    (corrections : pyval) (original_text : string) : pyval :=
  try_except (validate_corrections_try self create corrections original_text)
             (validation_failed corrections).

Definition filter_corrections (self : t)
    (create : completion_request -> result response)
    (corrections : pyval) (original_text : string) (min_quality_score : Z)
    : result (pyval * pyval) :=
  let validation_result := validate_corrections self create corrections original_text in
  valid_corrections ← py_get validation_result "valid_corrections" (VList []);
  quality_score ← py_get validation_result "quality_score" (VInt 0);
  below ← py_lt_int quality_score min_quality_score;
  valid_corrections ←
    (if below : bool
     then n ← py_len valid_corrections;
          py_slice_to valid_corrections (Z.max 1 (n / 2))
     else Return valid_corrections);
  original_count ← py_len corrections;
  filtered_count ← py_len valid_corrections;
  rejected ← py_get validation_result "rejected_corrections" (VList []);
  rejected_count ← py_len rejected;
  summary ← py_get validation_result "summary" (VStr "");
  rejected_reasons ← py_get validation_result "rejected_corrections" (VList []);
  Return (valid_corrections,
          VDict [
            ("discriminator_used", VBool true);
            ("quality_score", quality_score);
            ("original_count", VInt original_count);
            ("filtered_count", VInt filtered_count);
            ("rejected_count", VInt rejected_count);
            ("summary", summary);
            ("rejected_reasons", rejected_reasons)]).

(** The default of [min_quality_score]. *)
Definition min_quality_score_default : Z := 70.

(** The result [batch_validate] puts in the place of a batch whose
    validation raised. *)
Definition batch_fallback (batch : pyval) (e : exn) : pyval * pyval :=
  (batch, VDict [("error", VStr (exn_str e)); ("discriminator_used", VBool false)]).

Fixpoint handle_results (correction_batches : list pyval) (i : nat)
    (results : list (result (pyval * pyval))) : result (list (pyval * pyval)) :=
  match results with
  | [] => Return []
  | r :: results' =>
      x ← match r with
          | Raise e =>
              match correction_batches !! i with
              | Some batch => Return (batch_fallback batch e)
              | None => Raise (Exn IndexError "list index out of range")
              end
          | Return x => Return x
          end;
      xs ← handle_results correction_batches (S i) results';
      Return (x :: xs)
  end.

(** [create i] answers the call made for the batch in slot [i]. *)
Definition batch_validate (self : t)
    (create : nat -> completion_request -> result response)
    (correction_batches : list pyval) (original_texts : option (list string))
    : awaited (list (pyval * pyval)) :=
  let original_texts :=
    match original_texts with
    | None => replicate (length correction_batches) ""
    | Some texts => texts
    end in
  let tasks :=
    imap (fun i '(corrections, text) =>
            Settles (filter_corrections self (create i) corrections text
                       min_quality_score_default))
         (zip correction_batches original_texts) in
  match gather_return_exceptions tasks with
  | Blocked => Blocked
  | Settles (Raise e) => Settles (Raise e)
  | Settles (Return results) => Settles (handle_results correction_batches 0 results)
  end.

End Discriminator.

End GrammarDiscriminator.

(** ** A decoder and an encoder for JSON documents

    [JsonDecoder.decode] follows [json.loads] of CPython on a [str] given
    in UTF-8: the grammar of [json.scanner] and [json.decoder], with [NaN],
    [Infinity] and [-Infinity], duplicate keys keeping the last value, and
    floats rounded to the nearest binary64.  The message of a
    [JSONDecodeError] is kept without its position; the interpreter's
    limits on nesting depth and on the digits of an integer are not
    modelled. *)

Module JsonDecoder.

Definition code (c : ascii) : Z := Z.of_N (N_of_ascii c).
Definition chr (z : Z) : ascii := ascii_of_N (Z.to_N z).

Definition error {A : Type} (msg : string) : result A :=
  Raise (Exn JSONDecodeError msg).

Definition is_whitespace (c : ascii) : bool :=
  let b := code c in (b =? 32) || (b =? 9) || (b =? 10) || (b =? 13).

Fixpoint skip_whitespace (l : list ascii) : list ascii :=
  match l with
  | c :: l' => if is_whitespace c then skip_whitespace l' else l
  | [] => []
  end.

Definition is_digit (c : ascii) : bool := (48 <=? code c) && (code c <=? 57).

Definition hex_value (c : ascii) : option Z :=
  let b := code c in
  if (48 <=? b) && (b <=? 57) then Some (b - 48)
  else if (97 <=? b) && (b <=? 102) then Some (b - 87)
  else if (65 <=? b) && (b <=? 70) then Some (b - 55)
  else None.

Fixpoint span_digits (l : list ascii) : list ascii * list ascii :=
  match l with
  | c :: l' =>
      if is_digit c then let '(ds, rest) := span_digits l' in (c :: ds, rest)
      else ([], l)
  | [] => ([], [])
  end.

Definition decimal (ds : list ascii) : Z :=
  fold_left (fun acc c => 10 * acc + (code c - 48)) ds 0.

(** Four hexadecimal digits. *)
Definition hex4 (l : list ascii) : option (Z * list ascii) :=
  match l with
  | a :: b :: c :: d :: rest =>
      a ← hex_value a; b ← hex_value b; c ← hex_value c; d ← hex_value d;
      Some (((a * 16 + b) * 16 + c) * 16 + d, rest)
  | _ => None
  end.

(** The UTF-8 bytes of a code point (a lone surrogate takes three). *)
Definition utf8 (cp : Z) : list ascii :=
  if cp <? 128 then [chr cp]
  else if cp <? 2048 then [chr (192 + cp / 64); chr (128 + cp mod 64)]
  else if cp <? 65536
  then [chr (224 + cp / 4096); chr (128 + (cp / 64) mod 64); chr (128 + cp mod 64)]
  else [chr (240 + cp / 262144); chr (128 + (cp / 4096) mod 64);
        chr (128 + (cp / 64) mod 64); chr (128 + cp mod 64)].

Definition simple_escape (c : ascii) : option ascii :=
  let b := code c in
  if (b =? 34) || (b =? 92) || (b =? 47) then Some c
  else if b =? 98 then Some (chr 8)
  else if b =? 102 then Some (chr 12)
  else if b =? 110 then Some (chr 10)
  else if b =? 114 then Some (chr 13)
  else if b =? 116 then Some (chr 9)
  else None.

(** [py_scanstring] with [strict=True], from the character after the
    opening quote; [acc] holds the characters read, last first. *)
Fixpoint scanstring (fuel : nat) (l : list ascii) (acc : list ascii)
    : result (string * list ascii) :=
  match fuel with
  | O => Raise (Exn RecursionError "maximum recursion depth exceeded")
  | S fuel =>
      match l with
      | [] => error "Unterminated string starting at"
      | c :: l' =>
          if code c =? 34 then Return (string_of_list_ascii (rev acc), l')
          else if code c =? 92 then
            match l' with
            | [] => error "Unterminated string starting at"
            | e :: l'' =>
                if code e =? 117 then
                  match hex4 l'' with
                  | None => error "Invalid \uXXXX escape"
                  | Some (uni, rest) =>
                      let pair :=
                        if (55296 <=? uni) && (uni <=? 56319) then
                          match rest with
                          | b :: u :: rest' =>
                              if (code b =? 92) && (code u =? 117) then
                                match hex4 rest' with
                                | Some (uni2, rest'') =>
                                    if (56320 <=? uni2) && (uni2 <=? 57343)
                                    then Some (65536 + (uni - 55296) * 1024 + (uni2 - 56320),
                                               rest'')
                                    else None
                                | None => None
                                end
                              else None
                          | _ => None
                          end
                        else None in
                      let '(cp, rest) := default (uni, rest) pair in
                      scanstring fuel rest (rev (utf8 cp) ++ acc)
                  end
                else
                  match simple_escape e with
                  | Some x => scanstring fuel l'' (x :: acc)
                  | None => error "Invalid \escape"
                  end
            end
          else if code c <? 32 then error "Invalid control character at"
          else scanstring fuel l' (c :: acc)
      end
  end.

(** [float(text)] for the text [digits * 10^exponent] of a JSON number,
    rounded to the nearest binary64, ties to even. *)
Definition float_of_decimal (negative : bool) (digits exponent : Z) : spec_float :=
  match digits with
  | Zpos m =>
      if 0 <=? exponent
      then binary_normalize 53 1024
             ((if negative then Z.neg m else Z.pos m) * 10 ^ exponent) 0 negative
      else
        match 10 ^ (- exponent) with
        | Zpos d => SFdiv 53 1024 (S754_finite negative m 0) (S754_finite false d 0)
        | _ => S754_nan
        end
  | _ => S754_zero negative
  end.

(** [NUMBER_RE]: an optional minus sign and an integer part without a
    leading zero, then optionally a point with digits, then optionally an
    exponent with digits. *)
Definition match_number (l : list ascii) : option (pyval * list ascii) :=
  let '(negative, l1) :=
    match l with
    | c :: l' => if code c =? 45 then (true, l') else (false, l)
    | [] => (false, l)
    end in
  let integer :=
    match l1 with
    | c :: l' =>
        if code c =? 48 then Some ([c], l')
        else if is_digit c then Some (span_digits l1)
        else None
    | [] => None
    end in
  '(int_digits, l2) ← integer;
  let '(frac, l3) :=
    match l2 with
    | c :: l' =>
        if code c =? 46 then
          match span_digits l' with
          | ([], _) => (None, l2)
          | (ds, rest) => (Some ds, rest)
          end
        else (None, l2)
    | [] => (None, l2)
    end in
  let '(exp, l4) :=
    match l3 with
    | c :: l' =>
        if (code c =? 101) || (code c =? 69) then
          let '(exp_negative, l'') :=
            match l' with
            | s :: l'' =>
                if code s =? 45 then (true, l'')
                else if code s =? 43 then (false, l'')
                else (false, l')
            | [] => (false, l')
            end in
          match span_digits l'' with
          | ([], _) => (None, l3)
          | (ds, rest) => (Some (if exp_negative then - decimal ds else decimal ds), rest)
          end
        else (None, l3)
    | [] => (None, l3)
    end in
  match frac, exp with
  | None, None =>
      Some (VInt (if negative then - decimal int_digits else decimal int_digits), l4)
  | _, _ =>
      let frac_digits := default [] frac in
      Some (VFloat (float_of_decimal negative
                      (decimal (int_digits ++ frac_digits))
                      (default 0 exp - Z.of_nat (length frac_digits))),
            l4)
  end.

Fixpoint prefix_rest (p l : list ascii) : option (list ascii) :=
  match p, l with
  | [], _ => Some l
  | a :: p', b :: l' => if Ascii.eqb a b then prefix_rest p' l' else None
  | _ :: _, [] => None
  end.

Definition literal (word : string) (v : pyval) (l : list ascii)
    : option (pyval * list ascii) :=
  rest ← prefix_rest (list_ascii_of_string word) l; Some (v, rest).

Definition constant (l : list ascii) : option (pyval * list ascii) :=
  match literal "null" VNone l with Some r => Some r | None =>
  match literal "true" (VBool true) l with Some r => Some r | None =>
  match literal "false" (VBool false) l with Some r => Some r | None =>
  match match_number l with Some r => Some r | None =>
  match literal "NaN" (VFloat S754_nan) l with Some r => Some r | None =>
  match literal "Infinity" (VFloat (S754_infinity false)) l with Some r => Some r | None =>
  literal "-Infinity" (VFloat (S754_infinity true)) l
  end end end end end end.

(** [scan_once], with [JSONArray] and [JSONObject] from their first
    element on. *)
Fixpoint scan_once (fuel : nat) (l : list ascii) : result (pyval * list ascii) :=
  match fuel with
  | O => Raise (Exn RecursionError "maximum recursion depth exceeded")
  | S fuel =>
      match l with
      | [] => error "Expecting value"
      | c :: l' =>
          if code c =? 34 then
            '(s, rest) ← scanstring (S (length l')) l' [];
            Return (VStr s, rest)
          else if code c =? 123 then
            match skip_whitespace l' with
            | c' :: rest =>
                if code c' =? 125 then Return (VDict [], rest)
                else if code c' =? 34 then
                  '(d, rest) ← members fuel rest [];
                  Return (VDict d, rest)
                else error "Expecting property name enclosed in double quotes"
            | [] => error "Expecting property name enclosed in double quotes"
            end
          else if code c =? 91 then
            match skip_whitespace l' with
            | c' :: rest =>
                if code c' =? 93 then Return (VList [], rest)
                else
                  '(vs, rest) ← elements fuel (c' :: rest) [];
                  Return (VList vs, rest)
            | [] => error "Expecting value"
            end
          else
            match constant l with
            | Some r => Return r
            | None => error "Expecting value"
            end
      end
  end
with elements (fuel : nat) (l : list ascii) (acc : list pyval)
    : result (list pyval * list ascii) :=
  match fuel with
  | O => Raise (Exn RecursionError "maximum recursion depth exceeded")
  | S fuel =>
      '(v, rest) ← scan_once fuel l;
      match skip_whitespace rest with
      | c :: rest' =>
          if code c =? 93 then Return (rev (v :: acc), rest')
          else if code c =? 44 then elements fuel (skip_whitespace rest') (v :: acc)
          else error "Expecting ',' delimiter"
      | [] => error "Expecting ',' delimiter"
      end
  end
with members (fuel : nat) (l : list ascii) (acc : dict)
    : result (dict * list ascii) :=
  match fuel with
  | O => Raise (Exn RecursionError "maximum recursion depth exceeded")
  | S fuel =>
      '(key, rest) ← scanstring (S (length l)) l [];
      match skip_whitespace rest with
      | c :: rest' =>
          if code c =? 58 then
            '(v, rest'') ← scan_once fuel (skip_whitespace rest');
            let acc := dict_set key v acc in
            match skip_whitespace rest'' with
            | c' :: rest3 =>
                if code c' =? 125 then Return (acc, rest3)
                else if code c' =? 44 then
                  match skip_whitespace rest3 with
                  | c'' :: rest4 =>
                      if code c'' =? 34 then members fuel rest4 acc
                      else error "Expecting property name enclosed in double quotes"
                  | [] => error "Expecting property name enclosed in double quotes"
                  end
                else error "Expecting ',' delimiter"
            | [] => error "Expecting ',' delimiter"
            end
          else error "Expecting ':' delimiter"
      | [] => error "Expecting ':' delimiter"
      end
  end.

Definition decode (s : string) : result pyval :=
  let l := list_ascii_of_string s in
  match prefix_rest [chr 239; chr 187; chr 191] l with
  | Some _ => error "Unexpected UTF-8 BOM (decode using utf-8-sig)"
  | None =>
      '(v, rest) ← scan_once (2 * length l + 2) (skip_whitespace l);
      match skip_whitespace rest with
      | [] => Return v
      | _ :: _ => error "Extra data"
      end
  end.

End JsonDecoder.

(** [JsonEncoder.dumps] follows [json.dumps] with [ensure_ascii=False] and
    [indent=2].  A finite float is written as its mantissa times a power
    of two, where Python writes the shortest decimal that reads back. *)

Module JsonEncoder.

Definition hex_digit (z : Z) : ascii :=
  if z <? 10 then JsonDecoder.chr (48 + z) else JsonDecoder.chr (87 + z).

Definition escape_char (c : ascii) : list ascii :=
  let b := JsonDecoder.code c in
  let bs := JsonDecoder.chr 92 in
  if b =? 34 then [bs; c]
  else if b =? 92 then [bs; c]
  else if b =? 10 then [bs; "n"%char]
  else if b =? 13 then [bs; "r"%char]
  else if b =? 9 then [bs; "t"%char]
  else if b =? 8 then [bs; "b"%char]
  else if b =? 12 then [bs; "f"%char]
  else if b <? 32
  then [bs; "u"%char; "0"%char; "0"%char; hex_digit (b / 16); hex_digit (b mod 16)]
  else [c].

Definition encode_string (s : string) : string :=
  let quote := String dquote "" in
  quote ++ string_of_list_ascii (concat (map escape_char (list_ascii_of_string s)))
        ++ quote.

Definition encode_float (f : spec_float) : string :=
  match f with
  | S754_nan => "NaN"
  | S754_infinity false => "Infinity"
  | S754_infinity true => "-Infinity"
  | S754_zero false => "0.0"
  | S754_zero true => "-0.0"
  | S754_finite negative m e =>
      (if negative then "-" else "") ++ pretty (Z.pos m) ++ "*2**" ++ pretty e
  end.

Fixpoint spaces (n : nat) : string :=
  match n with
  | O => ""
  | S n' => String " "%char (spaces n')
  end.

Fixpoint join (sep : string) (items : list string) : string :=
  match items with
  | [] => ""
  | [x] => x
  | x :: items' => x ++ sep ++ join sep items'
  end.

Fixpoint encode (level : nat) (v : pyval) : string :=
  match v with
  | VNone => "null"
  | VBool true => "true"
  | VBool false => "false"
  | VInt z => pretty z
  | VFloat f => encode_float f
  | VStr s => encode_string s
  | VList [] => "[]"
  | VList l =>
      let inner := nl ++ spaces (2 * S level) in
      "[" ++ inner ++ join ("," ++ inner) (map (encode (S level)) l)
          ++ nl ++ spaces (2 * level) ++ "]"
  | VDict [] => "{}"
  | VDict d =>
      let inner := nl ++ spaces (2 * S level) in
      "{" ++ inner
          ++ join ("," ++ inner)
               (map (fun kv => encode_string (fst kv) ++ ": " ++ encode (S level) (snd kv)) d)
          ++ nl ++ spaces (2 * level) ++ "}"
  end.

Definition dumps (v : pyval) : string := encode 0 v.

End JsonEncoder.

#[global] Instance python_json : Json :=
  {| json_decode := JsonDecoder.decode; json_dumps := JsonEncoder.dumps |}.


(** ** app.py: the [process_sections] handler *)

Module App.

Record ProcessSectionsRequest : Type := {
  session_token : string;
  selected_titles : list string;
  text_for_corrections : string;
  n_responses : Z;
  selected_model : string
}.

Section Handler.
Context `{Json}.

(** [SESSIONS] maps a token to [(username, api_key)]; [system_prompt] is
    the module's constant. *)
Definition process_sections (SESSIONS : gmap string (string * string))
    (system_prompt : string)
    (create : nat -> completion_request -> result response)
    (data : ProcessSectionsRequest) : awaited pyval :=
  match SESSIONS !! session_token data with
  | None => Settles (Raise (Exn (HTTPException 401) "Not logged in"))
  | Some (username, api_key) =>
      if match selected_titles data with [] => true | _ => false end
         || strip_is_empty (text_for_corrections data)
      then Settles (Raise (Exn (HTTPException 400) "No sections or text provided."))
      else
        let chosen_model := selected_model data in
        match WordGrammarChecker.new
                {| WordGrammarChecker.arg_api_key := api_key;
                   WordGrammarChecker.arg_system_prompt := system_prompt;
                   WordGrammarChecker.kw_max_concurrent_requests := None;
                   WordGrammarChecker.kw_n_responses := Some (n_responses data);
                   WordGrammarChecker.kw_chosen_model := Some chosen_model;
                   WordGrammarChecker.kw_others := ["use_discriminator"] |} with
        | Raise e => Settles (Raise e)
        | Return checker =>
            match snd (WordGrammarChecker.process_text checker create
                         (text_for_corrections data)) with
            | Blocked => Blocked
            | Settles (Raise e) => Settles (Raise (Exn (HTTPException 500) (exn_str e)))
            | Settles (Return (results_per_response, _)) =>
                let output :=
                  imap (fun i '(corrs, sugg) =>
                          VDict [("response_number", VInt (Z.of_nat i + 1));
                                 ("corrections", corrs);
                                 ("suggestion", sugg)])
                       results_per_response in
                Settles (Return (VDict [("results", VList output)]))
            end
        end
  end.

End Handler.

(** [load_users]: [content] is what [f.read()] gives for the file, [None]
    when the file does not exist.  A user is [(username, password, key)]. *)
Definition user : Type := string * string * string.

(** [line.split(":",1)[1].strip()] *)
Definition field (line : string) : result string :=
  value ← after_first ":"%char line; Return (py_strip value).

(** The body of the loop of [load_users]: [block] and [users] as they
    stand before the line is read. *)
Fixpoint read_lines (lines : list string) (block : list string) (users : list user)
    : result (list user) :=
  match lines with
  | [] => Return users
  | line :: lines' =>
      let line := py_strip line in
      if String.eqb line "" then read_lines lines' block users
      else
        let block := (block ++ [line])%list in
        match block with
        | [user_line; pass_line; key_line] =>
            u ← field user_line;
            p ← field pass_line;
            k ← field key_line;
            let k :=
              if startswith_char k dquote && endswith_char k dquote
              then slice_inner k else k in
            read_lines lines' [] (users ++ [(u, p, k)])%list
        | _ => read_lines lines' block users
        end
  end.

Definition load_users (content : option string) : result (list user) :=
  match content with
  | None => Return []
  | Some text => read_lines (split_char "010"%char (py_strip text)) [] []
  end.

Record LoginRequest : Type := {
  username : string;
  password : string
}.

(** The loop of [login] over [USERS]: the first user with the name and
    the password. *)
Fixpoint find_user (USERS : list user) (name pass : string) : option user :=
  match USERS with
  | [] => None
  | (u, p, k) :: USERS' =>
      if String.eqb u name && String.eqb p pass then Some (u, p, k)
      else find_user USERS' name pass
  end.

(** [login]: [token] is the [str(uuid.uuid4())] of the call; the handler
    returns [SESSIONS] as it leaves it beside its answer. *)
Definition login (USERS : list user) (SESSIONS : gmap string (string * string))
    (token : string) (login_data : LoginRequest)
    : gmap string (string * string) * result pyval :=
  match find_user USERS (username login_data) (password login_data) with
  | Some (u, p, k) =>
      (<[token := (u, k)]> SESSIONS, Return (VDict [("session_token", VStr token)]))
  | None =>
      (SESSIONS, Raise (Exn (HTTPException 401) "Invalid credentials"))
  end.

End App.

(** ** The fan-out of [process_text] as interleaved tasks

    Each call of [make_api_call] is a task: it waits for a permit of the
    semaphore, holds it while the oracle call is in flight, and gives it
    back when the call has returned or raised.  A step is one task taking
    a permit or one task leaving the [async with] block; the scheduler may
    pick any task that can move.  This is the event loop of [EventLoop]
    below with the answer to a request left out of sight. *)

Module Fanout.

Inductive phase : Type :=
| Waiting
| InFlight
| Settled (r : option response).

Record state : Type := State {
  permits : Z;
  tasks : list phase
}.

Definition initial (self : WordGrammarChecker.t) : state :=
  {| permits := WordGrammarChecker.semaphore self;
     tasks := replicate (Z.to_nat (WordGrammarChecker.n_responses self)) Waiting |}.

Section Run.
Variable create : nat -> completion_request -> result response.
Variable payload : completion_request.

Inductive step : state -> state -> Prop :=
| step_acquire (st : state) (i : nat) :
    tasks st !! i = Some Waiting ->
    0 < permits st ->
    step st {| permits := permits st - 1; tasks := <[i := InFlight]> (tasks st) |}
| step_release (st : state) (i : nat) :
    tasks st !! i = Some InFlight ->
    step st {| permits := permits st + 1;
               tasks := <[i := Settled (WordGrammarChecker.api_call (create i) payload)]>
                          (tasks st) |}.

Definition reachable (self : WordGrammarChecker.t) (st : state) : Prop :=
  rtc step (initial self) st.

End Run.

End Fanout.

(** ** The coroutines of [process_text] on the event loop

    [asyncio.gather] makes a task of each coroutine of [calls], and the
    event loop runs a task until it awaits.  A step of the loop resumes
    one task at its await:
    - at the entry of [async with self.semaphore], when the semaphore
      has a permit, which the task takes ([Semaphore.acquire] keeps the
      task waiting otherwise);
    - at the request, with the answer of the oracle to the slot of the
      task;
    - at the exit of the block, where [Semaphore.release] gives the
      permit back.
    The loop may resume the tasks in any order; the runs of asyncio,
    which wakes the waiting tasks first come, first served, are among
    these. *)

Module EventLoop.

Record state : Type := State {
  value : Z;                                   (* [self.semaphore._value] *)
  tasks : list (coroutine (option response))
}.

Definition initial (self : WordGrammarChecker.t) (payload : completion_request)
    : state :=
  {| value := WordGrammarChecker.semaphore self;
     tasks := WordGrammarChecker.call_coroutines self payload |}.

(** The number of items of a list with a property. *)
Fixpoint tally {A : Type} (f : A -> bool) (l : list A) : Z :=
  match l with
  | [] => 0
  | x :: l' => (if f x then 1 else 0) + tally f l'
  end.

(** A request is in flight while its task awaits the answer. *)
Definition awaits_answer {A : Type} (t : coroutine A) : bool :=
  match t with
  | Create _ _ => true
  | _ => false
  end.

Definition in_flight {A : Type} (ts : list (coroutine A)) : Z :=
  tally awaits_answer ts.

(** A task of [make_api_call] holds a permit from the entry of the block
    to its exit: while it awaits the answer or the exit. *)
Definition holds_permit {A : Type} (t : coroutine A) : bool :=
  match t with
  | Create _ _ | Release _ => true
  | _ => false
  end.

(** What the gather returns once every task has finished. *)
Fixpoint results {A : Type} (ts : list (coroutine A)) : option (list A) :=
  match ts with
  | [] => Some []
  | Finished a :: ts' => cons a <$> results ts'
  | _ :: _ => None
  end.

Section Run.
Variable create : nat -> completion_request -> result response.

Inductive step : state -> state -> Prop :=
| step_acquire (st : state) (i : nat) (k : coroutine (option response)) :
    tasks st !! i = Some (Acquire k) ->
    0 < value st ->
    step st {| value := value st - 1; tasks := <[i := k]> (tasks st) |}
| step_create (st : state) (i : nat) (payload : completion_request)
    (k : result response -> coroutine (option response)) :
    tasks st !! i = Some (Create payload k) ->
    step st {| value := value st; tasks := <[i := k (create i payload)]> (tasks st) |}
| step_release (st : state) (i : nat) (k : coroutine (option response)) :
    tasks st !! i = Some (Release k) ->
    step st {| value := value st + 1; tasks := <[i := k]> (tasks st) |}.

Definition reachable (self : WordGrammarChecker.t) (payload : completion_request)
    (st : state) : Prop :=
  rtc step (initial self payload) st.

(** The awaits a task in slot [i] has yet to make, and their sum over the
    tasks from slot [i] on. *)
Fixpoint awaits_left {A : Type} (i : nat) (t : coroutine A) : nat :=
  match t with
  | Finished _ => 0
  | Acquire k => S (awaits_left i k)
  | Create payload k => S (awaits_left i (k (create i payload)))
  | Release k => S (awaits_left i k)
  end.

Fixpoint remaining {A : Type} (i : nat) (ts : list (coroutine A)) : nat :=
  match ts with
  | [] => 0
  | t :: ts' => awaits_left i t + remaining (S i) ts'
  end.

(** Where a task of [make_api_call] in slot [i] can be. *)
Inductive stage (payload : completion_request) (i : nat)
    : coroutine (option response) -> Prop :=
| at_entry :
    stage payload i (WordGrammarChecker.make_api_call_coroutine payload)
| at_request (k : coroutine (option response)) :
    WordGrammarChecker.make_api_call_coroutine payload = Acquire k ->
    stage payload i k
| at_exit :
    stage payload i
      (Release (Finished (WordGrammarChecker.api_call (create i) payload)))
| at_end :
    stage payload i (Finished (WordGrammarChecker.api_call (create i) payload)).

End Run.

(** The loop as the tasks of [Fanout]: a task waits at the entry of the
    block, is in flight inside it, and has settled once it has left. *)
Definition phase_of (t : coroutine (option response)) : Fanout.phase :=
  match t with
  | Acquire _ => Fanout.Waiting
  | Create _ _ | Release _ => Fanout.InFlight
  | Finished r => Fanout.Settled r
  end.

Definition phases (st : state) : Fanout.state :=
  {| Fanout.permits := value st; Fanout.tasks := map phase_of (tasks st) |}.

End EventLoop.

(** ** Reading responses and results *)

(** The [message.content] of the first choice of a completion whose dump
    has the layout of a [ChatCompletion]; a message without the key has
    the empty content, as [extract_corrections] reads it. *)
Definition chat_content (r : response) : option pyval :=
  match model_dump r with
  | VDict d =>
      match dict_lookup "choices" d with
      | Some (VList (VDict choice :: _)) =>
          match default (VDict []) (dict_lookup "message" choice) with
          | VDict message => Some (default (VStr "") (dict_lookup "content" message))
          | _ => None
          end
      | _ => None
      end
  | _ => None
  end.

(** Whether the dump of a completion has no choices to read: the key is
    missing or its value is falsy. *)
Definition no_choices (r : response) : bool :=
  match model_dump r with
  | VDict d => negb (truthy (default (VList []) (dict_lookup "choices" d)))
  | _ => false
  end.

(** [response.choices[0].message.content], by attribute. *)
Definition message_content (r : response) : result pyval :=
  choices ← py_getattr (model_dump r) "choices";
  choice ← py_index0 choices;
  message ← py_getattr choice "message";
  py_getattr message "content".

(** The values [<] compares with an int. *)
Definition numeric (v : pyval) : bool :=
  match v with
  | VBool _ | VInt _ | VFloat _ => true
  | _ => false
  end.

(** What [extract_corrections] gives when it has nothing to read. *)
Definition empty_result : pyval * pyval := (VList [], VStr "").

(** The value a metadata dict holds under a key. *)
Definition metadata_field (metadata : pyval) (key : string) : option pyval :=
  match metadata with
  | VDict d => dict_lookup key d
  | _ => None
  end.

(** The result that stands for a batch once the exceptions are handled. *)
Definition settled_result (batch : pyval) (r : result (pyval * pyval)) : pyval * pyval :=
  match r with
  | Return x => x
  | Raise e => GrammarDiscriminator.batch_fallback batch e
  end.

(** ** Sample data *)

(** A completion with one choice whose message has the given content. *)
Definition completion (content : pyval) : response :=
  Completions.Response
    (VDict [("id", VStr "chatcmpl-1");
            ("choices",
             VList [VDict [("index", VInt 0);
                           ("message", VDict [("role", VStr "assistant");
                                              ("content", content)])]])]).

(** A correction record. *)
Definition correction (original explanation corrected : string) : pyval :=
  VDict [("original_sentence", VStr original);
         ("explanation", VStr explanation);
         ("corrected_sentence", VStr corrected)].

(** Documents an oracle may answer with, written by the encoder. *)
Definition sample_corrections : list pyval :=
  [correction "Minä olen opiskelut suomea." "Partisiippimuoto virheellinen."
              "Minä olen opiskellut suomea.";
   correction "Google Could Platform on hyvä." "Could -> Cloud"
              "Google Cloud Platform on hyvä."].

(** The payload the schema of [create_payload] asks for. *)
Definition nested_document : string :=
  JsonEncoder.dumps
    (VDict [("name", VStr "my_schema");
            ("type", VStr "object");
            ("properties", VDict [("corrections", VList sample_corrections);
                                  ("suggestion", VStr "tarvetta kielioppikorjauksille")])]).

(** The same corrections and suggestion at the top level of the object. *)
Definition flat_document : string :=
  JsonEncoder.dumps
    (VDict [("corrections", VList sample_corrections);
            ("suggestion", VStr "tarvetta kielioppikorjauksille")]).

(** An object whose "properties" do not follow the schema. *)
Definition mistyped_document : string :=
  JsonEncoder.dumps
    (VDict [("properties", VDict [("corrections", VStr "ei korjattavaa");
                                  ("suggestion", VInt 7)])]).

(** An object whose "properties" are [null]. *)
Definition null_properties_document : string :=
  JsonEncoder.dumps (VDict [("properties", VNone)]).

(** The corrections of [test_discriminator]. *)
Definition four_corrections : list pyval :=
  [correction "Minä olen opiskelut suomea monta vuotta."
              "Partisiippimuodon korjaus: 'opiskelut' pitäisi olla 'opiskellut'."
              "Minä olen opiskellut suomea monta vuotta.";
   correction "Tämä on hyvä kirja."
              "Muuta 'hyvä' sanaksi 'erinomainen' paremman ilmaisun vuoksi."
              "Tämä on erinomainen kirja.";
   correction "Google Could Platform tarjoaa pilvipalveluita."
              "Kirjoitusvirhe: 'Could' pitäisi olla 'Cloud'."
              "Google Cloud Platform tarjoaa pilvipalveluita.";
   correction "Kissa on mustaa."
              "Väärä sanaluokka: 'mustaa' pitäisi olla 'musta'."
              "Kissa on musta."].

Definition three_corrections : list pyval := take 3 four_corrections.

(** An oracle whose call raises. *)
Definition oracle_down : completion_request -> result response :=
  fun _ => Raise (Exn APIError "Connection error.").

(** An oracle that answers every request with the given content. *)
Definition oracle_says (content : string) : completion_request -> result response :=
  fun _ => Return (completion (VStr content)).

(** Answers of the discriminator: a verdict on the corrections it was
    given, with the score it chose. *)
Definition verdict (valid rejected : list pyval) (quality_score : pyval) : string :=
  JsonEncoder.dumps
    (VDict [("valid_corrections", VList valid);
            ("rejected_corrections", VList rejected);
            ("quality_score", quality_score);
            ("summary", VStr "Arviointi valmis.")]).

Definition rejection (c : pyval) (reason : string) : pyval :=
  VDict [("correction", c); ("reason", VStr reason)].

(** A verdict that accepts all three corrections with a score of 40. *)
Definition lenient_verdict : dict :=
  [("valid_corrections", VList three_corrections);
   ("rejected_corrections", VList []);
   ("quality_score", VInt 40);
   ("summary", VStr "Arviointi valmis.")].

(** A constructor call whose model variant is no preset. *)
Definition turbo_call : WordGrammarChecker.call :=
  {| WordGrammarChecker.arg_api_key := "sk-test";
     WordGrammarChecker.arg_system_prompt := "Korjaa annetut tekstit.";
     WordGrammarChecker.kw_max_concurrent_requests := None;
     WordGrammarChecker.kw_n_responses := Some 3;
     WordGrammarChecker.kw_chosen_model := Some "turbo";
     WordGrammarChecker.kw_others := [] |}.

(** A request of a logged-in user. *)
Definition sample_request : App.ProcessSectionsRequest :=
  {| App.session_token := "token-1";
     App.selected_titles := ["Johdanto"];
     App.text_for_corrections := "Minä olen opiskelut suomea.";
     App.n_responses := 1;
     App.selected_model := "fast" |}.

(** The scenario of the specification: five calls, of which the second
    and the fourth fail. *)
Definition answer (i : nat) : string :=
  JsonEncoder.dumps
    (VDict [("name", VStr "my_schema");
            ("type", VStr "object");
            ("properties", VDict [("corrections", VList []);
                                  ("suggestion", VStr ("vastaus " ++ pretty i))])]).

Definition flaky_oracle (i : nat) : completion_request -> result response :=
  if (i =? 1)%nat || (i =? 3)%nat then oracle_down else oracle_says (answer i).

Definition five_call : WordGrammarChecker.call :=
  {| WordGrammarChecker.arg_api_key := "sk-test";
     WordGrammarChecker.arg_system_prompt := "Korjaa annetut tekstit.";
     WordGrammarChecker.kw_max_concurrent_requests := None;
     WordGrammarChecker.kw_n_responses := Some 5;
     WordGrammarChecker.kw_chosen_model := Some "fast";
     WordGrammarChecker.kw_others := [] |}.

Definition five_checker : WordGrammarChecker.t :=
  {| WordGrammarChecker.api_key := "sk-test";
     WordGrammarChecker.system_prompt := "Korjaa annetut tekstit.";
     WordGrammarChecker.max_concurrent_requests := 5;
     WordGrammarChecker.semaphore := 5;
     WordGrammarChecker.n_responses := 5;
     WordGrammarChecker.text_data := "";
     WordGrammarChecker.chosen_model := "fast";
     WordGrammarChecker.client := "sk-test" |}.

(** The scenario of the specification for [batch_validate]: two batches,
    and the discriminator's answer for the second carries a score that
    cannot be compared with the threshold, so its validation raises. *)
Definition two_batches : list pyval :=
  [VList (take 2 four_corrections); VList (drop 2 four_corrections)].

Definition second_answer_broken (i : nat) : completion_request -> result response :=
  if (i =? 0)%nat
  then oracle_says (verdict (take 1 four_corrections) [] (VInt 90))
  else oracle_says (verdict (drop 2 four_corrections) [] (VStr "korkea")).

(** A call for a checker with one permit for three responses, the checker
    it gives, and the event loop of that checker when the third call has
    made its request while the other two wait at the semaphore. *)
Definition three_call : WordGrammarChecker.call :=
  {| WordGrammarChecker.arg_api_key := "sk-test";
     WordGrammarChecker.arg_system_prompt := "Korjaa annetut tekstit.";
     WordGrammarChecker.kw_max_concurrent_requests := Some 1;
     WordGrammarChecker.kw_n_responses := Some 3;
     WordGrammarChecker.kw_chosen_model := None;
     WordGrammarChecker.kw_others := [] |}.

Definition three_checker : WordGrammarChecker.t :=
  {| WordGrammarChecker.api_key := "sk-test";
     WordGrammarChecker.system_prompt := "Korjaa annetut tekstit.";
     WordGrammarChecker.max_concurrent_requests := 1;
     WordGrammarChecker.semaphore := 1;
     WordGrammarChecker.n_responses := 3;
     WordGrammarChecker.text_data := "";
     WordGrammarChecker.chosen_model := "fast";
     WordGrammarChecker.client := "sk-test" |}.

Definition one_in_flight : EventLoop.state :=
  let payload := WordGrammarChecker.create_payload three_checker in
  {| EventLoop.value := 0;
     EventLoop.tasks :=
       [WordGrammarChecker.make_api_call_coroutine payload;
        WordGrammarChecker.make_api_call_coroutine payload;
        Create payload (fun answer =>
          Release (Finished (match answer with
                             | Return response => Some response
                             | Raise _ => None
                             end)))] |}.

(** A constructor call whose key is written between quotes, and the
    checker it gives. *)
Definition quoted_call : WordGrammarChecker.call :=
  {| WordGrammarChecker.arg_api_key := String dquote "sk-test" ++ String dquote "";
     WordGrammarChecker.arg_system_prompt := "Korjaa annetut tekstit.";
     WordGrammarChecker.kw_max_concurrent_requests := None;
     WordGrammarChecker.kw_n_responses := None;
     WordGrammarChecker.kw_chosen_model := None;
     WordGrammarChecker.kw_others := [] |}.

Definition quoted_checker : WordGrammarChecker.t :=
  {| WordGrammarChecker.api_key := "sk-test";
     WordGrammarChecker.system_prompt := "Korjaa annetut tekstit.";
     WordGrammarChecker.max_concurrent_requests := 5;
     WordGrammarChecker.semaphore := 5;
     WordGrammarChecker.n_responses := 1;
     WordGrammarChecker.text_data := "";
     WordGrammarChecker.chosen_model := "fast";
     WordGrammarChecker.client := "sk-test" |}.

(** A checker that is asked for no response. *)
Definition idle_checker : WordGrammarChecker.t :=
  {| WordGrammarChecker.api_key := "sk-test";
     WordGrammarChecker.system_prompt := "Korjaa annetut tekstit.";
     WordGrammarChecker.max_concurrent_requests := 5;
     WordGrammarChecker.semaphore := 5;
     WordGrammarChecker.n_responses := 0;
     WordGrammarChecker.text_data := "";
     WordGrammarChecker.chosen_model := "fast";
     WordGrammarChecker.client := "sk-test" |}.


(** A call with [max_concurrent_requests=0], and the checker it gives. *)
Definition gateless_call : WordGrammarChecker.call :=
  {| WordGrammarChecker.arg_api_key := "sk-test";
     WordGrammarChecker.arg_system_prompt := "Korjaa annetut tekstit.";
     WordGrammarChecker.kw_max_concurrent_requests := Some 0;
     WordGrammarChecker.kw_n_responses := Some 2;
     WordGrammarChecker.kw_chosen_model := None;
     WordGrammarChecker.kw_others := [] |}.

Definition gateless_checker : WordGrammarChecker.t :=
  {| WordGrammarChecker.api_key := "sk-test";
     WordGrammarChecker.system_prompt := "Korjaa annetut tekstit.";
     WordGrammarChecker.max_concurrent_requests := 0;
     WordGrammarChecker.semaphore := 0;
     WordGrammarChecker.n_responses := 2;
     WordGrammarChecker.text_data := "";
     WordGrammarChecker.chosen_model := "fast";
     WordGrammarChecker.client := "sk-test" |}.

(** An oracle whose second answer is a JSON list. *)
Definition garbled_oracle (i : nat) : completion_request -> result response :=
  if (i =? 1)%nat then oracle_says "[]" else oracle_says (answer i).

(** The flaky oracle, changed beyond the fifth slot only. *)
Definition flaky_oracle_five (i : nat) : completion_request -> result response :=
  if (i <? 5)%nat then flaky_oracle i else oracle_down.

(** A discriminator that is down for the second batch. *)
Definition second_call_down (i : nat) : completion_request -> result response :=
  if (i =? 1)%nat
  then oracle_down
  else oracle_says (verdict (take 1 four_corrections) [] (VInt 90)).

(** The users of a deployment, and a login of the first. *)
Definition sample_users : list App.user :=
  [("AIBooks1", "salasana", "sk-test"); ("AIBooks2", "tunnus", "sk-other")].

Definition sample_login : App.LoginRequest :=
  {| App.username := "AIBooks1"; App.password := "salasana" |}.

(** ** A users file, written

    Three lines for each user, each a label, a colon, a space and a
    value; the third value is the key as it stands in the file, between
    double quotes or not. *)

Definition graphic_char (c : ascii) : bool :=
  let b := Z.of_N (N_of_ascii c) in (33 <=? b) && (b <=? 126).

Fixpoint all_graphic (s : string) : bool :=
  match s with
  | EmptyString => true
  | String c s' => graphic_char c && all_graphic s'
  end.

(** A word: not empty, and made of printable ASCII characters other than
    the space. *)
Definition word (s : string) : bool := negb (String.eqb s "") && all_graphic s.

(** Whether the character does not occur in the string. *)
Fixpoint lacks (c : ascii) (s : string) : bool :=
  match s with
  | EmptyString => true
  | String c' s' => negb (Ascii.eqb c' c) && lacks c s'
  end.

(** A string that begins and ends with a graphic character. *)
Definition graphic_ends (s : string) : Prop :=
  (exists c rest, s = String c rest /\ graphic_char c = true)
  /\ (exists front c, s = front ++ String c "" /\ graphic_char c = true).

Definition labelled (label value : string) : string := label ++ ": " ++ value.

Definition users_lines (labels : string * string * string) (users : list App.user)
    : list string :=
  flat_map (fun '(u, p, key) =>
              [labelled labels.1.1 u; labelled labels.1.2 p; labelled labels.2 key])
           users.

Fixpoint unlines (lines : list string) : string :=
  match lines with
  | [] => ""
  | line :: lines' => line ++ nl ++ unlines lines'
  end.

Definition users_file (labels : string * string * string) (users : list App.user)
    : string :=
  unlines (users_lines labels users).

(** The users of [sample_users], the first with its key between quotes. *)
Definition written_users : list App.user :=
  [("AIBooks1", "salasana", String dquote "sk-test" ++ String dquote "");
   ("AIBooks2", "tunnus", "sk-other")].

(** The key [load_users] keeps of a key as written. *)
Definition key_read (written : string) : string :=
  if startswith_char written dquote && endswith_char written dquote
  then slice_inner written else written.

(** * Properties *)

(** ** Extraction of corrections *)

Section ExtractProperties.
Context `{Json}.

Ltac shape_of_content Hc :=
  unfold chat_content in Hc;
  repeat match type of Hc with
         | match ?x with _ => _ end = Some _ =>
             let E := fresh "E" in destruct x eqn:E; try discriminate Hc
         end.

(** With a completion laid out as a [ChatCompletion], [extract_corrections]
    is the [try] block run on the content of the first message. *)
Lemma extract_corrections_unfold (r : response) (content : pyval) :
  chat_content r = Some content ->
  WordGrammarChecker.extract_corrections (Some r)
  = match (data ← json_loads content;
           props ← py_get data "properties" (VDict []);
           corrections ← py_get props "corrections" (VList []);
           suggestion ← py_get props "suggestion" (VStr "");
           Return (corrections, suggestion)) with
    | Raise e =>
        if WordGrammarChecker.is_JSONDecodeError e then Return empty_result else Raise e
    | Return x => Return x
    end.
Proof.
  intros Hc. destruct r as [dump]. shape_of_content Hc.
  injection Hc as <-.
  unfold WordGrammarChecker.extract_corrections.
  cbn [model_dump Completions.model_dump] in *. subst dump.
  cbn [py_get mbind result_bind]. rewrite E0.
  cbn [from_option id truthy negb py_index0 py_get mbind result_bind].
  rewrite E4. reflexivity.
Qed.

(** C4 (as amended): an absent response, a response without choices and a
    response whose content is not a JSON document all give [([], "")], and
    no exception. *)
Theorem extract_corrections_soft_failure :
  WordGrammarChecker.extract_corrections None = Return empty_result
  /\ (forall r : response,
        no_choices r = true ->
        WordGrammarChecker.extract_corrections (Some r) = Return empty_result)
  /\ (forall (r : response) (s : string) (e : exn),
        chat_content r = Some (VStr s) ->
        json_decode s = Raise e ->
        exn_cls e = JSONDecodeError ->
        WordGrammarChecker.extract_corrections (Some r) = Return empty_result).
Proof.
  split; [reflexivity|]. split.
  - intros [dump] Hn. unfold no_choices in Hn. cbn in Hn.
    destruct dump; try discriminate Hn.
    unfold WordGrammarChecker.extract_corrections.
    cbn [model_dump Completions.model_dump py_get mbind result_bind].
    rewrite Hn. reflexivity.
  - intros r s e Hc Hd He.
    rewrite (extract_corrections_unfold r (VStr s) Hc).
    cbn [json_loads mbind result_bind]. rewrite Hd. cbn [mbind result_bind].
    unfold WordGrammarChecker.is_JSONDecodeError. rewrite He. reflexivity.
Qed.

(** What [extract_corrections] makes of a content that is a JSON object,
    by what the object holds under "properties". *)
Lemma extract_corrections_of_object
    (r : response) (s : string) (data : dict) :
  chat_content r = Some (VStr s) ->
  json_decode s = Return (VDict data) ->
  WordGrammarChecker.extract_corrections (Some r)
  = match dict_lookup "properties" data with
    | None => Return empty_result
    | Some (VDict props) =>
        Return (default (VList []) (dict_lookup "corrections" props),
                default (VStr "") (dict_lookup "suggestion" props))
    | Some other =>
        Raise (Exn AttributeError
                 ("'" ++ type_name other ++ "' object has no attribute 'get'"))
    end.
Proof.
  intros Hc Hd.
  rewrite (extract_corrections_unfold r (VStr s) Hc).
  cbn [json_loads mbind result_bind]. rewrite Hd.
  cbn [py_get mbind result_bind].
  destruct (dict_lookup "properties" data) as [props|]; [|reflexivity].
  cbn [from_option id].
  destruct props; reflexivity.
Qed.

(** C10 (as amended): when the content is a JSON object whose "properties"
    are absent or are an object themselves, so that
    [data.get("properties", {})] is a dict, the corrections and the
    suggestion are read from that dict, each with its default; an object
    without the key gives [([], "")], whatever else it holds. *)
Theorem extract_corrections_reads_properties
    (r : response) (s : string) (data props : dict) :
  chat_content r = Some (VStr s) ->
  json_decode s = Return (VDict data) ->
  default (VDict []) (dict_lookup "properties" data) = VDict props ->
  WordGrammarChecker.extract_corrections (Some r)
  = Return (default (VList []) (dict_lookup "corrections" props),
            default (VStr "") (dict_lookup "suggestion" props))
  /\ (dict_lookup "properties" data = None ->
      WordGrammarChecker.extract_corrections (Some r) = Return empty_result).
Proof.
  intros Hc Hd Hprops.
  rewrite (extract_corrections_of_object r s data Hc Hd).
  destruct (dict_lookup "properties" data) as [other|];
    cbn [from_option id] in Hprops.
  - subst other. split; [reflexivity | discriminate].
  - injection Hprops as <-. split; reflexivity.
Qed.

End ExtractProperties.

(** C10, counterexample: the content is a JSON object, and the
    [None] under its "properties" has no [get]. *)
Lemma extract_corrections_null_properties :
  JsonDecoder.decode null_properties_document = Return (VDict [("properties", VNone)])
  /\ @WordGrammarChecker.extract_corrections python_json
       (Some (completion (VStr null_properties_document)))
     = Raise (Exn AttributeError "'NoneType' object has no attribute 'get'").
Proof. split; vm_compute; reflexivity. Qed.

(** C4, counterexample: a content that is a JSON document but not an
    object makes [extract_corrections] raise, and an object whose
    "properties" hold other types is returned as it is. *)
Lemma extract_corrections_schema_mismatch :
  @WordGrammarChecker.extract_corrections python_json (Some (completion (VStr "[]")))
  = Raise (Exn AttributeError "'list' object has no attribute 'get'")
  /\ @WordGrammarChecker.extract_corrections python_json
       (Some (completion (VStr mistyped_document)))
     = Return (VStr "ei korjattavaa", VInt 7).
Proof. split; vm_compute; reflexivity. Qed.

Lemma extract_corrections_soft_failure_witness :
  chat_content (completion (VStr "Ei korjattavaa.")) = Some (VStr "Ei korjattavaa.")
  /\ JsonDecoder.decode "Ei korjattavaa."
     = Raise (Exn JSONDecodeError "Expecting value")
  /\ @WordGrammarChecker.extract_corrections python_json
       (Some (completion (VStr "Ei korjattavaa.")))
     = Return empty_result.
Proof.
  split; [reflexivity|]. split; [vm_compute; reflexivity|].
  apply (proj2 (proj2 (@extract_corrections_soft_failure python_json))
           (completion (VStr "Ei korjattavaa.")) "Ei korjattavaa."
           (Exn JSONDecodeError "Expecting value"));
    [reflexivity | vm_compute; reflexivity | reflexivity].
Defined.

Lemma extract_corrections_reads_properties_witness :
  chat_content (completion (VStr flat_document)) = Some (VStr flat_document)
  /\ JsonDecoder.decode flat_document
     = Return (VDict [("corrections", VList sample_corrections);
                      ("suggestion", VStr "tarvetta kielioppikorjauksille")])
  /\ @WordGrammarChecker.extract_corrections python_json
       (Some (completion (VStr flat_document)))
     = Return empty_result.
Proof.
  split; [reflexivity|]. split; [vm_compute; reflexivity|].
  apply (proj1 (@extract_corrections_reads_properties python_json
                  (completion (VStr flat_document)) flat_document
                  [("corrections", VList sample_corrections);
                   ("suggestion", VStr "tarvetta kielioppikorjauksille")] []
                  eq_refl ltac:(vm_compute; reflexivity) eq_refl)).
Defined.

(** The document the schema asks for is read in full. *)
Example extract_corrections_nested :
  @WordGrammarChecker.extract_corrections python_json
    (Some (completion (VStr nested_document)))
  = Return (VList sample_corrections, VStr "tarvetta kielioppikorjauksille").
Proof. vm_compute. reflexivity. Qed.

(** ** The discriminator *)

Lemma bind_Return_inv {A B : Type} (r : result A) (k : A -> result B) (b : B) :
  r ≫= k = Return b -> exists a, r = Return a /\ k a = Return b.
Proof. destruct r as [a|e]; [eauto | discriminate]. Qed.

Lemma py_get_Return_inv (v : pyval) (k : string) (dflt x : pyval) :
  py_get v k dflt = Return x ->
  exists d, v = VDict d /\ x = default dflt (dict_lookup k d).
Proof. destruct v; try discriminate. intros [= <-]. eauto. Qed.

Lemma take_slice_stop {A : Type} (l : list A) (stop : Z) :
  0 <= stop ->
  take (slice_stop (Z.of_nat (length l)) stop) l = take (Z.to_nat stop) l.
Proof.
  intros Hs. unfold slice_stop.
  destruct (Z.ltb_spec stop 0) as [Hlt|_]; [lia|].
  destruct (Z.le_ge_cases stop (Z.of_nat (length l))) as [Hle|Hge].
  - rewrite Z.min_l by lia. reflexivity.
  - rewrite Z.min_r by lia. rewrite Nat2Z.id.
    rewrite !take_ge by lia. reflexivity.
Qed.

(** The length of [l[:max(1, len(l) // 2)]]. *)
Lemma length_take_half {A : Type} (l : list A) :
  let n := Z.of_nat (length l) in
  Z.of_nat (length (take (Z.to_nat (Z.max 1 (n / 2))) l)) = Z.min n (Z.max 1 (n / 2)).
Proof.
  cbn zeta. rewrite length_take.
  assert (0 <= Z.of_nat (length l) / 2) by (apply Z.div_pos; lia).
  lia.
Qed.

Section DiscriminatorProperties.
Context `{Json}.

Import GrammarDiscriminator.

(** What a validation result that left the [try] looks like: a dict whose
    two lists have a length. *)
Lemma validate_corrections_try_inv self create corrections original_text vr :
  validate_corrections_try self create corrections original_text = Return vr ->
  exists d,
    vr = VDict d
    /\ (exists n, py_len (default (VList []) (dict_lookup "valid_corrections" d)) = Return n)
    /\ (exists n, py_len (default (VList []) (dict_lookup "rejected_corrections" d)) = Return n).
Proof.
  unfold validate_corrections_try. intros Hv.
  repeat (apply bind_Return_inv in Hv; destruct Hv as (? & ? & Hv)).
  injection Hv as <-.
  repeat match goal with
         | Hg : py_get _ _ _ = Return _ |- _ =>
             apply py_get_Return_inv in Hg; destruct Hg as (? & ? & ?)
         end.
  simplify_eq. eauto 10.
Qed.

Lemma validate_corrections_is_dict self create corrections original_text :
  exists d, validate_corrections self create corrections original_text = VDict d.
Proof.
  unfold validate_corrections, try_except.
  destruct (validate_corrections_try _ _ _ _) as [vr|e] eqn:Hv.
  - apply validate_corrections_try_inv in Hv as (d & -> & _). eauto.
  - unfold validation_failed. eauto.
Qed.

(** The failure of the discriminator call, whatever raised in the [try]:
    the fallback result goes through the threshold like any other. *)
Lemma filter_corrections_on_failure self create (cs : list pyval) original_text
    min_quality_score e :
  validate_corrections_try self create (VList cs) original_text = Raise e ->
  filter_corrections self create (VList cs) original_text min_quality_score
  = let kept :=
      if 50 <? min_quality_score
      then take (Z.to_nat (Z.max 1 (Z.of_nat (length cs) / 2))) cs
      else cs in
    Return (VList kept,
            VDict [("discriminator_used", VBool true);
                   ("quality_score", VInt 50);
                   ("original_count", VInt (Z.of_nat (length cs)));
                   ("filtered_count", VInt (Z.of_nat (length kept)));
                   ("rejected_count", VInt 0);
                   ("summary", VStr ("Validation failed: " ++ exn_str e
                                     ++ ". Returned all corrections."));
                   ("rejected_reasons", VList [])]).
Proof.
  intros Hv. unfold filter_corrections, validate_corrections, try_except.
  rewrite Hv. unfold validation_failed.
  cbn [py_get dict_lookup String.eqb Ascii.eqb Bool.eqb from_option id mbind result_bind
       py_lt_int].
  destruct (50 <? min_quality_score).
  - cbn [py_len py_slice_to mbind result_bind].
    rewrite take_slice_stop by lia. reflexivity.
  - reflexivity.
Qed.

(** C3 (as amended): a validation that succeeds with a score below the
    threshold keeps the first [max(1, len(valid_corrections) // 2)] of the
    corrections the discriminator accepted: never more than that number,
    and at least one when the discriminator accepted any. *)
Theorem filter_corrections_below_threshold self create (cs : list pyval)
    original_text min_quality_score (d : dict) (valid : list pyval) (score : pyval) :
  validate_corrections_try self create (VList cs) original_text = Return (VDict d) ->
  default (VList []) (dict_lookup "valid_corrections" d) = VList valid ->
  default (VInt 0) (dict_lookup "quality_score" d) = score ->
  py_lt_int score min_quality_score = Return true ->
  let bound := Z.max 1 (Z.of_nat (length valid) / 2) in
  let kept := take (Z.to_nat bound) valid in
  (exists metadata,
     filter_corrections self create (VList cs) original_text min_quality_score
     = Return (VList kept, metadata)
     /\ metadata_field metadata "filtered_count" = Some (VInt (Z.of_nat (length kept))))
  /\ Z.of_nat (length kept) <= bound
  /\ (valid <> [] -> kept <> []).
Proof.
  intros Hv Hvalid Hscore Hlt bound kept. subst kept bound.
  destruct (validate_corrections_try_inv _ _ _ _ _ Hv) as (d' & [= <-] & _ & [n Hn]).
  split; [|split].
  - unfold filter_corrections, validate_corrections, try_except. rewrite Hv.
    cbn [py_get mbind result_bind]. rewrite Hvalid, Hscore, Hlt.
    cbn [py_len py_slice_to mbind result_bind].
    rewrite take_slice_stop by lia.
    rewrite Hn. cbn [mbind result_bind].
    eexists. split; reflexivity.
  - rewrite length_take_half. lia.
  - intros Hne. destruct valid as [|v valid]; [congruence|].
    assert (0 < Z.to_nat (Z.max 1 (Z.of_nat (length (v :: valid)) / 2)))%nat by lia.
    destruct (Z.to_nat _); [lia | discriminate].
Qed.

(** C9 (as amended): the score in the metadata is the one of the
    validation result, as it came: 50 when the discriminator call failed,
    the discriminator's own value when it answered, 0 when its answer has
    none.  It is an integer of [0, 100] in the first and the last case,
    and in the second when the discriminator's value is one. *)
Theorem filter_corrections_quality_score self create corrections original_text
    min_quality_score (kept metadata : pyval) :
  filter_corrections self create corrections original_text min_quality_score
  = Return (kept, metadata) ->
  match validate_corrections_try self create corrections original_text with
  | Raise _ => metadata_field metadata "quality_score" = Some (VInt 50)
  | Return vr =>
      exists d,
        vr = VDict d
        /\ metadata_field metadata "quality_score"
           = Some (default (VInt 0) (dict_lookup "quality_score" d))
        /\ forall score : Z,
             default (VInt 0) (dict_lookup "quality_score" d) = VInt score ->
             0 <= score <= 100 ->
             exists q, metadata_field metadata "quality_score" = Some (VInt q)
                       /\ 0 <= q <= 100
  end.
Proof.
  intros Hf. unfold filter_corrections, validate_corrections, try_except in Hf.
  destruct (validate_corrections_try _ _ _ _) as [vr|e] eqn:Hv.
  - destruct (validate_corrections_try_inv _ _ _ _ _ Hv) as (d & -> & _).
    exists d. split; [reflexivity|].
    cbn [py_get mbind result_bind] in Hf.
    repeat (apply bind_Return_inv in Hf; destruct Hf as (? & ? & Hf)).
    injection Hf as <- <-.
    split; [reflexivity|].
    intros score Hs Hr. exists score. cbn [metadata_field dict_lookup]. cbn.
    rewrite Hs. split; [reflexivity | lia].
  - unfold validation_failed in Hf.
    cbn [py_get dict_lookup String.eqb Ascii.eqb Bool.eqb from_option id mbind
         result_bind] in Hf.
    repeat (apply bind_Return_inv in Hf; destruct Hf as (? & ? & Hf)).
    injection Hf as <- <-. reflexivity.
Qed.

(** C2, on the failing input: the discriminator call raises on four
    corrections and [filter_corrections], with its default threshold,
    returns the first two of them, with [discriminator_used] true. *)
Theorem filter_corrections_failure_truncates self (e : exn) original_text :
  filter_corrections self (fun _ => Raise e) (VList four_corrections) original_text
    min_quality_score_default
  = Return (VList (take 2 four_corrections),
            VDict [("discriminator_used", VBool true);
                   ("quality_score", VInt 50);
                   ("original_count", VInt 4);
                   ("filtered_count", VInt 2);
                   ("rejected_count", VInt 0);
                   ("summary", VStr ("Validation failed: " ++ exn_str e
                                     ++ ". Returned all corrections."));
                   ("rejected_reasons", VList [])]).
Proof.
  rewrite (filter_corrections_on_failure _ _ _ _ _ e); reflexivity.
Qed.

End DiscriminatorProperties.

(** C3, counterexample: the discriminator rejects all three corrections
    with a score of 40, and the list returned is empty though three
    corrections went in. *)
Lemma filter_corrections_all_rejected :
  @GrammarDiscriminator.filter_corrections python_json
    (GrammarDiscriminator.__init__ "sk-test")
    (oracle_says (verdict [] (map (fun c => rejection c "tarpeeton") three_corrections)
                          (VInt 40)))
    (VList three_corrections) "" 70
  = Return (VList [],
            VDict [("discriminator_used", VBool true);
                   ("quality_score", VInt 40);
                   ("original_count", VInt 3);
                   ("filtered_count", VInt 0);
                   ("rejected_count", VInt 3);
                   ("summary", VStr "Arviointi valmis.");
                   ("rejected_reasons",
                    VList (map (fun c => rejection c "tarpeeton") three_corrections))]).
Proof. vm_compute. reflexivity. Qed.

Lemma filter_corrections_below_threshold_witness :
  @GrammarDiscriminator.validate_corrections_try python_json
    (GrammarDiscriminator.__init__ "sk-test")
    (oracle_says (verdict three_corrections [] (VInt 40)))
    (VList three_corrections) ""
  = Return (VDict lenient_verdict)
  /\ py_lt_int (VInt 40) 70 = Return true
  /\ exists metadata,
       @GrammarDiscriminator.filter_corrections python_json
         (GrammarDiscriminator.__init__ "sk-test")
         (oracle_says (verdict three_corrections [] (VInt 40)))
         (VList three_corrections) "" 70
       = Return (VList (take 1 three_corrections), metadata)
       /\ metadata_field metadata "filtered_count" = Some (VInt 1).
Proof.
  split; [vm_compute; reflexivity|]. split; [reflexivity|].
  apply (proj1 (@filter_corrections_below_threshold python_json
                  (GrammarDiscriminator.__init__ "sk-test")
                  (oracle_says (verdict three_corrections [] (VInt 40)))
                  three_corrections "" 70 lenient_verdict
                  three_corrections (VInt 40)
                  ltac:(vm_compute; reflexivity) eq_refl eq_refl eq_refl)).
Defined.

(** The scenario of the specification: three corrections, a score of 40
    against a threshold of 70, and one correction comes back. *)
Example filter_corrections_three_at_40 :
  @GrammarDiscriminator.filter_corrections python_json
    (GrammarDiscriminator.__init__ "sk-test")
    (oracle_says (verdict three_corrections [] (VInt 40)))
    (VList three_corrections) "" 70
  = Return (VList (take 1 three_corrections),
            VDict [("discriminator_used", VBool true);
                   ("quality_score", VInt 40);
                   ("original_count", VInt 3);
                   ("filtered_count", VInt 1);
                   ("rejected_count", VInt 0);
                   ("summary", VStr "Arviointi valmis.");
                   ("rejected_reasons", VList [])]).
Proof. vm_compute. reflexivity. Qed.

Lemma filter_corrections_quality_score_witness :
  exists kept metadata,
    @GrammarDiscriminator.filter_corrections python_json
      (GrammarDiscriminator.__init__ "sk-test")
      (oracle_says (verdict three_corrections [] (VInt 40)))
      (VList three_corrections) "" 70
    = Return (kept, metadata)
    /\ exists q, metadata_field metadata "quality_score" = Some (VInt q) /\ 0 <= q <= 100.
Proof.
  eexists _, _. split; [vm_compute; reflexivity|].
  pose proof (@filter_corrections_quality_score python_json
                (GrammarDiscriminator.__init__ "sk-test")
                (oracle_says (verdict three_corrections [] (VInt 40)))
                (VList three_corrections) "" 70 _ _
                ltac:(vm_compute; reflexivity)) as Hq.
  assert (Hv : @GrammarDiscriminator.validate_corrections_try python_json
                 (GrammarDiscriminator.__init__ "sk-test")
                 (oracle_says (verdict three_corrections [] (VInt 40)))
                 (VList three_corrections) ""
               = Return (VDict lenient_verdict)) by (vm_compute; reflexivity).
  rewrite Hv in Hq. destruct Hq as (d & Hd & _ & Hr).
  injection Hd as <-. apply (Hr 40); [reflexivity | lia].
Defined.

(** C9, counterexample: the discriminator answers with a score of 150,
    and the metadata reports 150. *)
Lemma filter_corrections_score_out_of_range :
  @GrammarDiscriminator.filter_corrections python_json
    (GrammarDiscriminator.__init__ "sk-test")
    (oracle_says (verdict three_corrections [] (VInt 150)))
    (VList three_corrections) "" 70
  = Return (VList three_corrections,
            VDict [("discriminator_used", VBool true);
                   ("quality_score", VInt 150);
                   ("original_count", VInt 3);
                   ("filtered_count", VInt 3);
                   ("rejected_count", VInt 0);
                   ("summary", VStr "Arviointi valmis.");
                   ("rejected_reasons", VList [])]).
Proof. vm_compute. reflexivity. Qed.

(** ** Batch validation *)

Lemma gather_return_exceptions_settled {A B : Type} (g : nat -> B -> result A)
    (l : list B) :
  gather_return_exceptions (imap (fun i x => Settles (g i x)) l)
  = Settles (Return (imap g l)).
Proof.
  revert g. induction l as [|x l IH]; intros g; [reflexivity|].
  cbn [imap gather_return_exceptions].
  change (imap ((fun i x0 => Settles (g i x0)) ∘ S) l)
    with (imap (fun i x0 => Settles ((g ∘ S) i x0)) l).
  rewrite IH. reflexivity.
Qed.

Section BatchProperties.
Context `{Json}.

Import GrammarDiscriminator.

Lemma handle_results_spec (batches : list pyval) (results : list (result (pyval * pyval))) :
  forall i : nat,
    (i + length results <= length batches)%nat ->
    exists out,
      handle_results batches i results = Return out
      /\ length out = length results
      /\ forall (j : nat) (r : result (pyval * pyval)) (batch : pyval),
           results !! j = Some r ->
           batches !! (i + j)%nat = Some batch ->
           out !! j = Some (settled_result batch r).
Proof.
  induction results as [|r results IH]; intros i Hlen.
  - exists []. split; [reflexivity|]. split; [reflexivity|].
    intros j r batch Hr. rewrite lookup_nil in Hr. discriminate.
  - cbn [length] in Hlen.
    destruct (IH (S i)) as (out & Hout & Hl & Hspec); [lia|].
    destruct (lookup_lt_is_Some_2 batches i) as [b Hb]; [lia|].
    exists (settled_result b r :: out).
    split; [|split].
    + cbn [handle_results]. rewrite Hout.
      destruct r as [x|e]; cbn [mbind result_bind settled_result]; [reflexivity|].
      rewrite Hb. reflexivity.
    + cbn [length]. congruence.
    + intros [|j] r' batch Hr Hbatch.
      * cbn in Hr. injection Hr as <-.
        rewrite Nat.add_0_r in Hbatch. rewrite Hb in Hbatch. injection Hbatch as <-.
        reflexivity.
      * cbn in Hr |- *. apply (Hspec j r' batch Hr).
        rewrite <- Hbatch. f_equal. lia.
Qed.

(** C7 (as amended): [batch_validate] returns one result for each batch it
    runs; the result of a batch whose [filter_corrections] raised is the
    batch itself with the error and [discriminator_used] false, and the
    result of any other batch is what [filter_corrections] returned for
    it, from its own corrections, its own text and the answer to its own
    call. *)
Theorem batch_validate_isolates_failures self
    (create : nat -> completion_request -> result response)
    (correction_batches : list pyval) (original_texts : option (list string)) :
  let texts :=
    match original_texts with
    | None => replicate (length correction_batches) ""
    | Some texts => texts
    end in
  exists results,
    batch_validate self create correction_batches original_texts
    = Settles (Return results)
    /\ length results = Nat.min (length correction_batches) (length texts)
    /\ forall (i : nat) (batch : pyval) (text : string),
         correction_batches !! i = Some batch ->
         texts !! i = Some text ->
         results !! i
         = Some (match filter_corrections self (create i) batch text
                         min_quality_score_default with
                 | Return filtered => filtered
                 | Raise e =>
                     (batch, VDict [("error", VStr (exn_str e));
                                    ("discriminator_used", VBool false)])
                 end).
Proof.
  intros texts.
  set (g := fun (i : nat) (ct : pyval * string) =>
              filter_corrections self (create i) ct.1 ct.2 min_quality_score_default).
  assert (Hb : batch_validate self create correction_batches original_texts
               = Settles (handle_results correction_batches 0
                            (imap g (zip correction_batches texts)))).
  { unfold batch_validate. fold texts.
    rewrite (imap_ext _ (fun i x => Settles (g i x)) (zip correction_batches texts))
      by (intros i [c t] _; reflexivity).
    rewrite gather_return_exceptions_settled. reflexivity. }
  destruct (handle_results_spec correction_batches
              (imap g (zip correction_batches texts)) 0)
    as (out & Hout & Hlen & Hspec).
  { rewrite length_imap, length_zip. lia. }
  exists out. split; [rewrite Hb, Hout; reflexivity|].
  split; [rewrite Hlen, length_imap, length_zip; reflexivity|].
  intros i batch text Hbatch Htext.
  rewrite (Hspec i (g i (batch, text)) batch).
  - reflexivity.
  - rewrite list_lookup_imap, lookup_zip_with, Hbatch. cbn. rewrite Htext. reflexivity.
  - exact Hbatch.
Qed.

End BatchProperties.

(** ** Model presets *)

Lemma new_Return_inv (c : WordGrammarChecker.call) (self : WordGrammarChecker.t) :
  WordGrammarChecker.new c = Return self ->
  WordGrammarChecker.kw_others c = []
  /\ 0 <= WordGrammarChecker.max_concurrent_requests self
  /\ WordGrammarChecker.semaphore self = WordGrammarChecker.max_concurrent_requests self
  /\ WordGrammarChecker.max_concurrent_requests self
     = default 5 (WordGrammarChecker.kw_max_concurrent_requests c)
  /\ WordGrammarChecker.n_responses self
     = default 1 (WordGrammarChecker.kw_n_responses c)
  /\ WordGrammarChecker.chosen_model self
     = default "fast" (WordGrammarChecker.kw_chosen_model c).
Proof.
  unfold WordGrammarChecker.new, WordGrammarChecker.__init__, WordGrammarChecker.Semaphore.
  destruct (WordGrammarChecker.kw_others c); [|discriminate].
  destruct (Z.ltb_spec (default 5 (WordGrammarChecker.kw_max_concurrent_requests c)) 0);
    [discriminate|].
  cbn [mbind result_bind]. intros [= <-]. cbn. repeat split; assumption || reflexivity.
Qed.

(** C8 (as amended): the constructor takes any model variant as it is
    given, and [create_payload] uses the slow preset for "slow" and the
    fast preset for every other variant. *)
Theorem new_keeps_any_model (c : WordGrammarChecker.call) :
  WordGrammarChecker.kw_others c = [] ->
  0 <= default 5 (WordGrammarChecker.kw_max_concurrent_requests c) ->
  exists self,
    WordGrammarChecker.new c = Return self
    /\ WordGrammarChecker.chosen_model self
       = default "fast" (WordGrammarChecker.kw_chosen_model c)
    /\ forall text : string,
         let payload :=
           WordGrammarChecker.create_payload (WordGrammarChecker.set_text_data self text) in
         (Completions.model payload,
          Completions.role <$> head (Completions.messages payload),
          Completions.reasoning_effort payload)
         = if String.eqb (WordGrammarChecker.chosen_model self) "slow"
           then ("o3-mini", Some "developer", Some "high")
           else ("gpt-4o", Some "system", None).
Proof.
  intros Hk Hm.
  unfold WordGrammarChecker.new, WordGrammarChecker.__init__, WordGrammarChecker.Semaphore.
  rewrite Hk.
  destruct (Z.ltb_spec (default 5 (WordGrammarChecker.kw_max_concurrent_requests c)) 0);
    [lia|].
  cbn [mbind result_bind]. eexists. split; [reflexivity|]. split; [reflexivity|].
  intros text. cbn.
  unfold WordGrammarChecker.create_payload. cbn.
  destruct (String.eqb _ "slow"); reflexivity.
Qed.

(** C8, counterexample: the variant "turbo" is accepted, and its payload
    is the one of the fast preset. *)
Lemma new_accepts_unknown_model :
  exists self,
    WordGrammarChecker.new turbo_call = Return self
    /\ WordGrammarChecker.chosen_model self = "turbo"
    /\ Completions.model (WordGrammarChecker.create_payload self) = "gpt-4o"
    /\ Completions.reasoning_effort (WordGrammarChecker.create_payload self) = None.
Proof. eexists. split; [reflexivity|]. repeat split. Qed.

Lemma new_keeps_any_model_witness :
  WordGrammarChecker.kw_others turbo_call = []
  /\ exists self,
       WordGrammarChecker.new turbo_call = Return self
       /\ WordGrammarChecker.chosen_model self = "turbo".
Proof.
  split; [reflexivity|].
  destruct (new_keeps_any_model turbo_call eq_refl) as (self & Hn & Hc & _).
  - cbn. lia.
  - exists self. split; [exact Hn | exact Hc].
Defined.

(** ** The handler *)

Section HandlerProperties.
Context `{Json}.

(** C1, on every request that passes the guards of [process_sections]:
    the constructor is called with the keyword [use_discriminator], which
    its signature does not have, and the call raises before any oracle is
    asked. *)
Theorem process_sections_raises_TypeError
    (SESSIONS : gmap string (string * string)) (system_prompt : string)
    (create : nat -> completion_request -> result response)
    (data : App.ProcessSectionsRequest) (username api_key : string) :
  SESSIONS !! App.session_token data = Some (username, api_key) ->
  App.selected_titles data <> [] ->
  strip_is_empty (App.text_for_corrections data) = false ->
  App.process_sections SESSIONS system_prompt create data
  = Settles (Raise (Exn TypeError
       "WordGrammarChecker.__init__() got an unexpected keyword argument 'use_discriminator'")).
Proof.
  intros Hs Ht Hx. unfold App.process_sections. rewrite Hs, Hx.
  destruct (App.selected_titles data); [congruence|]. reflexivity.
Qed.

(** No request gets a result from the handler. *)
Lemma process_sections_never_returns
    (SESSIONS : gmap string (string * string)) (system_prompt : string)
    (create : nat -> completion_request -> result response)
    (data : App.ProcessSectionsRequest) :
  exists e, App.process_sections SESSIONS system_prompt create data = Settles (Raise e).
Proof.
  unfold App.process_sections.
  destruct (SESSIONS !! App.session_token data) as [[username api_key]|]; [|eauto].
  destruct (_ || _); eauto.
Qed.

End HandlerProperties.

Lemma process_sections_raises_TypeError_witness :
  ({[ "token-1" := ("AIBooks1", "sk-test") ]} : gmap string (string * string))
    !! App.session_token sample_request = Some ("AIBooks1", "sk-test")
  /\ @App.process_sections python_json {[ "token-1" := ("AIBooks1", "sk-test") ]}
       "Korjaa annetut tekstit."
       (fun _ => oracle_says nested_document) sample_request
     = Settles (Raise (Exn TypeError
         "WordGrammarChecker.__init__() got an unexpected keyword argument 'use_discriminator'")).
Proof.
  assert (Hs : ({[ "token-1" := ("AIBooks1", "sk-test") ]} : gmap string (string * string))
                 !! App.session_token sample_request = Some ("AIBooks1", "sk-test"))
    by (vm_compute; reflexivity).
  split; [exact Hs|].
  apply (@process_sections_raises_TypeError python_json _ _ _ sample_request
           "AIBooks1" "sk-test" Hs); [discriminate | reflexivity].
Defined.

(** ** The fan-out of [process_text] *)

Lemma gather_settled {A B : Type} (f : B -> A) (l : list B) :
  gather (map (fun x => Settles (Return (f x))) l) = Settles (Return (map f l)).
Proof.
  unfold gather.
  assert (Hr : first_raise (map (fun x => Settles (Return (f x))) l) = None)
    by (induction l; [reflexivity | assumption]).
  assert (Ha : gather_all (map (fun x => Settles (Return (f x))) l) = Some (map f l)).
  { clear Hr. induction l as [|x l IH]; [reflexivity|].
    cbn [map gather_all]. rewrite IH. reflexivity. }
  rewrite Hr, Ha. reflexivity.
Qed.

Lemma gather_blocked {A B : Type} (x : B) (l : list B) :
  gather (map (fun _ => @Blocked A) (x :: l)) = Blocked.
Proof.
  unfold gather.
  assert (Hr : forall k : list B, first_raise (map (fun _ => @Blocked A) k) = None)
    by (induction k; [reflexivity | assumption]).
  rewrite Hr. reflexivity.
Qed.

Lemma mapM_Return_inv {A B : Type} (f : A -> result B) (l : list A) (out : list B) :
  mapM f l = Return out -> Forall2 (fun x y => f x = Return y) l out.
Proof.
  revert out. induction l as [|x l IH]; intros out Hm.
  - injection Hm as <-. constructor.
  - cbn [mapM] in Hm.
    apply bind_Return_inv in Hm as (y & Hy & Hm).
    apply bind_Return_inv in Hm as (ys & Hys & Hm).
    injection Hm as <-. constructor; [exact Hy | apply IH; exact Hys].
Qed.

Lemma mapM_returns {A B : Type} (f : A -> result B) (l : list A) :
  Forall (fun x => returns (f x)) l -> returns (mapM f l).
Proof.
  induction 1 as [|x l [y Hy] _ [ys Hys]]; [exists []; reflexivity|].
  exists (y :: ys). cbn [mapM]. rewrite Hy. cbn [mbind result_bind].
  rewrite Hys. reflexivity.
Qed.

Lemma omap_id_map {A B : Type} (f : A -> option B) (l : list A) :
  omap id (map f l) = omap f l.
Proof.
  induction l as [|x l IH]; [reflexivity|].
  simpl. destruct (f x); [f_equal|]; exact IH.
Qed.

Lemma length_omap_le {A B : Type} (f : A -> option B) (l : list A) :
  (length (omap f l) <= length l)%nat.
Proof.
  induction l as [|x l IH]; [reflexivity|].
  change (length (match f x with
                  | Some y => y :: omap f l
                  | None => omap f l
                  end) <= S (length l))%nat.
  destruct (f x); simpl; lia.
Qed.

Section FanoutProperties.
Context `{Json}.

Import WordGrammarChecker.

Lemma gather_calls (self : t) create payload :
  1 <= n_responses self ->
  gather (calls self create payload)
  = if 0 <? semaphore self
    then Settles (Return (map (fun i => api_call (create i) payload)
                              (seq 0 (Z.to_nat (n_responses self)))))
    else Blocked.
Proof.
  intros Hn. unfold calls, make_api_call.
  destruct (0 <? semaphore self).
  - apply (gather_settled (fun i => api_call (create i) payload)).
  - destruct (Z.to_nat (n_responses self)) as [|n] eqn:Hz; [lia|].
    apply (gather_blocked 0%nat (seq 1 n)).
Qed.

(** C5: with [n_responses >= 1], the results [process_text] returns are
    those of the calls that did not fail, one each, in the order of the
    calls, read by [extract_corrections]; there are at most [n_responses]
    of them.  A checker with a permit to give returns them whenever the
    extraction of each raises nothing. *)
Theorem process_text_results (self : t)
    (create : nat -> completion_request -> result response) (text : string) :
  1 <= n_responses self ->
  let n := Z.to_nat (n_responses self) in
  let payload := create_payload (set_text_data self text) in
  let survivors := omap (fun i => api_call (create i) payload) (seq 0 n) in
  (forall results responses,
      (process_text self create text).2 = Settles (Return (results, responses)) ->
      responses = survivors
      /\ (length results <= n)%nat
      /\ Forall2 (fun r x => extract_corrections (Some r) = Return x) survivors results)
  /\ (0 < semaphore self ->
      Forall (fun r => returns (extract_corrections (Some r))) survivors ->
      exists results,
        (process_text self create text).2 = Settles (Return (results, survivors))).
Proof.
  intros Hn n payload survivors.
  assert (Hlen : (length survivors <= n)%nat).
  { subst survivors. etransitivity; [apply length_omap_le|]. rewrite length_seq. done. }
  unfold process_text. cbn [snd]. rewrite gather_calls by exact Hn. fold payload.
  change (semaphore (set_text_data self text)) with (semaphore self).
  change (n_responses (set_text_data self text)) with (n_responses self). fold n.
  destruct (Z.ltb_spec 0 (semaphore self)) as [Hsem|Hsem].
  - rewrite omap_id_map. fold survivors. clearbody survivors.
    split.
    + intros results responses.
      destruct survivors as [|r rs].
      * intros [= <- <-]. split; [reflexivity|]. split; [cbn; lia | constructor].
      * remember (mapM (fun r => extract_corrections (Some r)) (r :: rs)) as m eqn:Hout.
        symmetry in Hout. intros Hm.
        destruct m as [out|e]; [|discriminate Hm].
        injection Hm as <- <-.
        apply mapM_Return_inv in Hout.
        split; [reflexivity|]. split; [|exact Hout].
        rewrite <- (Forall2_length _ _ _ Hout). exact Hlen.
    + intros _ Hex.
      destruct survivors as [|r rs].
      * exists []. reflexivity.
      * destruct (mapM_returns _ _ Hex) as [out Hout].
        exists out. rewrite Hout. reflexivity.
  - split; [discriminate | lia].
Qed.

End FanoutProperties.

Example new_five_call : WordGrammarChecker.new five_call = Return five_checker.
Proof. reflexivity. Qed.

Lemma process_text_results_witness :
  1 <= WordGrammarChecker.n_responses five_checker
  /\ exists results responses,
       (@WordGrammarChecker.process_text python_json five_checker flaky_oracle
          "Minä olen opiskelut suomea.").2
       = Settles (Return (results, responses))
       /\ results = [(VList [], VStr "vastaus 0");
                     (VList [], VStr "vastaus 2");
                     (VList [], VStr "vastaus 4")]
       /\ responses = [completion (VStr (answer 0));
                       completion (VStr (answer 2));
                       completion (VStr (answer 4))]
       /\ (length results <= 5)%nat.
Proof.
  split; [cbn; lia|].
  eexists _, _. split; [vm_compute; reflexivity|].
  split; [reflexivity|]. split; [vm_compute; reflexivity|].
  apply (proj1 (@process_text_results python_json five_checker flaky_oracle
                  "Minä olen opiskelut suomea." ltac:(cbn; lia)) _ _
               ltac:(vm_compute; reflexivity)).
Defined.

(** ** The semaphore *)

Lemma tally_insert {A : Type} (f : A -> bool) (l : list A) (i : nat) (x y : A) :
  l !! i = Some x ->
  EventLoop.tally f (<[i := y]> l)
  = EventLoop.tally f l - (if f x then 1 else 0) + (if f y then 1 else 0).
Proof.
  revert i. induction l as [|z l IH]; intros [|i] Hi; try discriminate.
  - cbn in Hi. injection Hi as ->. cbn. destruct (f x), (f y); lia.
  - cbn in Hi. change (<[S i := y]> (z :: l)) with (z :: <[i := y]> l).
    cbn [EventLoop.tally]. rewrite (IH i Hi).
    destruct (f z), (f x), (f y); lia.
Qed.

Lemma tally_nonneg {A : Type} (f : A -> bool) (l : list A) : 0 <= EventLoop.tally f l.
Proof.
  induction l as [|x l IH]; [reflexivity|].
  cbn [EventLoop.tally]. destruct (f x); lia.
Qed.

Lemma tally_le {A : Type} (f g : A -> bool) (l : list A) :
  (forall x, f x = true -> g x = true) ->
  EventLoop.tally f l <= EventLoop.tally g l.
Proof.
  intros Hfg. induction l as [|x l IH]; [reflexivity|].
  cbn [EventLoop.tally]. specialize (Hfg x).
  destruct (f x), (g x); first [lia | discriminate (Hfg eq_refl)].
Qed.

Lemma tally_lt {A : Type} (f g : A -> bool) (l : list A) (i : nat) (x : A) :
  (forall x, f x = true -> g x = true) ->
  l !! i = Some x -> f x = false -> g x = true ->
  EventLoop.tally f l < EventLoop.tally g l.
Proof.
  intros Hfg. revert i. induction l as [|z l IH]; intros [|i] Hi Hf Hg; try discriminate.
  - cbn in Hi. injection Hi as ->. cbn [EventLoop.tally]. rewrite Hf, Hg.
    pose proof (tally_le f g l Hfg). lia.
  - cbn in Hi. cbn [EventLoop.tally]. specialize (IH i Hi Hf Hg).
    specialize (Hfg z). destruct (f z), (g z); first [lia | discriminate (Hfg eq_refl)].
Qed.

Lemma awaits_answer_holds_permit {A : Type} (t : coroutine A) :
  EventLoop.awaits_answer t = true -> EventLoop.holds_permit t = true.
Proof. destruct t; [discriminate | discriminate | reflexivity | discriminate]. Qed.

Lemma results_lookup {A : Type} (ts : list (coroutine A)) (rs : list A) :
  EventLoop.results ts = Some rs ->
  length rs = length ts
  /\ forall (i : nat) (r : A), rs !! i = Some r -> ts !! i = Some (Finished r).
Proof.
  revert rs. induction ts as [|t ts IH]; intros rs Hc.
  - injection Hc as <-. split; [reflexivity|]. intros i r Hi.
    rewrite lookup_nil in Hi. discriminate.
  - destruct t as [a| | |]; try discriminate Hc. cbn [EventLoop.results] in Hc.
    destruct (EventLoop.results ts) as [rs'|]; [|discriminate Hc].
    injection Hc as <-. destruct (IH rs' eq_refl) as [Hl Hs].
    split; [cbn; congruence|].
    intros [|i] r Hi; cbn in Hi |- *; [congruence | auto].
Qed.

Lemma results_hold_no_permit {A : Type} (ts : list (coroutine A)) (rs : list A) :
  EventLoop.results ts = Some rs -> EventLoop.tally EventLoop.holds_permit ts = 0.
Proof.
  revert rs. induction ts as [|t ts IH]; intros rs Hc; [reflexivity|].
  destruct t as [a| | |]; try discriminate Hc. cbn [EventLoop.results] in Hc.
  destruct (EventLoop.results ts) as [rs'|]; [|discriminate Hc].
  cbn. exact (IH rs' eq_refl).
Qed.

(** What the loop can resume next, by what its tasks await. *)
Lemma tasks_await {A : Type} (ts : list (coroutine A)) :
  is_Some (EventLoop.results ts)
  \/ (exists i payload k, ts !! i = Some (Create payload k))
  \/ (exists i k, ts !! i = Some (Release k))
  \/ (EventLoop.tally EventLoop.holds_permit ts = 0
      /\ exists i k, ts !! i = Some (Acquire k)).
Proof.
  induction ts as [|t ts IH]; [left; eexists; reflexivity|].
  destruct t as [a|k|payload k|k].
  - destruct IH as [[rs Hrs] | [(i & p & k & Hi) | [(i & k & Hi) | (Hz & i & k & Hi)]]].
    + left. cbn [EventLoop.results]. rewrite Hrs. eexists; reflexivity.
    + right; left. exists (S i), p, k. exact Hi.
    + right; right; left. exists (S i), k. exact Hi.
    + right; right; right. split; [exact Hz | exists (S i), k; exact Hi].
  - destruct IH as [[rs Hrs] | [(i & p & k' & Hi) | [(i & k' & Hi) | (Hz & i & k' & Hi)]]].
    + right; right; right. split.
      * cbn. exact (results_hold_no_permit ts rs Hrs).
      * exists 0%nat, k. reflexivity.
    + right; left. exists (S i), p, k'. exact Hi.
    + right; right; left. exists (S i), k'. exact Hi.
    + right; right; right. split; [exact Hz | exists 0%nat, k; reflexivity].
  - right; left. exists 0%nat, payload, k. reflexivity.
  - right; right; left. exists 0%nat, k. reflexivity.
Qed.

Section SemaphoreProperties.
Variable create : nat -> completion_request -> result response.
Variable payload : completion_request.

Lemma blocked_without_permit (self : WordGrammarChecker.t) (st : Fanout.state) :
  WordGrammarChecker.semaphore self = 0 ->
  Fanout.reachable create payload self st ->
  st = Fanout.initial self.
Proof.
  intros Hk Hr. unfold Fanout.reachable in Hr.
  revert st Hr. apply rtc_ind_r; [reflexivity | intros st st' Hreach Hstep IH].
  subst st. exfalso.
  inversion Hstep as [st0 i Hw Hp | st0 i Hf]; subst.
  - cbn in Hp. lia.
  - cbn in Hf. apply lookup_replicate in Hf as [Hf _]. discriminate.
Qed.

Lemma remaining_lookup (ts : list (coroutine (option response))) (i j : nat)
    (t : coroutine (option response)) :
  ts !! j = Some t ->
  (EventLoop.awaits_left create (i + j) t <= EventLoop.remaining create i ts)%nat.
Proof.
  revert i j. induction ts as [|x ts IH]; intros i [|j] Hj; try discriminate.
  - cbn in Hj. injection Hj as ->. rewrite Nat.add_0_r. cbn. lia.
  - cbn in Hj. specialize (IH (S i) j Hj).
    replace (i + S j)%nat with (S i + j)%nat by lia. cbn. cbn in IH. lia.
Qed.

Lemma remaining_insert (ts : list (coroutine (option response))) (i j : nat)
    (t t' : coroutine (option response)) :
  ts !! j = Some t ->
  EventLoop.remaining create i (<[j := t']> ts)
  = (EventLoop.remaining create i ts - EventLoop.awaits_left create (i + j) t
     + EventLoop.awaits_left create (i + j) t')%nat.
Proof.
  revert i j. induction ts as [|x ts IH]; intros i [|j] Hj; try discriminate.
  - cbn in Hj. injection Hj as ->. rewrite Nat.add_0_r. cbn. lia.
  - cbn in Hj. change (<[S j := t']> (x :: ts)) with (x :: <[j := t']> ts).
    cbn [EventLoop.remaining]. rewrite (IH (S i) j Hj).
    pose proof (remaining_lookup ts (S i) j t Hj).
    replace (i + S j)%nat with (S i + j)%nat by lia. lia.
Qed.

(** Every step is one await less to make. *)
Lemma step_remaining (st st' : EventLoop.state) :
  EventLoop.step create st st' ->
  S (EventLoop.remaining create 0 (EventLoop.tasks st'))
  = EventLoop.remaining create 0 (EventLoop.tasks st).
Proof.
  intros [st0 i k Hi Hp | st0 i p k Hi | st0 i k Hi]; cbn [EventLoop.tasks];
    rewrite (remaining_insert _ 0 _ _ _ Hi);
    pose proof (remaining_lookup _ 0 _ _ Hi) as Hge; cbn in Hge |- *; lia.
Qed.

Lemma remaining_call_coroutines (i : nat) (slots : list nat) :
  EventLoop.remaining create i
    (map (fun _ : nat => WordGrammarChecker.make_api_call_coroutine payload) slots)
  = (3 * length slots)%nat.
Proof.
  revert i. induction slots as [|s slots IH]; intros i; [reflexivity|].
  cbn [map EventLoop.remaining length]. rewrite IH. cbn. lia.
Qed.

Lemma nsteps_remaining (k : nat) (st st' : EventLoop.state) :
  nsteps (EventLoop.step create) k st st' ->
  (k + EventLoop.remaining create 0 (EventLoop.tasks st')
   = EventLoop.remaining create 0 (EventLoop.tasks st))%nat.
Proof.
  intros Hrun. induction Hrun as [st|k st st1 st' Hstep _ IH]; [reflexivity|].
  pose proof (step_remaining _ _ Hstep). lia.
Qed.

Lemma stage_inv (i : nat) (t : coroutine (option response)) :
  EventLoop.stage create payload i t ->
  t = WordGrammarChecker.make_api_call_coroutine payload
  \/ WordGrammarChecker.make_api_call_coroutine payload = Acquire t
  \/ t = Release (Finished (WordGrammarChecker.api_call (create i) payload))
  \/ t = Finished (WordGrammarChecker.api_call (create i) payload).
Proof. intros [|k Hk| |]; auto. Qed.

(** A step leaves every task of [make_api_call] at a stage of
    [make_api_call], and the permits where they are: in the semaphore or
    with a task inside the block. *)
Lemma step_stage (st st' : EventLoop.state) :
  EventLoop.step create st st' ->
  (forall i t, EventLoop.tasks st !! i = Some t -> EventLoop.stage create payload i t) ->
  (forall i t, EventLoop.tasks st' !! i = Some t -> EventLoop.stage create payload i t)
  /\ EventLoop.value st' + EventLoop.tally EventLoop.holds_permit (EventLoop.tasks st')
     = EventLoop.value st + EventLoop.tally EventLoop.holds_permit (EventLoop.tasks st)
  /\ length (EventLoop.tasks st') = length (EventLoop.tasks st)
  /\ (0 <= EventLoop.value st -> 0 <= EventLoop.value st').
Proof.
  intros Hstep Hst.
  assert (Hother : forall (i : nat) (t' : coroutine (option response)),
             (i < length (EventLoop.tasks st))%nat ->
             EventLoop.stage create payload i t' ->
             forall j t, <[i := t']> (EventLoop.tasks st) !! j = Some t ->
                         EventLoop.stage create payload j t).
  { intros i t' Hlt Ht' j t Hj. destruct (decide (i = j)) as [<-|Hne].
    - rewrite list_lookup_insert_eq in Hj by exact Hlt. injection Hj as <-. exact Ht'.
    - rewrite list_lookup_insert_ne in Hj by exact Hne. auto. }
  destruct Hstep as [st i k Hi Hp | st i p k Hi | st i k Hi];
    cbn [EventLoop.value EventLoop.tasks];
    rewrite (tally_insert _ _ _ _ _ Hi), length_insert;
    pose proof (lookup_lt_Some _ _ _ Hi) as Hlt;
    destruct (stage_inv i _ (Hst i _ Hi)) as [Hk | [Hk | [Hk | Hk]]];
    unfold WordGrammarChecker.make_api_call_coroutine in Hk;
    try discriminate Hk.
  - injection Hk as ->. split; [|cbn; lia].
    apply (Hother i _ Hlt). apply EventLoop.at_request. reflexivity.
  - injection Hk as <- <-. split; [|cbn; lia].
    apply (Hother i _ Hlt). apply EventLoop.at_exit.
  - injection Hk as ->. split; [|cbn; lia].
    apply (Hother i _ Hlt). apply EventLoop.at_end.
Qed.

(** What holds of every state of the loop. *)
Lemma reachable_stage (self : WordGrammarChecker.t) (st : EventLoop.state) :
  EventLoop.reachable create self payload st ->
  (forall i t, EventLoop.tasks st !! i = Some t -> EventLoop.stage create payload i t)
  /\ EventLoop.value st + EventLoop.tally EventLoop.holds_permit (EventLoop.tasks st)
     = WordGrammarChecker.semaphore self
  /\ length (EventLoop.tasks st) = Z.to_nat (WordGrammarChecker.n_responses self)
  /\ (0 <= WordGrammarChecker.semaphore self -> 0 <= EventLoop.value st).
Proof.
  intros Hr. unfold EventLoop.reachable in Hr.
  revert st Hr. apply rtc_ind_r; [|intros st st' Hreach Hstep IH].
  - cbn [EventLoop.initial EventLoop.value EventLoop.tasks].
    unfold WordGrammarChecker.call_coroutines.
    split; [|split; [|split]].
    + intros i t Hi. rewrite list_lookup_fmap in Hi.
      destruct (seq 0 (Z.to_nat (WordGrammarChecker.n_responses self)) !! i);
        [|discriminate Hi].
      injection Hi as <-. apply EventLoop.at_entry.
    + generalize (seq 0 (Z.to_nat (WordGrammarChecker.n_responses self))).
      intros slots. induction slots as [|s slots IH]; [cbn; lia|].
      cbn [map EventLoop.tally]. cbn. cbn in IH. lia.
    + rewrite length_map, length_seq. reflexivity.
    + auto.
  - destruct IH as (Hst & Hsum & Hlen & Hpos).
    destruct (step_stage _ _ Hstep Hst) as (Hst' & Hsum' & Hlen' & Hpos').
    split; [exact Hst'|]. split; [lia|]. split; [congruence|]. auto.
Qed.

Lemma phases_call_coroutines (slots : list nat) :
  map EventLoop.phase_of
    (map (fun _ : nat => WordGrammarChecker.make_api_call_coroutine payload) slots)
  = replicate (length slots) Fanout.Waiting.
Proof.
  induction slots as [|s slots IH]; [reflexivity|].
  cbn [length replicate map]. rewrite IH. reflexivity.
Qed.

(** The tasks of [Fanout] take the steps of the loop, but for the answer
    to a request, which they do not see. *)
Lemma reachable_phases (self : WordGrammarChecker.t) (st : EventLoop.state) :
  EventLoop.reachable create self payload st ->
  Fanout.reachable create payload self (EventLoop.phases st).
Proof.
  intros Hr. pose proof Hr as Hrun. unfold EventLoop.reachable in Hrun.
  revert st Hrun Hr. apply (rtc_ind_r (fun st =>
    EventLoop.reachable create self payload st ->
    Fanout.reachable create payload self (EventLoop.phases st)));
    [intros _ | intros st st' Hreach Hstep IH _].
  - unfold EventLoop.phases, Fanout.reachable, Fanout.initial.
    cbn [EventLoop.initial EventLoop.value EventLoop.tasks].
    unfold WordGrammarChecker.call_coroutines.
    rewrite phases_call_coroutines, length_seq. apply rtc_refl.
  - specialize (IH Hreach).
    destruct (reachable_stage self st Hreach) as (Hst & _).
    unfold Fanout.reachable in *.
    destruct Hstep as [st i k Hi Hp | st i p k Hi | st i k Hi];
      unfold EventLoop.phases; cbn [EventLoop.value EventLoop.tasks];
      change (map EventLoop.phase_of) with (fmap (M := list) EventLoop.phase_of);
      rewrite list_fmap_insert;
      destruct (stage_inv i _ (Hst i _ Hi)) as [Hk | [Hk | [Hk | Hk]]];
      unfold WordGrammarChecker.make_api_call_coroutine in Hk;
      try discriminate Hk.
    + injection Hk as ->. eapply rtc_r; [exact IH|].
      apply (Fanout.step_acquire create payload (EventLoop.phases st) i);
        [|exact Hp].
      cbn [EventLoop.phases Fanout.tasks].
      change (map EventLoop.phase_of) with (fmap (M := list) EventLoop.phase_of).
      rewrite list_lookup_fmap, Hi. reflexivity.
    + injection Hk as <- <-. cbn [EventLoop.phase_of].
      rewrite list_insert_id; [exact IH|].
      rewrite list_lookup_fmap, Hi. reflexivity.
    + injection Hk as ->. eapply rtc_r; [exact IH|].
      apply (Fanout.step_release create payload (EventLoop.phases st) i).
      cbn [EventLoop.phases Fanout.tasks].
      change (map EventLoop.phase_of) with (fmap (M := list) EventLoop.phase_of).
      rewrite list_lookup_fmap, Hi. reflexivity.
Qed.

(** A task that has finished holds what its own call gave, so the
    results are those of [api_call], in the order of the calls. *)
Lemma reachable_results (self : WordGrammarChecker.t) (st : EventLoop.state)
    (rs : list (option response)) :
  EventLoop.reachable create self payload st ->
  EventLoop.results (EventLoop.tasks st) = Some rs ->
  rs = map (fun i => WordGrammarChecker.api_call (create i) payload)
           (seq 0 (Z.to_nat (WordGrammarChecker.n_responses self))).
Proof.
  intros Hr Hc.
  destruct (results_lookup _ _ Hc) as [Hl Hs].
  destruct (reachable_stage self st Hr) as (Hst & _ & Hn & _).
  apply list_eq. intros i.
  rewrite list_lookup_fmap.
  destruct (rs !! i) as [r|] eqn:Hi.
  - assert (Hlt : (i < Z.to_nat (WordGrammarChecker.n_responses self))%nat)
      by (rewrite <- Hn, <- Hl; eapply lookup_lt_Some; eassumption).
    rewrite lookup_seq_lt by exact Hlt. cbn. f_equal.
    destruct (stage_inv i _ (Hst i _ (Hs i r Hi))) as [Hk | [Hk | [Hk | Hk]]];
      unfold WordGrammarChecker.make_api_call_coroutine in Hk;
      try discriminate Hk.
    injection Hk as ->. reflexivity.
  - apply lookup_ge_None in Hi.
    rewrite lookup_seq_ge by lia. reflexivity.
Qed.

(** With a permit in the semaphore, the loop can resume a task as long
    as one has not finished. *)
Lemma reachable_progress (self : WordGrammarChecker.t) (st : EventLoop.state) :
  0 < WordGrammarChecker.semaphore self ->
  EventLoop.reachable create self payload st ->
  EventLoop.results (EventLoop.tasks st) = None ->
  exists st', EventLoop.step create st st'.
Proof.
  intros Hk Hr Hc.
  destruct (reachable_stage self st Hr) as (_ & Hsum & _ & _).
  destruct (tasks_await (EventLoop.tasks st))
    as [[rs Hrs] | [(i & p & k & Hi) | [(i & k & Hi) | (Hz & i & k & Hi)]]].
  - congruence.
  - eexists. apply (EventLoop.step_create create st i p k Hi).
  - eexists. apply (EventLoop.step_release create st i k Hi).
  - eexists. apply (EventLoop.step_acquire create st i k Hi). lia.
Qed.

(** Without a permit no task gets past the entry of the block. *)
Lemma loop_blocked_without_permit (self : WordGrammarChecker.t) (st : EventLoop.state) :
  WordGrammarChecker.semaphore self = 0 ->
  EventLoop.reachable create self payload st ->
  st = EventLoop.initial self payload.
Proof.
  intros Hk Hr. unfold EventLoop.reachable in Hr.
  revert st Hr. apply rtc_ind_r; [reflexivity | intros st st' Hreach Hstep IH].
  subst st. exfalso.
  assert (Hentry : forall i t,
             EventLoop.tasks (EventLoop.initial self payload) !! i = Some t ->
             t = WordGrammarChecker.make_api_call_coroutine payload).
  { intros i t Hi. cbn in Hi. unfold WordGrammarChecker.call_coroutines in Hi.
    rewrite list_lookup_fmap in Hi.
    destruct (seq 0 (Z.to_nat (WordGrammarChecker.n_responses self)) !! i);
      [|discriminate Hi].
    injection Hi as <-. reflexivity. }
  inversion Hstep as [st0 i k Hi Hp | st0 i p k Hi | st0 i k Hi]; subst.
  - cbn in Hp. lia.
  - discriminate (Hentry i _ Hi).
  - discriminate (Hentry i _ Hi).
Qed.

(** C6: from a checker the constructor returned, the requests in flight
    at any point of the run of the coroutines of [make_api_call] never
    exceed [max_concurrent_requests], which is 5 when the call leaves it
    out.  When that many are in flight the semaphore has no permit left,
    so that the tasks at its entry wait, and the only step the loop can
    take is the answer to one of the requests.  [make_api_call] and
    [calls], as [process_text] awaits them, sum these runs up: the gather
    returns the results of a run in which every task has finished, and it
    never returns when the run stops with a task unfinished. *)
Theorem in_flight_bounded (c : WordGrammarChecker.call) (self : WordGrammarChecker.t)
    (st : EventLoop.state) :
  WordGrammarChecker.new c = Return self ->
  EventLoop.reachable create self payload st ->
  let K := WordGrammarChecker.max_concurrent_requests self in
  0 <= EventLoop.in_flight (EventLoop.tasks st) <= K
  /\ 0 <= EventLoop.value st <= K - EventLoop.in_flight (EventLoop.tasks st)
  /\ (EventLoop.in_flight (EventLoop.tasks st) = K ->
      forall st', EventLoop.step create st st' ->
        EventLoop.in_flight (EventLoop.tasks st') = K - 1 /\ EventLoop.value st' = 0)
  /\ (forall rs, EventLoop.results (EventLoop.tasks st) = Some rs ->
      gather (WordGrammarChecker.calls self create payload) = Settles (Return rs))
  /\ (EventLoop.results (EventLoop.tasks st) = None ->
      (forall st', ~ EventLoop.step create st st') ->
      gather (WordGrammarChecker.calls self create payload) = Blocked)
  /\ (WordGrammarChecker.kw_max_concurrent_requests c = None -> K = 5).
Proof.
  intros Hnew Hr K.
  destruct (new_Return_inv c self Hnew) as (_ & Hk & Hsem & Hdef & _).
  destruct (reachable_stage self st Hr) as (Hst & Hsum & Hlen & Hpos).
  specialize (Hpos ltac:(lia)).
  pose proof (tally_nonneg EventLoop.awaits_answer (EventLoop.tasks st)) as Hnn.
  pose proof (tally_le EventLoop.awaits_answer EventLoop.holds_permit
                (EventLoop.tasks st) (@awaits_answer_holds_permit _)) as Hle.
  unfold EventLoop.in_flight. subst K.
  split; [lia|]. split; [lia|]. split; [|split; [|split]].
  - intros Hfull st' Hstep.
    inversion Hstep as [st0 i k Hi Hp | st0 i p k Hi | st0 i k Hi]; subst;
      cbn [EventLoop.value EventLoop.tasks].
    + lia.
    + rewrite (tally_insert _ _ _ _ _ Hi).
      destruct (stage_inv i _ (Hst i _ Hi)) as [Hc | [Hc | [Hc | Hc]]];
        unfold WordGrammarChecker.make_api_call_coroutine in Hc;
        try discriminate Hc.
      injection Hc as <- <-. cbn. lia.
    + pose proof (tally_lt EventLoop.awaits_answer EventLoop.holds_permit
                    (EventLoop.tasks st) i (Release k)
                    (@awaits_answer_holds_permit _) Hi eq_refl eq_refl).
      lia.
  - intros rs Hrs.
    rewrite (reachable_results self st rs Hr Hrs).
    unfold WordGrammarChecker.calls, WordGrammarChecker.make_api_call.
    destruct (0 <? WordGrammarChecker.semaphore self) eqn:Hperm.
    + apply (gather_settled (fun i => WordGrammarChecker.api_call (create i) payload)).
    + assert (Hz : WordGrammarChecker.semaphore self = 0) by lia.
      rewrite (loop_blocked_without_permit self st Hz Hr) in Hrs.
      cbn [EventLoop.initial EventLoop.tasks] in Hrs.
      unfold WordGrammarChecker.call_coroutines in Hrs.
      destruct (seq 0 (Z.to_nat (WordGrammarChecker.n_responses self)));
        [reflexivity | discriminate Hrs].
  - intros Hnone Hstuck.
    destruct (decide (0 < WordGrammarChecker.semaphore self)) as [Hperm|Hperm].
    + destruct (reachable_progress self st Hperm Hr Hnone) as [st' Hstep].
      destruct (Hstuck st' Hstep).
    + assert (Hz : WordGrammarChecker.semaphore self = 0) by lia.
      rewrite (loop_blocked_without_permit self st Hz Hr) in Hnone.
      cbn [EventLoop.initial EventLoop.tasks] in Hnone.
      unfold WordGrammarChecker.call_coroutines in Hnone.
      unfold WordGrammarChecker.calls, WordGrammarChecker.make_api_call.
      rewrite Hz. cbn [Z.ltb Z.compare].
      destruct (seq 0 (Z.to_nat (WordGrammarChecker.n_responses self))) as [|s slots];
        [discriminate Hnone|].
      apply (gather_blocked s slots).
  - intros Hnone. rewrite Hdef, Hnone. reflexivity.
Qed.

End SemaphoreProperties.

Example new_three_call : WordGrammarChecker.new three_call = Return three_checker.
Proof. reflexivity. Qed.

Lemma in_flight_bounded_witness :
  WordGrammarChecker.new three_call = Return three_checker
  /\ EventLoop.reachable flaky_oracle three_checker
       (WordGrammarChecker.create_payload three_checker) one_in_flight
  /\ EventLoop.in_flight (EventLoop.tasks one_in_flight) = 1
  /\ EventLoop.value one_in_flight = 0
  /\ forall st', EventLoop.step flaky_oracle one_in_flight st' ->
       EventLoop.in_flight (EventLoop.tasks st') = 0 /\ EventLoop.value st' = 0.
Proof.
  assert (Hr : EventLoop.reachable flaky_oracle three_checker
                 (WordGrammarChecker.create_payload three_checker) one_in_flight).
  { unfold EventLoop.reachable.
    eapply rtc_l; [|apply rtc_refl].
    apply (EventLoop.step_acquire flaky_oracle
             (EventLoop.initial three_checker
                (WordGrammarChecker.create_payload three_checker)) 2 _ eq_refl).
    reflexivity. }
  split; [reflexivity|]. split; [exact Hr|]. split; [reflexivity|].
  split; [reflexivity|].
  pose proof (in_flight_bounded flaky_oracle
                (WordGrammarChecker.create_payload three_checker)
                three_call three_checker one_in_flight eq_refl Hr) as Hb.
  cbv zeta in Hb. destruct Hb as (_ & _ & Hfull & _).
  exact (Hfull eq_refl).
Defined.

Lemma batch_validate_isolates_failures_witness :
  exists results,
    @GrammarDiscriminator.batch_validate python_json
      (GrammarDiscriminator.__init__ "sk-test") second_answer_broken two_batches None
    = Settles (Return results)
    /\ length results = 2%nat
    /\ results !! 0%nat
       = Some (VList (take 1 four_corrections),
               VDict [("discriminator_used", VBool true);
                      ("quality_score", VInt 90);
                      ("original_count", VInt 2);
                      ("filtered_count", VInt 1);
                      ("rejected_count", VInt 0);
                      ("summary", VStr "Arviointi valmis.");
                      ("rejected_reasons", VList [])])
    /\ results !! 1%nat
       = Some (VList (drop 2 four_corrections),
               VDict [("error",
                       VStr "'<' not supported between instances of 'str' and 'int'");
                      ("discriminator_used", VBool false)]).
Proof.
  destruct (@batch_validate_isolates_failures python_json
              (GrammarDiscriminator.__init__ "sk-test") second_answer_broken
              two_batches None)
    as (results & Hb & Hl & Hs).
  exists results. split; [exact Hb|]. split; [exact Hl|]. split.
  - rewrite (Hs 0%nat (VList (take 2 four_corrections)) "" eq_refl eq_refl).
    vm_compute. reflexivity.
  - rewrite (Hs 1%nat (VList (drop 2 four_corrections)) "" eq_refl eq_refl).
    vm_compute. reflexivity.
Defined.

(** C7, counterexample: the discriminator call of the second batch raises.
    [validate_corrections] catches the exception, so [batch_validate] sees
    none: the result of that batch is not the batch with the error, it is
    the first of its two corrections, with [discriminator_used] true and
    no "error". *)
Lemma batch_validate_call_failure_is_caught_earlier :
  second_call_down 1 = oracle_down
  /\ two_batches !! 1%nat = Some (VList (drop 2 four_corrections))
  /\ @GrammarDiscriminator.batch_validate python_json
       (GrammarDiscriminator.__init__ "sk-test") second_call_down two_batches None
     = Settles (Return
         [(VList (take 1 four_corrections),
           VDict [("discriminator_used", VBool true);
                  ("quality_score", VInt 90);
                  ("original_count", VInt 2);
                  ("filtered_count", VInt 1);
                  ("rejected_count", VInt 0);
                  ("summary", VStr "Arviointi valmis.");
                  ("rejected_reasons", VList [])]);
          (VList (take 1 (drop 2 four_corrections)),
           VDict [("discriminator_used", VBool true);
                  ("quality_score", VInt 50);
                  ("original_count", VInt 2);
                  ("filtered_count", VInt 1);
                  ("rejected_count", VInt 0);
                  ("summary",
                   VStr "Validation failed: Connection error.. Returned all corrections.");
                  ("rejected_reasons", VList [])])]).
Proof. split; [reflexivity|]. split; vm_compute; reflexivity. Qed.

(** * Further properties *)

(** ** Answers of the discriminator *)

Section DiscriminatorAnswers.
Context `{Json}.

Import GrammarDiscriminator.

(** With an oracle that answers, the [try] of [validate_corrections] is
    the reading of the answer. *)
Lemma validate_corrections_try_answered self create corrections original_text
    (r : response) :
  (forall request, create request = Return r) ->
  validate_corrections_try self create corrections original_text
  = (content ← message_content r;
     validation_result ← json_loads content;
     valid ← py_get validation_result "valid_corrections" (VList []);
     _ ← py_len valid;
     rejected ← py_get validation_result "rejected_corrections" (VList []);
     _ ← py_len rejected;
     _ ← py_get validation_result "quality_score" (VInt 0);
     Return validation_result).
Proof.
  intros Hc. unfold validate_corrections_try. rewrite Hc.
  unfold message_content. cbn [mbind result_bind].
  destruct (py_getattr (model_dump r) "choices") as [choices|e]; [|reflexivity].
  cbn [mbind result_bind].
  destruct (py_index0 choices) as [choice|e]; [|reflexivity].
  cbn [mbind result_bind].
  destruct (py_getattr choice "message") as [message|e]; reflexivity.
Qed.

(** X1: an answer that cannot be read as a validation result is replaced
    by the fallback, with the exception it caused: an answer without a
    message content, a content that [json.loads] rejects, a JSON value
    that is not an object, and an object whose "valid_corrections" have
    no length. *)
Theorem validate_corrections_unreadable_answer self create corrections original_text
    (r : response) :
  (forall request, create request = Return r) ->
  (forall e,
      message_content r = Raise e ->
      validate_corrections self create corrections original_text
      = validation_failed corrections e)
  /\ (forall content e,
        message_content r = Return content ->
        json_loads content = Raise e ->
        validate_corrections self create corrections original_text
        = validation_failed corrections e)
  /\ (forall content v,
        message_content r = Return content ->
        json_loads content = Return v ->
        (forall d, v <> VDict d) ->
        validate_corrections self create corrections original_text
        = validation_failed corrections
            (Exn AttributeError ("'" ++ type_name v ++ "' object has no attribute 'get'")))
  /\ (forall content d valid e,
        message_content r = Return content ->
        json_loads content = Return (VDict d) ->
        dict_lookup "valid_corrections" d = Some valid ->
        py_len valid = Raise e ->
        validate_corrections self create corrections original_text
        = validation_failed corrections e).
Proof.
  intros Hc. unfold validate_corrections, try_except.
  rewrite (validate_corrections_try_answered _ _ _ _ r Hc).
  repeat split.
  - intros e ->. reflexivity.
  - intros content e -> He. cbn [mbind result_bind]. rewrite He. reflexivity.
  - intros content v -> Hv Hd. cbn [mbind result_bind]. rewrite Hv.
    cbn [mbind result_bind].
    destruct v; try reflexivity. exfalso. exact (Hd _ eq_refl).
  - intros content d valid e -> Hv Hl Hlen. cbn [mbind result_bind]. rewrite Hv.
    cbn [py_get mbind result_bind]. rewrite Hl. cbn [from_option id].
    rewrite Hlen. reflexivity.
Qed.

(** X2: a validation that succeeds with a score that is not below the
    threshold returns the discriminator's "valid_corrections" as they
    came, and the metadata count them. *)
Theorem filter_corrections_at_threshold self create (cs : list pyval) original_text
    min_quality_score (d : dict) (valid : list pyval) (score : pyval) :
  validate_corrections_try self create (VList cs) original_text = Return (VDict d) ->
  default (VList []) (dict_lookup "valid_corrections" d) = VList valid ->
  default (VInt 0) (dict_lookup "quality_score" d) = score ->
  py_lt_int score min_quality_score = Return false ->
  exists rejected_count,
    py_len (default (VList []) (dict_lookup "rejected_corrections" d))
    = Return rejected_count
    /\ filter_corrections self create (VList cs) original_text min_quality_score
       = Return (VList valid,
                 VDict [("discriminator_used", VBool true);
                        ("quality_score", score);
                        ("original_count", VInt (Z.of_nat (length cs)));
                        ("filtered_count", VInt (Z.of_nat (length valid)));
                        ("rejected_count", VInt rejected_count);
                        ("summary", default (VStr "") (dict_lookup "summary" d));
                        ("rejected_reasons",
                         default (VList []) (dict_lookup "rejected_corrections" d))]).
Proof.
  intros Hv Hvalid Hscore Hlt.
  destruct (validate_corrections_try_inv _ _ _ _ _ Hv) as (d' & [= <-] & _ & [n Hn]).
  exists n. split; [exact Hn|].
  unfold filter_corrections, validate_corrections, try_except. rewrite Hv.
  cbn [py_get mbind result_bind]. rewrite Hvalid, Hscore, Hlt.
  cbn [py_len mbind result_bind]. rewrite Hn. reflexivity.
Qed.

(** X3: whenever [filter_corrections] returns, its metadata are the seven
    entries of the source, in their order; [discriminator_used] is true,
    also after a failed call, and the three counts are the lengths of the
    input, of the list returned and of the rejections. *)
Theorem filter_corrections_metadata self create corrections original_text
    min_quality_score (kept metadata : pyval) :
  filter_corrections self create corrections original_text min_quality_score
  = Return (kept, metadata) ->
  exists score original filtered rejected summary reasons,
    metadata = VDict [("discriminator_used", VBool true);
                      ("quality_score", score);
                      ("original_count", VInt original);
                      ("filtered_count", VInt filtered);
                      ("rejected_count", VInt rejected);
                      ("summary", summary);
                      ("rejected_reasons", reasons)]
    /\ py_len corrections = Return original
    /\ py_len kept = Return filtered
    /\ py_len reasons = Return rejected.
Proof.
  intros Hf. unfold filter_corrections in Hf.
  destruct (validate_corrections_is_dict self create corrections original_text)
    as [d Hd].
  cbn zeta in Hf. rewrite Hd in Hf.
  cbn [py_get mbind result_bind] in Hf.
  apply bind_Return_inv in Hf as (below & _ & Hf).
  apply bind_Return_inv in Hf as (kept' & _ & Hf).
  apply bind_Return_inv in Hf as (original & Ho & Hf).
  apply bind_Return_inv in Hf as (filtered & Hk & Hf).
  apply bind_Return_inv in Hf as (rejected & Hr & Hf).
  injection Hf as <- <-.
  eexists _, original, filtered, rejected, _, _.
  split; [reflexivity|]. split; [exact Ho|]. split; [exact Hk | exact Hr].
Qed.

(** X4: after a failed call the input comes back whole when the
    threshold is 50 or less: the fallback score is not below it. *)
Theorem filter_corrections_fail_open self create (cs : list pyval) original_text
    min_quality_score (e : exn) :
  validate_corrections_try self create (VList cs) original_text = Raise e ->
  min_quality_score <= 50 ->
  exists metadata,
    filter_corrections self create (VList cs) original_text min_quality_score
    = Return (VList cs, metadata)
    /\ metadata_field metadata "quality_score" = Some (VInt 50)
    /\ metadata_field metadata "filtered_count" = Some (VInt (Z.of_nat (length cs)))
    /\ metadata_field metadata "summary"
       = Some (VStr ("Validation failed: " ++ exn_str e ++ ". Returned all corrections.")).
Proof.
  intros Hv Hle.
  rewrite (filter_corrections_on_failure _ _ _ _ _ e Hv).
  destruct (Z.ltb_spec 50 min_quality_score) as [Hlt|_]; [lia|].
  cbn zeta. eexists. split; [reflexivity|]. repeat split.
Qed.

(** X5: a score that [<] cannot compare with an int (a string, null, a
    list, an object) makes [filter_corrections] raise a [TypeError]: the
    comparison is outside the [try] of [validate_corrections]. *)
Theorem filter_corrections_unorderable_score self create corrections original_text
    min_quality_score (d : dict) (score : pyval) :
  validate_corrections_try self create corrections original_text = Return (VDict d) ->
  default (VInt 0) (dict_lookup "quality_score" d) = score ->
  numeric score = false ->
  filter_corrections self create corrections original_text min_quality_score
  = Raise (Exn TypeError
             ("'<' not supported between instances of '" ++ type_name score
              ++ "' and 'int'")).
Proof.
  intros Hv Hscore Hn.
  unfold filter_corrections, validate_corrections, try_except. rewrite Hv.
  cbn [py_get mbind result_bind]. rewrite Hscore.
  destruct score; try discriminate Hn; reflexivity.
Qed.

(** X6: an answer without "valid_corrections" and without "quality_score"
    reads as no correction accepted and a score of 0: every correction of
    the input is dropped, whatever the threshold. *)
Theorem filter_corrections_missing_keys self create (cs : list pyval) original_text
    min_quality_score (d : dict) :
  validate_corrections_try self create (VList cs) original_text = Return (VDict d) ->
  dict_lookup "valid_corrections" d = None ->
  dict_lookup "quality_score" d = None ->
  exists metadata,
    filter_corrections self create (VList cs) original_text min_quality_score
    = Return (VList [], metadata)
    /\ metadata_field metadata "quality_score" = Some (VInt 0)
    /\ metadata_field metadata "original_count" = Some (VInt (Z.of_nat (length cs)))
    /\ metadata_field metadata "filtered_count" = Some (VInt 0).
Proof.
  intros Hv Hvalid Hscore.
  destruct (validate_corrections_try_inv _ _ _ _ _ Hv) as (d' & [= <-] & _ & [n Hn]).
  unfold filter_corrections, validate_corrections, try_except. rewrite Hv.
  cbn [py_get mbind result_bind]. rewrite Hvalid, Hscore.
  cbn [from_option id py_lt_int mbind result_bind].
  destruct (0 <? min_quality_score);
    cbn [py_len py_slice_to length mbind result_bind]; rewrite Hn;
    cbn [mbind result_bind]; eexists; (split; [reflexivity|]); repeat split.
Qed.

End DiscriminatorAnswers.

Section BatchAnswers.
Context `{Json}.

Import GrammarDiscriminator.

Lemma batch_validate_handles self
    (create : nat -> completion_request -> result response)
    (correction_batches : list pyval) (texts : list string) :
  batch_validate self create correction_batches (Some texts)
  = Settles (handle_results correction_batches 0
               (imap (fun i (ct : pyval * string) =>
                        filter_corrections self (create i) ct.1 ct.2
                          min_quality_score_default)
                     (zip correction_batches texts))).
Proof.
  unfold batch_validate.
  rewrite (imap_ext _ (fun i x => Settles (filter_corrections self (create i) x.1 x.2
                                             min_quality_score_default))
             (zip correction_batches texts))
    by (intros i [c t] _; reflexivity).
  rewrite gather_return_exceptions_settled. reflexivity.
Qed.

(** X7: a discriminator call that raises for one batch does not reach the
    fallback of [batch_validate]: [validate_corrections] has caught it, so
    the batch comes back cut to [max(1, len // 2)] corrections, with a
    score of 50 and [discriminator_used] true. *)
Theorem batch_validate_call_failure self
    (create : nat -> completion_request -> result response)
    (correction_batches : list pyval) (texts : list string)
    (i : nat) (cs : list pyval) (text : string) (e : exn) :
  correction_batches !! i = Some (VList cs) ->
  texts !! i = Some text ->
  (forall request, create i request = Raise e) ->
  exists results,
    batch_validate self create correction_batches (Some texts) = Settles (Return results)
    /\ results !! i
       = Some (let kept := take (Z.to_nat (Z.max 1 (Z.of_nat (length cs) / 2))) cs in
               (VList kept,
                VDict [("discriminator_used", VBool true);
                       ("quality_score", VInt 50);
                       ("original_count", VInt (Z.of_nat (length cs)));
                       ("filtered_count", VInt (Z.of_nat (length kept)));
                       ("rejected_count", VInt 0);
                       ("summary", VStr ("Validation failed: " ++ exn_str e
                                         ++ ". Returned all corrections."));
                       ("rejected_reasons", VList [])])).
Proof.
  intros Hb Ht Hc. rewrite batch_validate_handles.
  set (g := fun (i : nat) (ct : pyval * string) =>
              filter_corrections self (create i) ct.1 ct.2 min_quality_score_default).
  destruct (handle_results_spec correction_batches
              (imap g (zip correction_batches texts)) 0)
    as (out & Hout & _ & Hspec).
  { rewrite length_imap, length_zip. lia. }
  exists out. split; [rewrite Hout; reflexivity|].
  rewrite (Hspec i (g i (VList cs, text)) (VList cs)).
  - unfold g. cbn [fst snd].
    rewrite (filter_corrections_on_failure _ _ _ _ _ e).
    + reflexivity.
    + unfold validate_corrections_try. rewrite Hc. reflexivity.
  - rewrite list_lookup_imap, lookup_zip_with, Hb. cbn. rewrite Ht. reflexivity.
  - exact Hb.
Qed.

End BatchAnswers.

(** ** The constructor of the checker *)

Lemma list_ascii_of_string_app (a b : string) :
  list_ascii_of_string (a ++ b) = (list_ascii_of_string a ++ list_ascii_of_string b)%list.
Proof. induction a as [|c a IH]; [reflexivity|]. simpl. f_equal. exact IH. Qed.

Lemma string_of_list_ascii_app (l k : list ascii) :
  string_of_list_ascii (l ++ k)%list = string_of_list_ascii l ++ string_of_list_ascii k.
Proof.
  induction l as [|c l IH]; [reflexivity|].
  cbn [app string_of_list_ascii]. rewrite IH. reflexivity.
Qed.

Lemma string_rev_app (a b : string) :
  string_rev (a ++ b) = string_rev b ++ string_rev a.
Proof.
  unfold string_rev.
  rewrite list_ascii_of_string_app, rev_app_distr, string_of_list_ascii_app. reflexivity.
Qed.

Lemma string_rev_involutive (s : string) : string_rev (string_rev s) = s.
Proof.
  unfold string_rev.
  rewrite list_ascii_of_string_of_list_ascii, rev_involutive.
  apply string_of_list_ascii_of_string.
Qed.

Lemma endswith_char_snoc (l : list ascii) (c' c : ascii) :
  endswith_char (string_of_list_ascii (l ++ [c'])%list) c = Ascii.eqb c' c.
Proof.
  induction l as [|x l IH]; [reflexivity|].
  cbn [app string_of_list_ascii endswith_char].
  destruct (string_of_list_ascii (l ++ [c'])%list) eqn:E; [|exact IH].
  destruct l; discriminate E.
Qed.

Lemma endswith_char_rev (u : string) (c : ascii) :
  endswith_char (string_rev u) c = startswith_char u c.
Proof.
  destruct u as [|c' u]; [reflexivity|].
  unfold string_rev. cbn [list_ascii_of_string rev].
  apply endswith_char_snoc.
Qed.

Lemma lstrip_chars_head (chars : list ascii) (s : string) (c : ascii) (rest : string) :
  lstrip_chars chars s = String c rest -> existsb (Ascii.eqb c) chars = false.
Proof.
  induction s as [|c' s IH]; [discriminate|].
  cbn [lstrip_chars].
  destruct (existsb (Ascii.eqb c') chars) eqn:E; [exact IH|].
  intros [= <- <-]. exact E.
Qed.

Lemma lstrip_chars_suffix (chars : list ascii) (s : string) :
  exists p, s = p ++ lstrip_chars chars s.
Proof.
  induction s as [|c s [p IH]]; [exists ""; reflexivity|].
  cbn [lstrip_chars].
  destruct (existsb (Ascii.eqb c) chars).
  - exists (String c p).
    change (String c s = String c (p ++ lstrip_chars chars s)). f_equal. exact IH.
  - exists "". reflexivity.
Qed.

Lemma lstrip_chars_id (chars : list ascii) (s : string) :
  (forall c, In c chars -> startswith_char s c = false) ->
  lstrip_chars chars s = s.
Proof.
  intros Hs. destruct s as [|c s]; [reflexivity|].
  cbn [lstrip_chars].
  destruct (existsb (Ascii.eqb c) chars) eqn:E; [|reflexivity].
  apply existsb_exists in E as (x & Hx & Hcx).
  specialize (Hs x Hx). cbn in Hs. congruence.
Qed.

Lemma startswith_char_in (chars : list ascii) (s : string) (c : ascii) :
  In c chars -> startswith_char s c = true ->
  exists rest, s = String c rest /\ existsb (Ascii.eqb c) chars = true.
Proof.
  intros Hin Hs. destruct s as [|c' s]; [discriminate|]. cbn in Hs.
  apply Ascii.eqb_eq in Hs as ->. exists s. split; [reflexivity|].
  apply existsb_exists. exists c. split; [exact Hin | apply Ascii.eqb_refl].
Qed.

(** What [strip] leaves neither starts nor ends with one of the
    characters. *)
Lemma strip_chars_ends (chars : list ascii) (s : string) (c : ascii) :
  In c chars ->
  startswith_char (strip_chars chars s) c = false
  /\ endswith_char (strip_chars chars s) c = false.
Proof.
  intros Hin. unfold strip_chars.
  set (t := lstrip_chars chars s).
  set (u := lstrip_chars chars (string_rev t)).
  split.
  - destruct (startswith_char (string_rev u) c) eqn:Hs; [exfalso|reflexivity].
    destruct (startswith_char_in chars _ c Hin Hs) as (rest & Hr & Hex).
    destruct (lstrip_chars_suffix chars (string_rev t)) as [p Hp]. fold u in Hp.
    apply (f_equal string_rev) in Hp.
    rewrite string_rev_involutive, string_rev_app, Hr in Hp.
    cbn in Hp. subst t.
    rewrite (lstrip_chars_head chars s c _ Hp) in Hex. discriminate.
  - rewrite endswith_char_rev.
    destruct (startswith_char u c) eqn:Hs; [exfalso|reflexivity].
    destruct (startswith_char_in chars _ c Hin Hs) as (rest & Hr & Hex).
    subst u. rewrite (lstrip_chars_head chars _ c _ Hr) in Hex. discriminate.
Qed.

(** X8: the key a checker holds never starts with a quote, and the client
    is built with that key.  A key given with a quote at its head has
    lost the quotes at both ends; a key given without one is kept as it
    is, whatever its end. *)
Theorem new_api_key_unquoted (c : WordGrammarChecker.call) (self : WordGrammarChecker.t) :
  WordGrammarChecker.new c = Return self ->
  let given := WordGrammarChecker.arg_api_key c in
  let key := WordGrammarChecker.api_key self in
  WordGrammarChecker.client self = key
  /\ startswith_char key dquote = false
  /\ startswith_char key squote = false
  /\ (startswith_char given dquote || startswith_char given squote = true ->
      endswith_char key dquote = false /\ endswith_char key squote = false)
  /\ (startswith_char given dquote || startswith_char given squote = false ->
      key = given).
Proof.
  unfold WordGrammarChecker.new, WordGrammarChecker.__init__, WordGrammarChecker.Semaphore.
  destruct (WordGrammarChecker.kw_others c); [|discriminate].
  destruct (default 5 (WordGrammarChecker.kw_max_concurrent_requests c) <? 0);
    [discriminate|].
  cbn [mbind result_bind]. intros [= <-].
  cbn [WordGrammarChecker.api_key WordGrammarChecker.client].
  set (given := WordGrammarChecker.arg_api_key c).
  assert (Hd : In dquote [dquote; squote]) by (left; reflexivity).
  assert (Hq : In squote [dquote; squote]) by (right; left; reflexivity).
  destruct (strip_chars_ends [dquote; squote] given dquote Hd) as [Hsd Hed].
  destruct (strip_chars_ends [dquote; squote] given squote Hq) as [Hsq Heq].
  split; [reflexivity|].
  destruct (startswith_char given dquote || startswith_char given squote) eqn:Hstart.
  - assert (Hne : negb (String.eqb given "") = true)
      by (destruct given; [discriminate Hstart | reflexivity]).
    rewrite Hne. cbn [andb].
    split; [exact Hsd|]. split; [exact Hsq|]. split; [auto | discriminate].
  - rewrite andb_false_r.
    apply orb_false_iff in Hstart as [H1 H2].
    split; [exact H1|]. split; [exact H2|]. split; [discriminate | reflexivity].
Qed.


(** ** Runs of [process_text] *)

Lemma omap_all_None {A B : Type} (f : A -> option B) (l : list A) :
  Forall (fun x => f x = None) l -> omap f l = [].
Proof.
  induction 1 as [|x l Hx _ IH]; [reflexivity|].
  change (omap f (x :: l)) with (match f x with
                                 | Some y => y :: omap f l
                                 | None => omap f l
                                 end).
  rewrite Hx. exact IH.
Qed.

Lemma mapM_Raise {A B : Type} (f : A -> result B) (good : list A) (x : A)
    (rest : list A) (e : exn) :
  Forall (fun a => returns (f a)) good ->
  f x = Raise e ->
  mapM f (good ++ x :: rest)%list = Raise e.
Proof.
  intros Hgood Hx. induction Hgood as [|a good [b Hb] _ IH].
  - cbn [app mapM]. rewrite Hx. reflexivity.
  - cbn [app mapM]. rewrite Hb. cbn [mbind result_bind]. rewrite IH. reflexivity.
Qed.

Section ProcessTextRuns.
Context `{Json}.

Import WordGrammarChecker.

(** X10: with [n_responses] at 0 or below there is no call to gather:
    [process_text] returns two empty lists, whatever the oracle and
    whatever the semaphore holds. *)
Theorem process_text_without_calls (self : t)
    (create : nat -> completion_request -> result response) (text : string) :
  n_responses self <= 0 ->
  process_text self create text
  = (set_text_data self text, Settles (Return ([], []))).
Proof.
  intros Hn. unfold process_text, calls.
  change (n_responses (set_text_data self text)) with (n_responses self).
  replace (Z.to_nat (n_responses self)) with 0%nat by lia. reflexivity.
Qed.

(** X11: when every call fails, [process_text] raises nothing: it returns
    two empty lists. *)
Theorem process_text_all_calls_fail (self : t)
    (create : nat -> completion_request -> result response) (text : string) :
  1 <= n_responses self ->
  0 < semaphore self ->
  (forall i : nat,
      (i < Z.to_nat (n_responses self))%nat ->
      exists e, create i (create_payload (set_text_data self text)) = Raise e) ->
  (process_text self create text).2 = Settles (Return ([], [])).
Proof.
  intros Hn Hsem Hfail. unfold process_text. cbn [snd].
  rewrite gather_calls by exact Hn.
  change (semaphore (set_text_data self text)) with (semaphore self).
  change (n_responses (set_text_data self text)) with (n_responses self).
  destruct (Z.ltb_spec 0 (semaphore self)); [|lia].
  rewrite omap_id_map, omap_all_None; [reflexivity|].
  apply Forall_forall. intros i Hi. apply elem_of_seq in Hi.
  destruct (Hfail i ltac:(lia)) as [e He]. unfold api_call. rewrite He. reflexivity.
Qed.

(** X12: an exception of [extract_corrections] on one response is the
    outcome of the whole [process_text]: the responses read before it and
    the responses after it are lost with it. *)
Theorem process_text_extraction_error (self : t)
    (create : nat -> completion_request -> result response) (text : string)
    (good : list response) (r : response) (rest : list response) (e : exn) :
  1 <= n_responses self ->
  0 < semaphore self ->
  omap (fun i => api_call (create i) (create_payload (set_text_data self text)))
       (seq 0 (Z.to_nat (n_responses self)))
  = (good ++ r :: rest)%list ->
  Forall (fun x => returns (extract_corrections (Some x))) good ->
  extract_corrections (Some r) = Raise e ->
  (process_text self create text).2 = Settles (Raise e).
Proof.
  intros Hn Hsem Hs Hgood Hr. unfold process_text. cbn [snd].
  rewrite gather_calls by exact Hn.
  change (semaphore (set_text_data self text)) with (semaphore self).
  change (n_responses (set_text_data self text)) with (n_responses self).
  destruct (Z.ltb_spec 0 (semaphore self)); [|lia].
  rewrite omap_id_map, Hs.
  rewrite (mapM_Raise _ good r rest e Hgood Hr).
  destruct good; reflexivity.
Qed.

(** X13: [process_text] asks the oracle for one payload only, the one
    built from its [text] argument, at the slots below [n_responses]: two
    oracles that agree there give the same outcome, and the text of an
    earlier run has no part in it. *)
Theorem process_text_payload_only (self : t)
    (create create' : nat -> completion_request -> result response)
    (text earlier : string) :
  (forall i : nat,
      (i < Z.to_nat (n_responses self))%nat ->
      create i (create_payload (set_text_data self text))
      = create' i (create_payload (set_text_data self text))) ->
  process_text self create text = process_text self create' text
  /\ process_text (set_text_data self earlier) create text
     = process_text self create text.
Proof.
  intros Hagree. split; [|reflexivity].
  unfold process_text. f_equal.
  assert (Hcalls : calls (set_text_data self text) create
                     (create_payload (set_text_data self text))
                   = calls (set_text_data self text) create'
                       (create_payload (set_text_data self text))).
  { unfold calls. apply map_ext_in. intros i Hi. apply in_seq in Hi.
    unfold make_api_call, api_call.
    change (n_responses (set_text_data self text)) with (n_responses self) in Hi.
    rewrite (Hagree i) by lia. reflexivity. }
  rewrite Hcalls. reflexivity.
Qed.

(** X14: a checker built with [max_concurrent_requests=0] never gets an
    answer from [process_text] when there is a call to make: the gather
    waits for ever, and in the fan-out no task can take a step. *)
Theorem process_text_blocked (c : call) (self : t)
    (create : nat -> completion_request -> result response) (text : string) :
  new c = Return self ->
  max_concurrent_requests self = 0 ->
  1 <= n_responses self ->
  (process_text self create text).2 = Blocked
  /\ forall st,
       Fanout.reachable create (create_payload (set_text_data self text)) self st ->
       st = Fanout.initial self.
Proof.
  intros Hnew Hk Hn.
  destruct (new_Return_inv c self Hnew) as (_ & _ & Hsem & _).
  split.
  - unfold process_text. cbn [snd]. rewrite gather_calls by exact Hn.
    change (semaphore (set_text_data self text)) with (semaphore self).
    rewrite Hsem, Hk. reflexivity.
  - intros st Hr.
    apply (blocked_without_permit create (create_payload (set_text_data self text))
             self st); [|exact Hr].
    rewrite Hsem. exact Hk.
Qed.

(** X15: a message content that is not a [str] (the null content of a
    refusal, for one) makes [extract_corrections] raise the [TypeError]
    of [json.loads]. *)
Theorem extract_corrections_content_not_str (r : response) (content : pyval) :
  chat_content r = Some content ->
  (forall s, content <> VStr s) ->
  extract_corrections (Some r)
  = Raise (Exn TypeError
             ("the JSON object must be str, bytes or bytearray, not "
              ++ type_name content)).
Proof.
  intros Hc Hs. rewrite (extract_corrections_unfold r content Hc).
  destruct content; try reflexivity. exfalso. exact (Hs _ eq_refl).
Qed.

End ProcessTextRuns.

(** ** Runs of the event loop *)

Section EventLoopRuns.
Variable create : nat -> completion_request -> result response.
Variable payload : completion_request.

(** X16: with a permit in the semaphore the coroutines of [make_api_call]
    cannot stop each other: every task gives its permit back, on an
    answer and on an exception alike, so from any state the loop has
    reached some run leads to a state where every task has finished; and
    a run of the loop makes three steps for each call, never more. *)
Theorem event_loop_terminates (self : WordGrammarChecker.t) :
  0 < WordGrammarChecker.semaphore self ->
  (forall st,
      EventLoop.reachable create self payload st ->
      exists st',
        rtc (EventLoop.step create) st st'
        /\ is_Some (EventLoop.results (EventLoop.tasks st')))
  /\ (forall (k : nat) st,
        nsteps (EventLoop.step create) k (EventLoop.initial self payload) st ->
        (k + EventLoop.remaining create 0 (EventLoop.tasks st)
         = 3 * Z.to_nat (WordGrammarChecker.n_responses self))%nat).
Proof.
  intros Hk. split.
  - intros st.
    remember (EventLoop.remaining create 0 (EventLoop.tasks st)) as m eqn:Hm.
    revert st Hm. induction m as [m IH] using lt_wf_ind. intros st Hm Hr.
    destruct (EventLoop.results (EventLoop.tasks st)) as [rs|] eqn:Hc.
    + exists st. split; [apply rtc_refl | rewrite Hc; eauto].
    + destruct (reachable_progress create payload self st Hk Hr Hc) as [st1 Hstep].
      pose proof (step_remaining create _ _ Hstep) as Hdec.
      destruct (IH (EventLoop.remaining create 0 (EventLoop.tasks st1)) ltac:(lia)
                  st1 eq_refl)
        as (st' & Hrun & Hdone).
      { unfold EventLoop.reachable in *. eapply rtc_r; eassumption. }
      exists st'. split; [eapply rtc_l; eassumption | exact Hdone].
  - intros k st Hrun.
    rewrite (nsteps_remaining create _ _ _ Hrun).
    cbn [EventLoop.initial EventLoop.tasks].
    unfold WordGrammarChecker.call_coroutines.
    rewrite remaining_call_coroutines, length_seq. reflexivity.
Qed.

End EventLoopRuns.

Lemma event_loop_terminates_witness :
  0 < WordGrammarChecker.semaphore three_checker
  /\ exists st',
       rtc (EventLoop.step flaky_oracle) one_in_flight st'
       /\ is_Some (EventLoop.results (EventLoop.tasks st')).
Proof.
  split; [reflexivity|].
  refine (proj1 (event_loop_terminates flaky_oracle
                   (WordGrammarChecker.create_payload three_checker)
                   three_checker eq_refl)
                one_in_flight _).
  unfold EventLoop.reachable.
  eapply rtc_l; [|apply rtc_refl].
  apply (EventLoop.step_acquire flaky_oracle
           (EventLoop.initial three_checker
              (WordGrammarChecker.create_payload three_checker)) 2 _ eq_refl).
  reflexivity.
Defined.

(** ** Sessions *)

Lemma find_user_Some (USERS : list App.user) (name pass : string) (found : App.user) :
  App.find_user USERS name pass = Some found ->
  exists before k after,
    found = (name, pass, k)
    /\ USERS = (before ++ (name, pass, k) :: after)%list
    /\ forall k', (name, pass, k') ∉ before.
Proof.
  induction USERS as [|[[u p] k] USERS IH]; [discriminate|].
  cbn [App.find_user].
  destruct (String.eqb u name && String.eqb p pass) eqn:E.
  - intros [= <-]. apply andb_true_iff in E as [Hu Hp].
    apply String.eqb_eq in Hu as ->. apply String.eqb_eq in Hp as ->.
    exists [], k, USERS. split; [reflexivity|]. split; [reflexivity|].
    intros k' Hin. apply elem_of_nil in Hin. exact Hin.
  - intros Hf. destruct (IH Hf) as (before & k0 & after & -> & -> & Hno).
    exists ((u, p, k) :: before), k0, after.
    split; [reflexivity|]. split; [reflexivity|].
    intros k' Hin. apply elem_of_cons in Hin as [Heq|Hin]; [|exact (Hno k' Hin)].
    injection Heq as <- <- _.
    rewrite !String.eqb_refl in E. discriminate E.
Qed.

Lemma find_user_None (USERS : list App.user) (name pass : string) :
  App.find_user USERS name pass = None ->
  forall k, (name, pass, k) ∉ USERS.
Proof.
  induction USERS as [|[[u p] k] USERS IH]; intros Hf k' Hin.
  - apply elem_of_nil in Hin. exact Hin.
  - cbn [App.find_user] in Hf.
    destruct (String.eqb u name && String.eqb p pass) eqn:E; [discriminate|].
    apply elem_of_cons in Hin as [Heq|Hin]; [|exact (IH Hf k' Hin)].
    injection Heq as <- <- _. rewrite !String.eqb_refl in E. discriminate E.
Qed.

(** X18: [login] answers with the token exactly when [USERS] has the name
    with the password; the session it stores under the token holds the
    key of the first such user, and no other session changes.  Otherwise
    it raises 401 and leaves [SESSIONS] as they were. *)
Theorem login_outcome (USERS : list App.user) (SESSIONS : gmap string (string * string))
    (token : string) (login_data : App.LoginRequest) :
  let name := App.username login_data in
  let pass := App.password login_data in
  let after_login := (App.login USERS SESSIONS token login_data).1 in
  match (App.login USERS SESSIONS token login_data).2 with
  | Return answer =>
      answer = VDict [("session_token", VStr token)]
      /\ exists before k after,
           USERS = (before ++ (name, pass, k) :: after)%list
           /\ (forall k', (name, pass, k') ∉ before)
           /\ after_login !! token = Some (name, k)
           /\ forall other, other <> token -> after_login !! other = SESSIONS !! other
  | Raise e =>
      e = Exn (HTTPException 401) "Invalid credentials"
      /\ after_login = SESSIONS
      /\ forall k, (name, pass, k) ∉ USERS
  end.
Proof.
  cbn zeta. unfold App.login.
  destruct (App.find_user USERS (App.username login_data) (App.password login_data))
    as [[[u p] k]|] eqn:Hf; cbn [fst snd].
  - destruct (find_user_Some _ _ _ _ Hf) as (before & k0 & after & [= -> -> ->] & HU & Hno).
    split; [reflexivity|]. exists before, k0, after.
    split; [exact HU|]. split; [exact Hno|].
    split; [apply lookup_insert_eq|].
    intros other Hne. apply lookup_insert_ne. congruence.
  - split; [reflexivity|]. split; [reflexivity|]. exact (find_user_None _ _ _ Hf).
Qed.

Section SessionProperties.
Context `{Json}.

(** X19: the two guards of [process_sections], in their order: a token
    that is not in [SESSIONS] gets 401 whatever else the request holds,
    and a known token with no title selected, or with a text that is
    empty once stripped, gets 400. *)
Theorem process_sections_guards
    (SESSIONS : gmap string (string * string)) (system_prompt : string)
    (create : nat -> completion_request -> result response)
    (data : App.ProcessSectionsRequest) :
  (SESSIONS !! App.session_token data = None ->
   App.process_sections SESSIONS system_prompt create data
   = Settles (Raise (Exn (HTTPException 401) "Not logged in")))
  /\ (is_Some (SESSIONS !! App.session_token data) ->
      App.selected_titles data = []
      \/ strip_is_empty (App.text_for_corrections data) = true ->
      App.process_sections SESSIONS system_prompt create data
      = Settles (Raise (Exn (HTTPException 400) "No sections or text provided."))).
Proof.
  unfold App.process_sections. split.
  - intros ->. reflexivity.
  - intros [[u k] ->] [Ht|Hx].
    + rewrite Ht. reflexivity.
    + rewrite Hx, orb_true_r. reflexivity.
Qed.

(** X20: a request that carries the token of a successful [login] passes
    the session guard of [process_sections]: it is refused for its titles
    or its text, or reaches the constructor. *)
Theorem login_then_process_sections (USERS : list App.user)
    (SESSIONS : gmap string (string * string)) (token : string)
    (login_data : App.LoginRequest) (answer : pyval) (system_prompt : string)
    (create : nat -> completion_request -> result response)
    (data : App.ProcessSectionsRequest) :
  (App.login USERS SESSIONS token login_data).2 = Return answer ->
  App.session_token data = token ->
  App.process_sections (App.login USERS SESSIONS token login_data).1
    system_prompt create data
  = if match App.selected_titles data with [] => true | _ => false end
       || strip_is_empty (App.text_for_corrections data)
    then Settles (Raise (Exn (HTTPException 400) "No sections or text provided."))
    else Settles (Raise (Exn TypeError
           "WordGrammarChecker.__init__() got an unexpected keyword argument 'use_discriminator'")).
Proof.
  intros Hl Ht. unfold App.login in *.
  destruct (App.find_user USERS (App.username login_data) (App.password login_data))
    as [[[u p] k]|]; [|discriminate Hl].
  cbn [fst]. unfold App.process_sections. rewrite Ht, lookup_insert_eq.
  destruct (_ || _); reflexivity.
Qed.

End SessionProperties.

(** ** The users file *)

Lemma after_first_Return (c : ascii) (s : string) :
  In c (list_ascii_of_string s) -> returns (after_first c s).
Proof.
  induction s as [|c' s IH]; [intros []|].
  cbn [list_ascii_of_string In after_first].
  destruct (Ascii.eqb_spec c' c) as [->|Hne].
  - intros _. eexists. reflexivity.
  - intros [Heq|Hin]; [congruence | exact (IH Hin)].
Qed.

Lemma after_first_Raise (c : ascii) (s : string) (e : exn) :
  after_first c s = Raise e ->
  e = Exn IndexError "list index out of range" /\ ~ In c (list_ascii_of_string s).
Proof.
  induction s as [|c' s IH].
  - intros [= <-]. split; [reflexivity | intros []].
  - cbn [list_ascii_of_string In after_first].
    destruct (Ascii.eqb_spec c' c) as [->|Hne]; [discriminate|].
    intros He. destruct (IH He) as [-> Hn]. split; [reflexivity|].
    intros [Heq|Hin]; [congruence | exact (Hn Hin)].
Qed.

Lemma field_Return (line : string) :
  In ":"%char (list_ascii_of_string line) -> returns (App.field line).
Proof.
  intros Hin. destruct (after_first_Return _ _ Hin) as [v Hv].
  unfold App.field. rewrite Hv. eexists. reflexivity.
Qed.

Lemma field_Raise (line : string) (e : exn) :
  App.field line = Raise e ->
  e = Exn IndexError "list index out of range"
  /\ ~ In ":"%char (list_ascii_of_string line).
Proof.
  unfold App.field.
  destruct (after_first ":"%char line) as [v|e'] eqn:Ha; [discriminate|].
  intros [= <-]. exact (after_first_Raise _ _ _ Ha).
Qed.

Lemma field_Return_inv (line value : string) :
  App.field line = Return value -> In ":"%char (list_ascii_of_string line).
Proof.
  unfold App.field.
  destruct (after_first ":"%char line) as [v|e] eqn:Hv; [intros _|discriminate].
  revert Hv. induction line as [|c line IH]; [discriminate|].
  cbn [after_first list_ascii_of_string In].
  destruct (Ascii.eqb_spec c ":"%char) as [->|Hne]; [tauto|].
  intros Hv. right. exact (IH Hv).
Qed.

(** The lines [load_users] keeps: stripped, and not empty. *)
Abbreviation kept_lines lines :=
  (filter (fun l : string => l <> "") (py_strip <$> lines)).

Abbreviation has_colon :=
  (fun l : string => In ":"%char (list_ascii_of_string l)).

Lemma read_lines_spec (lines : list string) :
  forall (block : list string) (users : list App.user),
    (length block < 3)%nat ->
    let all := (block ++ kept_lines lines)%list in
    let complete := take (3 * (length all / 3)) all in
    (returns (App.read_lines lines block users) <-> Forall has_colon complete)
    /\ (forall out, App.read_lines lines block users = Return out ->
                    length out = (length users + length all / 3)%nat)
    /\ (forall e, App.read_lines lines block users = Raise e ->
                  e = Exn IndexError "list index out of range").
Proof.
  induction lines as [|line lines IH]; intros block users Hb; cbn zeta.
  - cbn [fmap list_fmap]. rewrite filter_nil, app_nil_r.
    rewrite (Nat.div_small (length block) 3) by exact Hb.
    cbn [App.read_lines Nat.mul take].
    split; [split; [constructor | eexists; reflexivity]|].
    split; [intros out [= <-]; lia | discriminate].
  - rewrite fmap_cons, filter_cons. cbn [App.read_lines].
    destruct (String.eqb_spec (py_strip line) "") as [Hblank|Hline].
    + destruct (decide (py_strip line <> "")) as [Hne|_]; [congruence|].
      exact (IH block users Hb).
    + destruct (decide (py_strip line <> "")) as [_|Hne]; [|exfalso; exact (Hne Hline)].
      set (l := py_strip line) in *.
      destruct block as [|a [|b [|c block]]]; cbn [length] in Hb; [| | |lia].
      * exact (IH [l] users ltac:(cbn; lia)).
      * exact (IH [a; l] users ltac:(cbn; lia)).
      * cbn [app].
        set (n := length (kept_lines lines)) in *.
        assert (Hdiv : (length (a :: b :: l :: kept_lines lines) / 3 = S (n / 3))%nat).
        { cbn [length]. fold n.
          replace (S (S (S n))) with (n + 1 * 3)%nat by lia.
          rewrite Nat.div_add by lia. lia. }
        rewrite Hdiv.
        replace (3 * S (n / 3))%nat with (S (S (S (3 * (n / 3)))))%nat by lia.
        cbn [take].
        destruct (App.field a) as [u|e] eqn:Ha; cbn [mbind result_bind].
        2:{ destruct (field_Raise _ _ Ha) as [-> Hn].
            split; [split; [intros [x Hx]; discriminate Hx
                           | intros HF; inversion HF; contradiction]|].
            split; [discriminate | intros e' [= <-]; reflexivity]. }
        destruct (App.field b) as [p|e] eqn:Hfb; cbn [mbind result_bind].
        2:{ destruct (field_Raise _ _ Hfb) as [-> Hn].
            split; [split; [intros [x Hx]; discriminate Hx
                           | intros HF; inversion HF as [|? ? _ HF']; inversion HF';
                             contradiction]|].
            split; [discriminate | intros e' [= <-]; reflexivity]. }
        destruct (App.field l) as [k|e] eqn:Hfl; cbn [mbind result_bind].
        2:{ destruct (field_Raise _ _ Hfl) as [-> Hn].
            split; [split; [intros [x Hx]; discriminate Hx
                           | intros HF; inversion HF as [|? ? _ HF'];
                             inversion HF' as [|? ? _ HF'']; inversion HF'';
                             contradiction]|].
            split; [discriminate | intros e' [= <-]; reflexivity]. }
        pose proof (field_Return_inv _ _ Ha) as Hca.
        pose proof (field_Return_inv _ _ Hfb) as Hcb.
        pose proof (field_Return_inv _ _ Hfl) as Hcl.
        match goal with
        | |- context [App.read_lines lines [] ?us] =>
            destruct (IH [] us ltac:(cbn; lia)) as (IHr & IHc & IHe)
        end.
        cbn [app] in IHr, IHc. fold n in IHr, IHc.
        split; [|split].
        -- rewrite IHr. split.
           ++ intros HF. repeat constructor; assumption.
           ++ intros HF. inversion HF as [|? ? _ HF1]. inversion HF1 as [|? ? _ HF2].
              inversion HF2. assumption.
        -- intros out Hout. rewrite (IHc out Hout), length_app. cbn [length]. fold n. lia.
        -- exact IHe.
Qed.

(** X21: [load_users] reads the lines that are not empty once stripped,
    three by three.  It returns exactly when every line of a complete
    block of three has a colon, and then with one user for each such
    block: the one or two lines left at the end are not read, and give
    no user and no error.  The only exception it raises is the
    [IndexError] of a line without a colon; a file that does not exist
    gives no user. *)
Theorem load_users_blocks (text : string) :
  let lines := kept_lines (split_char "010"%char (py_strip text)) in
  let complete := take (3 * (length lines / 3)) lines in
  (returns (App.load_users (Some text)) <-> Forall has_colon complete)
  /\ (forall users,
        App.load_users (Some text) = Return users ->
        length users = (length lines / 3)%nat)
  /\ (forall e,
        App.load_users (Some text) = Raise e ->
        e = Exn IndexError "list index out of range")
  /\ App.load_users None = Return [].
Proof.
  cbn zeta. unfold App.load_users.
  destruct (read_lines_spec (split_char "010"%char (py_strip text)) [] [])
    as (Hr & Hc & He); [cbn; lia|].
  cbn [app length Nat.add] in Hr, Hc.
  split; [exact Hr|]. split; [exact Hc|]. split; [exact He | reflexivity].
Qed.

(** ** Instances *)

Lemma validate_corrections_unreadable_answer_witness :
  (forall request, oracle_says "[]" request = Return (completion (VStr "[]")))
  /\ @GrammarDiscriminator.validate_corrections python_json
       (GrammarDiscriminator.__init__ "sk-test") (oracle_says "[]")
       (VList three_corrections) ""
     = GrammarDiscriminator.validation_failed (VList three_corrections)
         (Exn AttributeError "'list' object has no attribute 'get'").
Proof.
  split; [intros request; reflexivity|].
  apply (proj1 (proj2 (proj2
           (@validate_corrections_unreadable_answer python_json
              (GrammarDiscriminator.__init__ "sk-test") (oracle_says "[]")
              (VList three_corrections) "" (completion (VStr "[]"))
              (fun _ => eq_refl))))
           (VStr "[]") (VList []));
    [reflexivity | vm_compute; reflexivity | discriminate].
Defined.

Lemma filter_corrections_at_threshold_witness :
  py_lt_int (VInt 90) 70 = Return false
  /\ exists metadata,
       @GrammarDiscriminator.filter_corrections python_json
         (GrammarDiscriminator.__init__ "sk-test")
         (oracle_says (verdict three_corrections [] (VInt 90)))
         (VList three_corrections) "" 70
       = Return (VList three_corrections, metadata).
Proof.
  split; [reflexivity|].
  destruct (@filter_corrections_at_threshold python_json
              (GrammarDiscriminator.__init__ "sk-test")
              (oracle_says (verdict three_corrections [] (VInt 90)))
              three_corrections "" 70
              [("valid_corrections", VList three_corrections);
               ("rejected_corrections", VList []);
               ("quality_score", VInt 90);
               ("summary", VStr "Arviointi valmis.")]
              three_corrections (VInt 90)
              ltac:(vm_compute; reflexivity) eq_refl eq_refl eq_refl)
    as (n & _ & Hf).
  eexists. exact Hf.
Defined.

Lemma filter_corrections_metadata_witness :
  exists kept metadata,
    @GrammarDiscriminator.filter_corrections python_json
      (GrammarDiscriminator.__init__ "sk-test") oracle_down
      (VList four_corrections) "" 70
    = Return (kept, metadata)
    /\ metadata_field metadata "discriminator_used" = Some (VBool true).
Proof.
  eexists _, _. split; [vm_compute; reflexivity|].
  destruct (@filter_corrections_metadata python_json
              (GrammarDiscriminator.__init__ "sk-test") oracle_down
              (VList four_corrections) "" 70 _ _ ltac:(vm_compute; reflexivity))
    as (score & original & filtered & rejected & summary & reasons & Hm & _).
  rewrite Hm. reflexivity.
Defined.

Lemma filter_corrections_fail_open_witness :
  @GrammarDiscriminator.validate_corrections_try python_json
    (GrammarDiscriminator.__init__ "sk-test") oracle_down (VList four_corrections) ""
  = Raise (Exn APIError "Connection error.")
  /\ exists metadata,
       @GrammarDiscriminator.filter_corrections python_json
         (GrammarDiscriminator.__init__ "sk-test") oracle_down
         (VList four_corrections) "" 50
       = Return (VList four_corrections, metadata).
Proof.
  split; [reflexivity|].
  destruct (@filter_corrections_fail_open python_json
              (GrammarDiscriminator.__init__ "sk-test") oracle_down
              four_corrections "" 50 (Exn APIError "Connection error.")
              eq_refl ltac:(lia))
    as (metadata & Hf & _).
  exists metadata. exact Hf.
Defined.

Lemma filter_corrections_unorderable_score_witness :
  numeric (VStr "korkea") = false
  /\ @GrammarDiscriminator.filter_corrections python_json
       (GrammarDiscriminator.__init__ "sk-test")
       (oracle_says (verdict three_corrections [] (VStr "korkea")))
       (VList three_corrections) "" 70
     = Raise (Exn TypeError "'<' not supported between instances of 'str' and 'int'").
Proof.
  split; [reflexivity|].
  apply (@filter_corrections_unorderable_score python_json
           (GrammarDiscriminator.__init__ "sk-test")
           (oracle_says (verdict three_corrections [] (VStr "korkea")))
           (VList three_corrections) "" 70
           [("valid_corrections", VList three_corrections);
            ("rejected_corrections", VList []);
            ("quality_score", VStr "korkea");
            ("summary", VStr "Arviointi valmis.")]
           (VStr "korkea"));
    [vm_compute; reflexivity | reflexivity | reflexivity].
Defined.

Lemma filter_corrections_missing_keys_witness :
  @GrammarDiscriminator.validate_corrections_try python_json
    (GrammarDiscriminator.__init__ "sk-test") (oracle_says "{}")
    (VList three_corrections) ""
  = Return (VDict [])
  /\ exists metadata,
       @GrammarDiscriminator.filter_corrections python_json
         (GrammarDiscriminator.__init__ "sk-test") (oracle_says "{}")
         (VList three_corrections) "" 70
       = Return (VList [], metadata).
Proof.
  split; [vm_compute; reflexivity|].
  destruct (@filter_corrections_missing_keys python_json
              (GrammarDiscriminator.__init__ "sk-test") (oracle_says "{}")
              three_corrections "" 70 []
              ltac:(vm_compute; reflexivity) eq_refl eq_refl)
    as (metadata & Hf & _).
  exists metadata. exact Hf.
Defined.

Lemma batch_validate_call_failure_witness :
  two_batches !! 1%nat = Some (VList (drop 2 four_corrections))
  /\ exists results,
       @GrammarDiscriminator.batch_validate python_json
         (GrammarDiscriminator.__init__ "sk-test") second_call_down two_batches
         (Some [""; ""])
       = Settles (Return results)
       /\ metadata_field (default (VNone, VNone) (results !! 1%nat)).2 "discriminator_used"
          = Some (VBool true).
Proof.
  split; [reflexivity|].
  destruct (@batch_validate_call_failure python_json
              (GrammarDiscriminator.__init__ "sk-test") second_call_down two_batches
              [""; ""] 1%nat (drop 2 four_corrections) ""
              (Exn APIError "Connection error.")
              eq_refl eq_refl (fun _ => eq_refl))
    as (results & Hb & Hr).
  exists results. split; [exact Hb|]. rewrite Hr. reflexivity.
Defined.

Lemma new_api_key_unquoted_witness :
  WordGrammarChecker.new quoted_call = Return quoted_checker
  /\ startswith_char (WordGrammarChecker.api_key quoted_checker) dquote = false
  /\ endswith_char (WordGrammarChecker.api_key quoted_checker) dquote = false.
Proof.
  split; [reflexivity|].
  destruct (new_api_key_unquoted quoted_call quoted_checker eq_refl)
    as (_ & Hs & _ & He & _).
  split; [exact Hs | exact (proj1 (He eq_refl))].
Defined.


Lemma process_text_without_calls_witness :
  WordGrammarChecker.n_responses idle_checker <= 0
  /\ @WordGrammarChecker.process_text python_json idle_checker flaky_oracle "Teksti."
     = (WordGrammarChecker.set_text_data idle_checker "Teksti.",
        Settles (Return ([], []))).
Proof.
  split; [discriminate|].
  apply (@process_text_without_calls python_json idle_checker flaky_oracle "Teksti.").
  discriminate.
Defined.

Lemma process_text_all_calls_fail_witness :
  1 <= WordGrammarChecker.n_responses five_checker
  /\ (@WordGrammarChecker.process_text python_json five_checker
        (fun _ => oracle_down) "Teksti.").2
     = Settles (Return ([], [])).
Proof.
  split; [discriminate|].
  apply (@process_text_all_calls_fail python_json five_checker
           (fun _ => oracle_down) "Teksti.");
    [discriminate | reflexivity | intros i _; eexists; reflexivity].
Defined.

Lemma process_text_extraction_error_witness :
  @WordGrammarChecker.extract_corrections python_json (Some (completion (VStr "[]")))
  = Raise (Exn AttributeError "'list' object has no attribute 'get'")
  /\ (@WordGrammarChecker.process_text python_json three_checker garbled_oracle
        "Teksti.").2
     = Settles (Raise (Exn AttributeError "'list' object has no attribute 'get'")).
Proof.
  split; [vm_compute; reflexivity|].
  apply (@process_text_extraction_error python_json three_checker garbled_oracle
           "Teksti." [completion (VStr (answer 0))] (completion (VStr "[]"))
           [completion (VStr (answer 2))]);
    [discriminate | reflexivity | reflexivity | | vm_compute; reflexivity].
  constructor; [|constructor]. eexists. vm_compute. reflexivity.
Defined.

Lemma process_text_payload_only_witness :
  @WordGrammarChecker.process_text python_json five_checker flaky_oracle "Teksti."
  = @WordGrammarChecker.process_text python_json five_checker flaky_oracle_five "Teksti.".
Proof.
  apply (proj1 (@process_text_payload_only python_json five_checker flaky_oracle
                  flaky_oracle_five "Teksti." "" 
                  ltac:(intros i Hi; unfold flaky_oracle_five;
                        change (Z.to_nat (WordGrammarChecker.n_responses five_checker))
                          with 5%nat in Hi;
                        destruct (Nat.ltb_spec i 5); [reflexivity | lia]))).
Defined.

Lemma process_text_blocked_witness :
  WordGrammarChecker.new gateless_call = Return gateless_checker
  /\ (@WordGrammarChecker.process_text python_json gateless_checker flaky_oracle
        "Teksti.").2
     = Blocked.
Proof.
  split; [reflexivity|].
  apply (proj1 (@process_text_blocked python_json gateless_call gateless_checker
                  flaky_oracle "Teksti." eq_refl eq_refl ltac:(discriminate))).
Defined.

Lemma extract_corrections_content_not_str_witness :
  chat_content (completion VNone) = Some VNone
  /\ @WordGrammarChecker.extract_corrections python_json (Some (completion VNone))
     = Raise (Exn TypeError
                "the JSON object must be str, bytes or bytearray, not NoneType").
Proof.
  split; [reflexivity|].
  apply (@extract_corrections_content_not_str python_json (completion VNone) VNone);
    [reflexivity | discriminate].
Defined.

Lemma process_sections_guards_witness :
  (∅ : gmap string (string * string)) !! App.session_token sample_request = None
  /\ @App.process_sections python_json ∅ "Korjaa annetut tekstit."
       (fun _ => oracle_says nested_document) sample_request
     = Settles (Raise (Exn (HTTPException 401) "Not logged in")).
Proof.
  split; [reflexivity|].
  apply (proj1 (@process_sections_guards python_json ∅ "Korjaa annetut tekstit."
                  (fun _ => oracle_says nested_document) sample_request)).
  reflexivity.
Defined.

Lemma login_then_process_sections_witness :
  (App.login sample_users ∅ "token-1" sample_login).2
  = Return (VDict [("session_token", VStr "token-1")])
  /\ @App.process_sections python_json (App.login sample_users ∅ "token-1" sample_login).1
       "Korjaa annetut tekstit." (fun _ => oracle_says nested_document) sample_request
     = Settles (Raise (Exn TypeError
         "WordGrammarChecker.__init__() got an unexpected keyword argument 'use_discriminator'")).
Proof.
  split; [reflexivity|].
  apply (@login_then_process_sections python_json sample_users ∅ "token-1" sample_login
           (VDict [("session_token", VStr "token-1")]) "Korjaa annetut tekstit."
           (fun _ => oracle_says nested_document) sample_request eq_refl eq_refl).
Defined.

(** ** Reading back a users file *)

Lemma append_assoc (a b c : string) : (a ++ b) ++ c = a ++ (b ++ c).
Proof.
  induction a as [|x a IH]; [reflexivity|].
  change (String x ((a ++ b) ++ c) = String x (a ++ (b ++ c))). f_equal. exact IH.
Qed.

Lemma lstrip_graphic (c : ascii) (s : string) :
  graphic_char c = true -> lstrip (String c s) = String c s.
Proof.
  unfold graphic_char. cbn zeta. intros Hg.
  apply andb_true_iff in Hg as [Hlo Hhi].
  apply Z.leb_le in Hlo. apply Z.leb_le in Hhi.
  cbn [lstrip]. cbn zeta.
  set (b := Z.of_N (N_of_ascii c)) in *.
  replace (((9 <=? b) && (b <=? 13)) || ((28 <=? b) && (b <=? 32))) with false
    by (destruct (Z.leb_spec 9 b), (Z.leb_spec b 13), (Z.leb_spec 28 b),
          (Z.leb_spec b 32); try reflexivity; lia).
  replace (b =? 194) with false by (symmetry; apply Z.eqb_neq; lia).
  replace (b =? 225) with false by (symmetry; apply Z.eqb_neq; lia).
  replace (b =? 226) with false by (symmetry; apply Z.eqb_neq; lia).
  replace (b =? 227) with false by (symmetry; apply Z.eqb_neq; lia).
  destruct s as [|c2 [|c3 s3]]; reflexivity.
Qed.

Lemma lstrip_reversed_graphic (c : ascii) (s : string) :
  graphic_char c = true -> lstrip_reversed (String c s) = String c s.
Proof.
  unfold graphic_char. cbn zeta. intros Hg.
  apply andb_true_iff in Hg as [Hlo Hhi].
  apply Z.leb_le in Hlo. apply Z.leb_le in Hhi.
  cbn [lstrip_reversed]. cbn zeta.
  set (b := Z.of_N (N_of_ascii c)) in *.
  replace (((9 <=? b) && (b <=? 13)) || ((28 <=? b) && (b <=? 32))) with false
    by (destruct (Z.leb_spec 9 b), (Z.leb_spec b 13), (Z.leb_spec 28 b),
          (Z.leb_spec b 32); try reflexivity; lia).
  replace (b =? 133) with false by (symmetry; apply Z.eqb_neq; lia).
  replace (b =? 160) with false by (symmetry; apply Z.eqb_neq; lia).
  replace (b =? 128) with false by (symmetry; apply Z.eqb_neq; lia).
  replace (b =? 168) with false by (symmetry; apply Z.eqb_neq; lia).
  replace (b =? 169) with false by (symmetry; apply Z.eqb_neq; lia).
  replace (b =? 175) with false by (symmetry; apply Z.eqb_neq; lia).
  replace (b =? 159) with false by (symmetry; apply Z.eqb_neq; lia).
  replace (128 <=? b) with false by (symmetry; apply Z.leb_gt; lia).
  destruct s as [|c2 [|c3 s3]]; rewrite ?andb_false_r; reflexivity.
Qed.

Lemma string_rev_snoc (front : string) (c : ascii) :
  string_rev (front ++ String c "") = String c (string_rev front).
Proof. rewrite string_rev_app. reflexivity. Qed.

Lemma rstrip_graphic (s : string) :
  graphic_ends s -> string_rev (lstrip_reversed (string_rev s)) = s.
Proof.
  intros [_ (front & c & Hs & Hc)].
  rewrite Hs at 1. rewrite string_rev_snoc, (lstrip_reversed_graphic _ _ Hc).
  rewrite <- string_rev_snoc, <- Hs. apply string_rev_involutive.
Qed.

Lemma py_strip_graphic (s : string) : graphic_ends s -> py_strip s = s.
Proof.
  intros Hs. unfold py_strip.
  destruct Hs as [(c & rest & Hc & Hg) Hend].
  assert (Hl : lstrip s = s) by (rewrite Hc; apply lstrip_graphic; exact Hg).
  rewrite Hl. apply rstrip_graphic. split; [eauto | exact Hend].
Qed.

Lemma word_graphic_ends (s : string) : word s = true -> graphic_ends s.
Proof.
  unfold word. intros Hw. apply andb_true_iff in Hw as [Hne Hall].
  destruct s as [|c s]; [discriminate Hne|]. clear Hne.
  cbn [all_graphic] in Hall. apply andb_true_iff in Hall as [Hc Hall].
  split; [eauto|].
  revert c Hc. induction s as [|c' s IH]; intros c Hc.
  - exists "", c. split; [reflexivity | exact Hc].
  - cbn [all_graphic] in Hall. apply andb_true_iff in Hall as [Hc' Hall].
    destruct (IH Hall c' Hc') as (front & last & Hs & Hlast).
    exists (String c front), last. split; [|exact Hlast].
    change (String c (String c' s) = String c (front ++ String last "")).
    f_equal. exact Hs.
Qed.

Lemma graphic_ends_app (a mid b : string) :
  graphic_ends a -> graphic_ends b -> graphic_ends (a ++ mid ++ b).
Proof.
  intros [(c & rest & -> & Hc) _] [_ (front & last & -> & Hl)]. split.
  - exists c, (rest ++ mid ++ front ++ String last ""). split; [reflexivity | exact Hc].
  - exists (String c rest ++ mid ++ front), last. split; [|exact Hl].
    rewrite !append_assoc. reflexivity.
Qed.

Lemma lacks_app (c : ascii) (a b : string) :
  lacks c (a ++ b) = lacks c a && lacks c b.
Proof.
  induction a as [|x a IH]; [reflexivity|].
  change (lacks c (String x (a ++ b)) = lacks c (String x a) && lacks c b).
  cbn [lacks]. rewrite IH. apply andb_assoc.
Qed.

Lemma all_graphic_lacks (c : ascii) (s : string) :
  graphic_char c = false -> all_graphic s = true -> lacks c s = true.
Proof.
  intros Hc. induction s as [|x s IH]; [reflexivity|].
  cbn [all_graphic lacks]. intros Hs. apply andb_true_iff in Hs as [Hx Hs].
  rewrite (IH Hs), andb_true_r.
  destruct (Ascii.eqb_spec x c) as [->|_]; [congruence | reflexivity].
Qed.

Lemma split_char_single (sep : ascii) (s : string) :
  lacks sep s = true -> split_char sep s = [s].
Proof.
  induction s as [|c s IH]; [reflexivity|].
  cbn [lacks split_char]. intros Hl. apply andb_true_iff in Hl as [Hc Hl].
  apply negb_true_iff in Hc. rewrite Hc, (IH Hl). reflexivity.
Qed.

Lemma split_char_app (sep : ascii) (a b : string) :
  lacks sep a = true ->
  split_char sep (a ++ String sep b) = a :: split_char sep b.
Proof.
  induction a as [|c a IH].
  - intros _. change (split_char sep (String sep b) = "" :: split_char sep b).
    cbn [split_char]. rewrite Ascii.eqb_refl. reflexivity.
  - cbn [lacks]. intros Hl. apply andb_true_iff in Hl as [Hc Hl].
    apply negb_true_iff in Hc.
    change (split_char sep (String c (a ++ String sep b))
            = String c a :: split_char sep b).
    cbn [split_char]. rewrite Hc, (IH Hl). reflexivity.
Qed.

Lemma after_first_app (sep : ascii) (a b : string) :
  lacks sep a = true -> after_first sep (a ++ String sep b) = Return b.
Proof.
  induction a as [|c a IH].
  - intros _. change (after_first sep (String sep b) = Return b).
    cbn [after_first]. rewrite Ascii.eqb_refl. reflexivity.
  - cbn [lacks]. intros Hl. apply andb_true_iff in Hl as [Hc Hl].
    apply negb_true_iff in Hc.
    change (after_first sep (String c (a ++ String sep b)) = Return b).
    cbn [after_first]. rewrite Hc. exact (IH Hl).
Qed.

Lemma labelled_line (label value : string) :
  word label = true -> word value = true ->
  py_strip (labelled label value) = labelled label value
  /\ String.eqb (labelled label value) "" = false
  /\ lacks "010"%char (labelled label value) = true
  /\ graphic_ends (labelled label value).
Proof.
  intros Hl Hv.
  assert (Hg : graphic_ends (labelled label value))
    by (apply graphic_ends_app; apply word_graphic_ends; assumption).
  split; [apply py_strip_graphic; exact Hg|]. split; [|split; [|exact Hg]].
  - destruct Hg as [(c & rest & -> & _) _]. reflexivity.
  - unfold labelled. rewrite !lacks_app.
    unfold word in Hl, Hv.
    apply andb_true_iff in Hl as [_ Hl]. apply andb_true_iff in Hv as [_ Hv].
    rewrite (all_graphic_lacks "010"%char label eq_refl Hl).
    rewrite (all_graphic_lacks "010"%char value eq_refl Hv). reflexivity.
Qed.

Lemma field_labelled (label value : string) :
  lacks ":"%char label = true -> word value = true ->
  App.field (labelled label value) = Return value.
Proof.
  intros Hl Hv. unfold App.field, labelled.
  change (label ++ ": " ++ value) with (label ++ String ":"%char (String " "%char value)).
  rewrite (after_first_app _ _ _ Hl). cbn [mbind result_bind]. f_equal.
  pose proof (word_graphic_ends value Hv) as Hg.
  unfold py_strip.
  change (lstrip (String " "%char value)) with (lstrip value).
  destruct Hg as [(c & rest & Hc & Hgc) Hend].
  assert (Hls : lstrip value = value) by (rewrite Hc; apply lstrip_graphic; exact Hgc).
  rewrite Hls. apply rstrip_graphic. split; [eauto | exact Hend].
Qed.

Section UsersFile.
Variables l1 l2 l3 : string.
Hypothesis Hl1 : word l1 && lacks ":"%char l1 = true.
Hypothesis Hl2 : word l2 && lacks ":"%char l2 = true.
Hypothesis Hl3 : word l3 && lacks ":"%char l3 = true.

Abbreviation written_ok :=
  (fun user : App.user => word user.1.1 && word user.1.2 && word user.2 = true).
Abbreviation as_read :=
  (fun user : App.user => (user.1.1, user.1.2, key_read user.2)).

Lemma read_users_lines (users : list App.user) :
  Forall written_ok users ->
  forall (rest : list string) (acc : list App.user),
    App.read_lines (users_lines (l1, l2, l3) users ++ rest)%list [] acc
    = App.read_lines rest [] (acc ++ (as_read <$> users))%list.
Proof.
  apply andb_true_iff in Hl1 as [Hw1 Hc1].
  apply andb_true_iff in Hl2 as [Hw2 Hc2].
  apply andb_true_iff in Hl3 as [Hw3 Hc3].
  induction 1 as [|[[u p] key] users Hok _ IH]; intros rest acc.
  - cbn [users_lines flat_map app fmap list_fmap]. rewrite app_nil_r. reflexivity.
  - cbn [fst snd] in Hok.
    apply andb_true_iff in Hok as [Hok Hk]. apply andb_true_iff in Hok as [Hu Hp].
    destruct (labelled_line l1 u Hw1 Hu) as (Hs1 & He1 & _).
    destruct (labelled_line l2 p Hw2 Hp) as (Hs2 & He2 & _).
    destruct (labelled_line l3 key Hw3 Hk) as (Hs3 & He3 & _).
    change (users_lines (l1, l2, l3) ((u, p, key) :: users) ++ rest)%list
      with (labelled l1 u :: labelled l2 p :: labelled l3 key
            :: (users_lines (l1, l2, l3) users ++ rest))%list.
    cbn [App.read_lines]. rewrite Hs1, He1. cbn [app].
    rewrite Hs2, He2. cbn [app]. rewrite Hs3, He3. cbn [app].
    rewrite (field_labelled l1 u Hc1 Hu), (field_labelled l2 p Hc2 Hp),
      (field_labelled l3 key Hc3 Hk).
    cbn [mbind result_bind]. rewrite IH.
    rewrite fmap_cons. cbn [fst snd]. rewrite <- app_assoc. reflexivity.
Qed.

Lemma unlines_body (lines : list string) :
  lines <> [] ->
  Forall (fun l => lacks "010"%char l = true /\ graphic_ends l) lines ->
  exists body,
    unlines lines = body ++ nl
    /\ split_char "010"%char body = lines
    /\ graphic_ends body.
Proof.
  intros Hne Hall. induction Hall as [|l lines [Hl Hg] Hall IH]; [congruence|].
  destruct lines as [|l' lines'].
  - exists l. split; [reflexivity|]. split; [apply split_char_single; exact Hl | exact Hg].
  - destruct (IH ltac:(discriminate)) as (body & Hb & Hsplit & Hgb).
    exists (l ++ nl ++ body). split; [|split].
    + cbn [unlines] in Hb |- *. rewrite Hb. rewrite !append_assoc. reflexivity.
    + change (l ++ nl ++ body) with (l ++ String "010"%char body).
      rewrite (split_char_app _ _ _ Hl), Hsplit. reflexivity.
    + apply graphic_ends_app; assumption.
Qed.

Lemma py_strip_line_end (body : string) :
  graphic_ends body -> py_strip (body ++ nl) = body.
Proof.
  intros Hg. unfold py_strip.
  destruct Hg as [(c & rest & Hc & Hgc) Hend].
  assert (Hl : lstrip (body ++ nl) = body ++ nl).
  { rewrite Hc. change (String c rest ++ nl) with (String c (rest ++ nl)).
    apply lstrip_graphic. exact Hgc. }
  rewrite Hl, string_rev_app.
  change (string_rev nl ++ string_rev body) with (String "010"%char (string_rev body)).
  change (lstrip_reversed (String "010"%char (string_rev body)))
    with (lstrip_reversed (string_rev body)).
  apply rstrip_graphic. split; [eauto | exact Hend].
Qed.

(** X22: [load_users] reads back a users file written with three
    labelled lines for each user: the users come back in their order,
    each with its name and its password as written, and with its key
    without the double quotes when it stands between two of them.  The
    labels are any words without a colon; the values are words. *)
Theorem load_users_reads_users_file (users : list App.user) :
  Forall written_ok users ->
  App.load_users (Some (users_file (l1, l2, l3) users)) = Return (as_read <$> users).
Proof.
  intros Hok. unfold App.load_users, users_file.
  destruct users as [|user users].
  - reflexivity.
  - destruct (unlines_body (users_lines (l1, l2, l3) (user :: users)))
      as (body & Hb & Hsplit & Hg).
    + destruct user as [[u p] key]. discriminate.
    + clear -Hok Hl1 Hl2 Hl3.
      apply andb_true_iff in Hl1 as [Hw1 _].
      apply andb_true_iff in Hl2 as [Hw2 _].
      apply andb_true_iff in Hl3 as [Hw3 _].
      induction Hok as [|[[u p] key] us Hu _ IH]; [constructor|].
      cbn [fst snd] in Hu.
      apply andb_true_iff in Hu as [Hu Hk]. apply andb_true_iff in Hu as [Hu Hp].
      change (users_lines (l1, l2, l3) ((u, p, key) :: us))
        with (labelled l1 u :: labelled l2 p :: labelled l3 key
              :: users_lines (l1, l2, l3) us).
      repeat constructor; try exact IH;
        first [ apply (labelled_line _ _ Hw1 Hu) | apply (labelled_line _ _ Hw2 Hp)
              | apply (labelled_line _ _ Hw3 Hk) ].
    + rewrite Hb, (py_strip_line_end body Hg), Hsplit.
      rewrite <- (app_nil_r (users_lines (l1, l2, l3) (user :: users))).
      rewrite (read_users_lines (user :: users) Hok [] []). reflexivity.
Qed.

End UsersFile.

Lemma load_users_reads_users_file_witness :
  word "API-Key" && lacks ":"%char "API-Key" = true
  /\ App.load_users (Some (users_file ("Username", "Password", "API-Key") written_users))
     = Return sample_users.
Proof.
  split; [reflexivity|].
  apply (load_users_reads_users_file "Username" "Password" "API-Key"
           eq_refl eq_refl eq_refl written_users).
  repeat constructor.
Defined.
